(** * Biotime attendance service: the attendance computations of
    [biotime_service.py], embedded and verified.

    The file has three layers.
    - [Py]: the few Python built-ins the service relies on (exceptions,
      JSON fields read with [.get] or [[...]], truthiness, [str.split],
      [%d] formatting, the stable [sorted]).
    - [Datetime]: the part of Python's [datetime] module the service calls
      (proleptic Gregorian ordinals, [weekday], [timedelta] arithmetic,
      [strftime]/[strptime] for the two formats in use, [str(timedelta)]).
    - [Biotime]: the service's own functions, one definition per source
      function, taking what the upstream fetches returned as arguments.

    Conventions of the embedding.
    - Text is a Rocq string (characters with a code below 256), compared
      character by character as Python compares [str] values.
    - A JSON field of an upstream record is absent, [null] or a string;
      the service reads no field of another type but ["department"].
    - A function that can raise returns a [result]; an exception that no
      handler catches ends the request, so it is the result of the
      endpoint.
    - [strftime] writes the year with four digits, as it does for the years
      from 1000 on. *)

From Stdlib Require Import ZArith Lia Ascii String.
From stdpp Require Import base option list sorting gmap strings.

(* ------------------------------------------------------------------ *)
(** ** Python built-ins *)

Module Py.

(** The exceptions that the modelled code can raise. *)
Inductive exn : Type :=
  | KeyError
  | TypeError
  | ValueError
  | IndexError
  | OverflowError.

(** A computation returns a value or raises. A loop whose end is not
    structural is run with a bound on its iterations: [OutOfFuel] stands
    for a bound that was reached, which is no behaviour of the program. *)
Inductive result (A : Type) : Type :=
  | Ok (a : A)
  | Raise (e : exn)
  | OutOfFuel.
Global Arguments Ok {A} a.
Global Arguments Raise {A} e.
Global Arguments OutOfFuel {A}.

Global Instance result_ret : MRet result := @Ok.
Global Instance result_bind : MBind result := λ A B f m,
  match m with
  | Ok a => f a
  | Raise e => Raise e
  | OutOfFuel => OutOfFuel
  end.

(** [for x in xs: acc = body(acc, x)], stopping at the first exception. *)
Fixpoint foldlM {A B} (f : A → B → result A) (a : A) (l : list B) : result A :=
  match l with
  | [] => Ok a
  | x :: l => a' ← f a x; foldlM f a' l
  end.

(** A field of a JSON object: the key is absent, holds [null], or holds
    a string. *)
Inductive jfield : Type :=
  | Missing
  | Null
  | Str (s : string).

(** [obj.get(key)]: [None] for an absent key and for [null]. *)
Definition get (f : jfield) : option string :=
  match f with
  | Str s => Some s
  | Missing | Null => None
  end.

(** [obj.get(key, default)]. *)
Definition get_default (f : jfield) (d : string) : option string :=
  match f with
  | Missing => Some d
  | Null => None
  | Str s => Some s
  end.

(** [obj[key]]: raises [KeyError] for an absent key. *)
Definition getitem (f : jfield) : result (option string) :=
  match f with
  | Missing => Raise KeyError
  | Null => Ok None
  | Str s => Ok (Some s)
  end.

(** Truthiness of a [.get] result: [None] and the empty string are falsy. *)
Definition truthy (o : option string) : bool :=
  match o with
  | Some (String _ _) => true
  | Some EmptyString | None => false
  end.

(** [s.split(" ")[0]]: the text before the first space. *)
Fixpoint split_space_0 (s : string) : string :=
  match s with
  | EmptyString => EmptyString
  | String c s' =>
      if Ascii.eqb c " "%char then EmptyString else String c (split_space_0 s')
  end.

Definition digit_char (d : Z) : ascii :=
  Ascii.ascii_of_N (48 + Z.to_N d).

(** Decimal digits of a non-negative integer, most significant first. *)
Fixpoint str_nat_go (fuel : nat) (n : Z) (acc : string) : string :=
  match fuel with
  | O => acc
  | S fuel =>
      let acc' := String (digit_char (n mod 10)) acc in
      if (n / 10 =? 0)%Z then acc' else str_nat_go fuel (n / 10) acc'
  end.

(** ["%d" % n]. *)
Definition str_int (n : Z) : string :=
  if (n <? 0)%Z
  then String "-"%char (str_nat_go (S (Z.to_nat (Z.log2 (- n)))) (- n) "")
  else str_nat_go (S (Z.to_nat (Z.log2 n))) n "".

(** ["%0<w>d" % n] for a non-negative [n]. *)
Definition zfill (w : nat) (n : Z) : string :=
  let s := str_int n in
  String.app (string_of_list_ascii (replicate (w - String.length s) "0"%char)) s.

(** Insertion into a list already sorted by key: the new element goes
    before the first element whose key is not smaller, so before every
    element with an equal key. *)
Fixpoint insert_by {A K} (le : K → K → bool) (key : A → K)
    (x : A) (l : list A) : list A :=
  match l with
  | [] => [x]
  | y :: l' =>
      if le (key x) (key y) then x :: y :: l'
      else y :: insert_by le key x l'
  end.

(** [sorted(l, key=key)]: Python's sort is stable, which fixes its result;
    it is modelled by a stable insertion sort (an element is inserted into
    the sorted rest of the list, ahead of the elements with an equal key
    that followed it). *)
Fixpoint sorted {A K} (le : K → K → bool) (key : A → K) (l : list A) : list A :=
  match l with
  | [] => []
  | x :: l' => insert_by le key x (sorted le key l')
  end.

(** [sorted] with a key function that may raise: the keys of all the
    elements are computed first, as Python does. *)
Definition sortedM {A K} (le : K → K → bool) (key : A → result K)
    (l : list A) : result (list A) :=
  keyed ← mapM (λ x, k ← key x; mret (k, x)) l;
  mret (snd <$> sorted le fst keyed).

End Py.
Export Py.

(* ------------------------------------------------------------------ *)
(** ** Python's [datetime] module *)

Module Datetime.
Local Open Scope Z_scope.

Definition MINYEAR : Z := 1.
Definition MAXYEAR : Z := 9999.
Definition MAXORDINAL : Z := 3652059.

Definition DAYS_IN_MONTH (month : Z) : Z :=
  match month with
  | 1 => 31 | 2 => 28 | 3 => 31 | 4 => 30 | 5 => 31 | 6 => 30
  | 7 => 31 | 8 => 31 | 9 => 30 | 10 => 31 | 11 => 30 | 12 => 31
  | _ => -1
  end.

Definition DAYS_BEFORE_MONTH (month : Z) : Z :=
  match month with
  | 1 => 0 | 2 => 31 | 3 => 59 | 4 => 90 | 5 => 120 | 6 => 151
  | 7 => 181 | 8 => 212 | 9 => 243 | 10 => 273 | 11 => 304 | 12 => 334
  | _ => -1
  end.

Definition is_leap (year : Z) : bool :=
  (year mod 4 =? 0) && (negb (year mod 100 =? 0) || (year mod 400 =? 0)).

Definition days_before_year (year : Z) : Z :=
  let y := year - 1 in
  y * 365 + y / 4 - y / 100 + y / 400.

Definition days_in_month (year month : Z) : Z :=
  if (month =? 2) && is_leap year then 29 else DAYS_IN_MONTH month.

Definition days_before_month (year month : Z) : Z :=
  DAYS_BEFORE_MONTH month + (if (2 <? month) && is_leap year then 1 else 0).

Definition ymd2ord (year month day : Z) : Z :=
  days_before_year year + days_before_month year month + day.

Definition DI400Y : Z := 146097.
Definition DI100Y : Z := 36524.
Definition DI4Y : Z := 1461.

Record date : Type := mk_date { year : Z; month : Z; day : Z }.

Record time : Type :=
  mk_time { hour : Z; minute : Z; second : Z; microsecond : Z }.

(** A [datetime] (without time zone): [date_of] is [.date()], [time_of] is
    [.time()] and the constructor is [datetime.combine]. *)
Record datetime : Type := combine { date_of : date; time_of : time }.

(** Month and day (1-based) of the day numbered [n] (0-based) within a
    year: the month is estimated and corrected downwards. *)
Definition month_day_of_yday (leapyear : bool) (n : Z) : Z * Z :=
  let month := Z.shiftr (n + 50) 5 in
  let preceding :=
    DAYS_BEFORE_MONTH month + (if (2 <? month) && leapyear then 1 else 0) in
  if n <? preceding then
    let month' := month - 1 in
    let preceding' :=
      preceding
      - (DAYS_IN_MONTH month' + (if (month' =? 2) && leapyear then 1 else 0)) in
    (month', n - preceding' + 1)
  else (month, n - preceding + 1).

(** [_ord2ymd]: the date of a proleptic Gregorian ordinal (day 1 is
    0001-01-01), by 400-, 100-, 4- and 1-year cycles. *)
Definition ord2ymd (n : Z) : date :=
  let n := n - 1 in
  let n400 := n / DI400Y in
  let n := n mod DI400Y in
  let year := n400 * 400 + 1 in
  let n100 := n / DI100Y in
  let n := n mod DI100Y in
  let n4 := n / DI4Y in
  let n := n mod DI4Y in
  let n1 := n / 365 in
  let n := n mod 365 in
  let year := year + n100 * 100 + n4 * 4 + n1 in
  if (n1 =? 4) || (n100 =? 4) then mk_date (year - 1) 12 31
  else
    let leapyear := (n1 =? 3) && (negb (n4 =? 24) || (n100 =? 3)) in
    let '(month, day) := month_day_of_yday leapyear n in
    mk_date year month day.

Definition toordinal (d : date) : Z := ymd2ord (year d) (month d) (day d).
Definition fromordinal (n : Z) : date := ord2ymd n.

(** [weekday()]: Monday is 0 and Sunday is 6. *)
Definition weekday (d : date) : Z := (toordinal d + 6) mod 7.

(** The range checks of the [date] and [time] constructors; the values of
    the two types are the records that pass them. *)
Definition check_date_fields (y m d : Z) : bool :=
  (MINYEAR <=? y) && (y <=? MAXYEAR) && (1 <=? m) && (m <=? 12)
  && (1 <=? d) && (d <=? days_in_month y m).

Definition check_time_fields (h mi s us : Z) : bool :=
  (0 <=? h) && (h <=? 23) && (0 <=? mi) && (mi <=? 59)
  && (0 <=? s) && (s <=? 59) && (0 <=? us) && (us <=? 999999).

(** [datetime(year, month, day, hour, minute, second, microsecond)] on
    numbers that fit the C type [int], as the fields of a date and the
    digits that [strptime] reads do. *)
Definition new_datetime (y m d h mi s us : Z) : result datetime :=
  if check_date_fields y m d && check_time_fields h mi s us
  then Ok (combine (mk_date y m d) (mk_time h mi s us))
  else Raise ValueError.

(** [datetime(year, month, day)] on any integers: the constructor converts
    its arguments to the C type [int] before it checks their ranges, and
    raises [OverflowError] for a number that does not fit. *)
Definition fits_c_int (n : Z) : bool :=
  (-2147483648 <=? n) && (n <=? 2147483647).

Definition datetime_of_ints (y m d : Z) : result datetime :=
  if fits_c_int y && fits_c_int m && fits_c_int d
  then new_datetime y m d 0 0 0 0
  else Raise OverflowError.

Definition valid_date (d : date) : Prop :=
  check_date_fields (year d) (month d) (day d).
Definition valid_time (t : time) : Prop :=
  check_time_fields (hour t) (minute t) (second t) (microsecond t).
Definition valid_datetime (dt : datetime) : Prop :=
  valid_date (date_of dt) ∧ valid_time (time_of dt).

Definition midnight : time := mk_time 0 0 0 0.

(** Comparison of dates and of datetimes is field by field. *)
Definition lex (c1 c2 : comparison) : comparison :=
  match c1 with Eq => c2 | _ => c1 end.

Definition date_cmp (a b : date) : comparison :=
  lex (year a ?= year b) (lex (month a ?= month b) (day a ?= day b)).

Definition time_cmp (a b : time) : comparison :=
  lex (hour a ?= hour b) (lex (minute a ?= minute b)
    (lex (second a ?= second b) (microsecond a ?= microsecond b))).

Definition datetime_cmp (a b : datetime) : comparison :=
  lex (date_cmp (date_of a) (date_of b)) (time_cmp (time_of a) (time_of b)).

Definition date_le (a b : date) : bool :=
  match date_cmp a b with Gt => false | _ => true end.
Definition datetime_le (a b : datetime) : bool :=
  match datetime_cmp a b with Gt => false | _ => true end.
Definition datetime_lt (a b : datetime) : bool :=
  match datetime_cmp a b with Lt => true | _ => false end.
Definition datetime_gt (a b : datetime) : bool := datetime_lt b a.

(** A [timedelta] in normal form: [0 <= seconds < 86400] and
    [0 <= microseconds < 1000000]. *)
Record timedelta : Type :=
  mk_timedelta { td_days : Z; td_seconds : Z; td_microseconds : Z }.

(** [timedelta(days, seconds, microseconds)]: the constructor normalises.
    (Its limit of 999999999 days is out of reach of the differences and
    constants formed here.) *)
Definition new_timedelta (days seconds microseconds : Z) : timedelta :=
  let s := seconds + microseconds / 1000000 in
  mk_timedelta (days + s / 86400) (s mod 86400) (microseconds mod 1000000).

Definition seconds_of_time (t : time) : Z :=
  second t + minute t * 60 + hour t * 3600.

(** [dt + delta]: through the ordinal; [OverflowError] outside years
    1..9999. *)
Definition datetime_add (dt : datetime) (delta : timedelta) : result datetime :=
  let t := time_of dt in
  let sum :=
    new_timedelta (toordinal (date_of dt) + td_days delta)
      (seconds_of_time t + td_seconds delta)
      (microsecond t + td_microseconds delta) in
  let hour := td_seconds sum / 3600 in
  let rem := td_seconds sum mod 3600 in
  if (0 <? td_days sum) && (td_days sum <=? MAXORDINAL)
  then Ok (combine (fromordinal (td_days sum))
             (mk_time hour (rem / 60) (rem mod 60) (td_microseconds sum)))
  else Raise OverflowError.

Definition timedelta_neg (d : timedelta) : timedelta :=
  new_timedelta (- td_days d) (- td_seconds d) (- td_microseconds d).

(** [dt - delta]. *)
Definition datetime_sub_delta (dt : datetime) (delta : timedelta) : result datetime :=
  datetime_add dt (timedelta_neg delta).

(** [a - b] for two datetimes. *)
Definition datetime_sub (a b : datetime) : timedelta :=
  new_timedelta (toordinal (date_of a) - toordinal (date_of b))
    (seconds_of_time (time_of a) - seconds_of_time (time_of b))
    (microsecond (time_of a) - microsecond (time_of b)).

(** [str(delta)]: ["H:MM:SS"], preceded by the days when there are any and
    followed by the microseconds when there are any. *)
Definition str_timedelta (d : timedelta) : string :=
  let mm := td_seconds d / 60 in
  let ss := td_seconds d mod 60 in
  let hh := mm / 60 in
  let mm := mm mod 60 in
  let s := (str_int hh +:+ ":" +:+ zfill 2 mm +:+ ":" +:+ zfill 2 ss)%string in
  let plural : string := if Z.abs (td_days d) =? 1 then ""%string else "s"%string in
  let s :=
    if td_days d =? 0 then s
    else (str_int (td_days d) +:+ " day" +:+ plural +:+ ", " +:+ s)%string in
  if td_microseconds d =? 0 then s
  else (s +:+ "." +:+ zfill 6 (td_microseconds d))%string.

(** [strftime("%Y-%m-%d")] and [strftime("%Y-%m-%d %H:%M:%S")]. The year
    is written with four digits: from the year 1000 on every platform
    writes it so; for the years before, the C library of the platform
    decides whether zeros are put in front, and they are here. *)
Definition strftime_date (d : date) : string :=
  (zfill 4 (year d) +:+ "-" +:+ zfill 2 (month d) +:+ "-" +:+ zfill 2 (day d))%string.

Definition strftime_time (t : time) : string :=
  (zfill 2 (hour t) +:+ ":" +:+ zfill 2 (minute t) +:+ ":" +:+ zfill 2 (second t))%string.

Definition strftime (dt : datetime) : string :=
  (strftime_date (date_of dt) +:+ " " +:+ strftime_time (time_of dt))%string.

(** *** [strptime]

    [_strptime] turns the format into a regular expression, takes the
    first match of it at the start of the text (alternatives in the order
    written, with backtracking), and rejects the text when the match does
    not reach its end. A directive is modelled as the list of its possible
    matches in the regular expression's order of preference, each with
    the text that remains. *)

Definition parser (A : Type) : Type := string → list (A * string).

Definition code (c : ascii) : Z := Z.of_N (N_of_ascii c).

Definition between (lo hi : ascii) (c : ascii) : bool :=
  (code lo <=? code c) && (code c <=? code hi).

Definition digit_val (c : ascii) : Z := code c - 48.

(** [\d] *)
Definition is_digit : ascii → bool := between "0" "9".

(** [\s]: the white space below code 256. *)
Definition is_space (c : ascii) : bool :=
  let n := code c in
  ((9 <=? n) && (n <=? 13)) || ((28 <=? n) && (n <=? 32))
  || (n =? 133) || (n =? 160).

(** One character of a class, read as a digit. *)
Definition one (p : ascii → bool) : parser Z := λ s,
  match s with
  | String c r => if p c then [(digit_val c, r)] else []
  | EmptyString => []
  end.

(** Two characters of two classes, read as a two-digit number. *)
Definition two (p1 p2 : ascii → bool) : parser Z := λ s,
  match s with
  | String c1 (String c2 r) =>
      if p1 c1 && p2 c2 then [(10 * digit_val c1 + digit_val c2, r)] else []
  | _ => []
  end.

(** [p|q] *)
Definition alt {A} (p q : parser A) : parser A := λ s, p s ++ q s.

(** A literal character of the format. *)
Definition lit (c : ascii) : parser unit := λ s,
  match s with
  | String c' r => if Ascii.eqb c c' then [(tt, r)] else []
  | EmptyString => []
  end.

(** [\s+], which stands for a space of the format: the longest run first. *)
Fixpoint spaces_go (s : string) : list (unit * string) :=
  match s with
  | String c r => if is_space c then spaces_go r ++ [(tt, r)] else []
  | EmptyString => []
  end.
Definition spaces : parser unit := spaces_go.

Definition is_char (a : ascii) : ascii → bool := Ascii.eqb a.

(** [%Y] is [\d\d\d\d]. *)
Definition re_Y : parser Z := λ s,
  '(hi, r) ← two is_digit is_digit s;
  '(lo, r) ← two is_digit is_digit r;
  [(100 * hi + lo, r)].

(** [%m] is [1[0-2]|0[1-9]|[1-9]]. *)
Definition re_m : parser Z :=
  alt (two (is_char "1") (between "0" "2"))
    (alt (two (is_char "0") (between "1" "9")) (one (between "1" "9"))).

(** [%d] is [3[0-1]|[1-2]\d|0[1-9]|[1-9]| [1-9]]. *)
Definition re_d : parser Z :=
  alt (two (is_char "3") (between "0" "1"))
    (alt (two (between "1" "2") is_digit)
      (alt (two (is_char "0") (between "1" "9"))
        (alt (one (between "1" "9"))
          (λ s, '(_, r) ← lit " " s; one (between "1" "9") r)))).

(** [%H] is [2[0-3]|[0-1]\d|\d]. *)
Definition re_H : parser Z :=
  alt (two (is_char "2") (between "0" "3"))
    (alt (two (between "0" "1") is_digit) (one is_digit)).

(** [%M] is [[0-5]\d|\d]. *)
Definition re_M : parser Z :=
  alt (two (between "0" "5") is_digit) (one is_digit).

(** [%S] is [6[0-1]|[0-5]\d|\d]. *)
Definition re_S : parser Z :=
  alt (two (is_char "6") (between "0" "1"))
    (alt (two (between "0" "5") is_digit) (one is_digit)).

(** A directive and the separator that follows it in the format. *)
Definition followed_by {A B} (p : parser A) (q : parser B) : parser A := λ s,
  '(v, r) ← p s;
  '(_, r) ← q r;
  [(v, r)].

(** ["%H:%M:%S"] *)
Definition re_HMS : parser (Z * Z * Z) := λ s,
  '(hh, r) ← followed_by re_H (lit ":") s;
  '(mm, r) ← followed_by re_M (lit ":") r;
  '(ss, r) ← re_S r;
  [((hh, mm, ss), r)].

(** ["%Y-%m-%d %H:%M:%S"] *)
Definition re_Ymd_HMS : parser (Z * Z * Z * (Z * Z * Z)) := λ s,
  '(y, r) ← followed_by re_Y (lit "-") s;
  '(m, r) ← followed_by re_m (lit "-") r;
  '(d, r) ← followed_by re_d spaces r;
  '(hms, r) ← re_HMS r;
  [((y, m, d, hms), r)].

(** The first match must reach the end of the text. *)
Definition first_match {A} (matches : list (A * string)) : result A :=
  match matches with
  | (v, EmptyString) :: _ => Ok v
  | _ => Raise ValueError
  end.

(** [datetime.strptime(s, "%Y-%m-%d %H:%M:%S")]: [ValueError] when the
    text does not match, when data remains after the match, and when the
    fields are not those of a date and a time. *)
Definition strptime (s : string) : result datetime :=
  '(y, m, d, (hh, mm, ss)) ← first_match (re_Ymd_HMS s);
  new_datetime y m d hh mm ss 0.

(** [datetime.strptime(s, "%H:%M:%S")]: the date is 1900-01-01. *)
Definition strptime_HMS (s : string) : result datetime :=
  '(hh, mm, ss) ← first_match (re_HMS s);
  new_datetime 1900 1 1 hh mm ss 0.

End Datetime.
Export Datetime.

(* ------------------------------------------------------------------ *)
(** ** The service *)

Module Biotime.

(** A punch record of the transactions endpoint, with the fields the
    service reads. *)
Record transaction : Type := mk_transaction {
  tx_emp_code : jfield;
  tx_punch_time : jfield;
  tx_first_name : jfield;
  tx_department : jfield;
  tx_terminal_alias : jfield;
}.

(** The ["department"] value of an employee record: absent, [null], an
    object (of which ["dept_name"] is read) or anything else. *)
Inductive jdepartment : Type :=
  | DeptMissing
  | DeptNull
  | DeptDict (dept_name : jfield)
  | DeptOther.

(** An employee record of the personnel endpoint. *)
Record employee : Type := mk_employee {
  emp_emp_code : jfield;
  emp_first_name : jfield;
  emp_last_name : jfield;
  emp_department : jdepartment;
}.

(** An entry of [late_details]: keys ["date"], ["punch_time"], ["late_by"]. *)
Record late_detail : Type := mk_late_detail {
  ld_date : string;
  ld_punch_time : string;
  ld_late_by : string;
}.

(** The per-employee counters of [calculate_attendance_stats], under the
    names of its local variables; the ["stats"] object of a report row
    holds them under the keys ["present"], ["late"], ["absent"],
    ["work_days_required"], ["late_details"], ["absent_details"]. *)
Record stats : Type := mk_stats {
  days_present : nat;
  days_late : nat;
  days_absent : nat;
  total_required_days : nat;
  late_details : list late_detail;
  absent_details : list string;
}.

Record report_row : Type := mk_report_row {
  row_emp_code : string;
  row_first_name : option string;
  row_last_name : option string;
  row_department : option string;
  row_stats : stats;
}.

(** [punches_map]: employee code, then date string, then the punches. *)
Abbreviation punches_map := (gmap string (gmap string (list transaction))).

(** Step 2, the body of [for tx in transactions]. *)
Definition index_transaction (m : punches_map) (tx : transaction) : punches_map :=
  let emp_code := get (tx_emp_code tx) in
  let p_time := get (tx_punch_time tx) in
  match emp_code, p_time with
  | Some code, Some p =>
      if negb (truthy emp_code) || negb (truthy p_time) then m
      else
        let date_str := split_space_0 p in
        let days := default ∅ (m !! code) in
        let bucket := default [] (days !! date_str) in
        <[code := <[date_str := bucket ++ [tx]]> days]> m
  | _, _ => m
  end.

Definition index_transactions (transactions : list transaction) : punches_map :=
  foldl index_transaction ∅ transactions.

(** Step 4, [while curr.date() <= end_dt.date()], run with a bound on its
    iterations. *)
Fixpoint all_dates_loop (fuel : nat) (curr end_dt : datetime)
    (all_dates : list datetime) : result (list datetime) :=
  match fuel with
  | O => OutOfFuel
  | S fuel =>
      if date_le (date_of curr) (date_of end_dt) then
        next ← datetime_add curr (new_timedelta 1 0 0);
        all_dates_loop fuel next end_dt (all_dates ++ [curr])
      else Ok all_dates
  end.

(** One more iteration than there are days from [start_dt] to [end_dt]:
    the days, and the failing test that ends the loop
    ([all_dates_loop_enough] shows that this is enough). *)
Definition all_dates_fuel (start_dt end_dt : datetime) : nat :=
  S (Z.to_nat (toordinal (date_of end_dt) - toordinal (date_of start_dt) + 1)).

Definition generate_date_list (start_dt end_dt : datetime)
    : result (list datetime) :=
  all_dates_loop (all_dates_fuel start_dt end_dt) start_dt end_dt [].

(** [sorted(daily_txs, key=lambda x: x["punch_time"])]: the keys are read
    first ([KeyError] for an absent key); a [null] key cannot be compared
    with another key, nor parsed when it is the only one, so the day's
    computation raises [TypeError] in both cases. *)
Definition str_key (k : option string) : result string :=
  match k with
  | Some s => Ok s
  | None => Raise TypeError
  end.

Definition sorted_by_punch_time (daily_txs : list transaction)
    : result (list transaction) :=
  keys ← mapM (λ x, getitem (tx_punch_time x)) daily_txs;
  strs ← mapM str_key keys;
  mret (snd <$> sorted String.leb fst (zip strs daily_txs)).

Definition punch_time_item (x : transaction) : result string :=
  getitem (tx_punch_time x) ≫= str_key.

Definition initial_stats : stats := mk_stats 0 0 0 0 [] [].

(** Step 5, the body of [for day in all_dates] for one employee. *)
Definition classify_day (late_time_struct : time)
    (emp_punches : gmap string (list transaction))
    (st : stats) (day : datetime) : result stats :=
  let d_str := strftime_date (date_of day) in
  let is_weekend := (weekday (date_of day) =? 6)%Z in
  let daily_txs := default [] (emp_punches !! d_str) in
  let has_punches := bool_decide (0 < length daily_txs) in
  if is_weekend then
    if has_punches then
      Ok (mk_stats (days_present st + 1) (days_late st) (days_absent st)
            (total_required_days st) (late_details st) (absent_details st))
    else Ok st
  else
    let total_required_days' := total_required_days st + 1 in
    if negb has_punches then
      Ok (mk_stats (days_present st) (days_late st) (days_absent st + 1)
            total_required_days' (late_details st)
            (absent_details st ++ [d_str]))
    else
      let days_present' := days_present st + 1 in
      sorted_punches ← sorted_by_punch_time daily_txs;
      match sorted_punches with
      | [] => Raise IndexError
      | first_punch :: _ =>
          first_punch_str ← punch_time_item first_punch;
          first_punch_dt ← strptime first_punch_str;
          let threshold_dt := combine (date_of day) late_time_struct in
          if datetime_gt first_punch_dt threshold_dt then
            Ok (mk_stats days_present' (days_late st + 1) (days_absent st)
                  total_required_days'
                  (late_details st ++
                     [mk_late_detail d_str first_punch_str
                        (str_timedelta (datetime_sub first_punch_dt threshold_dt))])
                  (absent_details st))
          else
            Ok (mk_stats days_present' (days_late st) (days_absent st)
                  total_required_days' (late_details st) (absent_details st))
      end.

(** The department name of an employee record. *)
Definition dept_of (d : jdepartment) : option string :=
  match d with
  | DeptDict dept_name => get dept_name
  | DeptMissing | DeptNull | DeptOther => None
  end.

(** Step 5, the body of [for emp in employees]. *)
Definition employee_stats (late_time_struct : time) (m : punches_map)
    (all_dates : list datetime) (report_data : list report_row)
    (emp : employee) : result (list report_row) :=
  let code := get (emp_emp_code emp) in
  match code with
  | Some c =>
      if negb (truthy code) then Ok report_data
      else
        let first_name := get_default (emp_first_name emp) "" in
        let last_name := get_default (emp_last_name emp) "" in
        let dept := dept_of (emp_department emp) in
        let emp_punches := default ∅ (m !! c) in
        st ← foldlM (classify_day late_time_struct emp_punches)
               initial_stats all_dates;
        Ok (report_data ++ [mk_report_row c first_name last_name dept st])
  | None => Ok report_data
  end.

(** [calculate_attendance_stats(start_dt, end_dt)], given the
    configuration value [LATE_AFTER_TIME] and what [fetch_all_employees]
    and [fetch_all_transactions] returned. *)
Definition calculate_attendance_stats (LATE_AFTER_TIME : string)
    (employees : list employee) (transactions : list transaction)
    (start_dt end_dt : datetime) : result (list report_row) :=
  let m := index_transactions transactions in
  late_dt ← strptime_HMS LATE_AFTER_TIME;
  let late_time_struct := time_of late_dt in
  all_dates ← generate_date_list start_dt end_dt;
  report_data ←
    foldlM (employee_stats late_time_struct m all_dates) [] employees;
  mret (sorted String.leb row_emp_code report_data).

(** The response of a report endpoint. *)
Record report : Type := mk_report {
  period : string;
  period_start : string;
  period_end : string;
  count : nat;
  data : list report_row;
}.

(** The filter of the three report endpoints:
    [d["stats"]["late"] > 0 or d["stats"]["absent"] > 0]. *)
Definition late_or_absent (d : report_row) : bool :=
  bool_decide (0 < days_late (row_stats d))
  || bool_decide (0 < days_absent (row_stats d)).

(** What the report endpoints do once the period is known. *)
Definition build_report (LATE_AFTER_TIME : string)
    (employees : list employee) (transactions : list transaction)
    (period_type : string) (start_dt end_dt : datetime)
    : result report :=
  all_data ← calculate_attendance_stats LATE_AFTER_TIME employees transactions
                start_dt end_dt;
  let filtered_data := filter late_or_absent all_data in
  mret (mk_report period_type (strftime start_dt) (strftime end_dt)
          (length filtered_data) filtered_data).

(** Truthiness of an optional integer query parameter. *)
Definition truthy_int (o : option Z) : bool :=
  match o with
  | Some n => negb (n =? 0)%Z
  | None => false
  end.

(** The period of [attendance_report_monthly(month, year)] at time [now]:
    the whole month when both parameters are given and not zero, the
    current month to date otherwise. The two parameters are integers of
    any size. *)
Definition monthly_period (now : datetime) (month year : option Z)
    : result (string * datetime * datetime) :=
  if truthy_int month && truthy_int year then
    let m := default 0%Z month in
    let y := default 0%Z year in
    start_dt ← datetime_of_ints y m 1;
    next_month ←
      (if (m =? 12)%Z then datetime_of_ints (y + 1) 1 1
       else datetime_of_ints y (m + 1) 1);
    end_dt ← datetime_sub_delta next_month (new_timedelta 0 1 0);
    mret ("custom_month"%string, start_dt, end_dt)
  else
    start_dt ← new_datetime (Datetime.year (date_of now))
                 (Datetime.month (date_of now)) 1 0 0 0 0;
    mret ("current_month_to_date"%string, start_dt, now).

(** [attendance_report_monthly(month, year)], with the value of
    [datetime.now()]. *)
Definition attendance_report_monthly (LATE_AFTER_TIME : string)
    (employees : list employee) (transactions : list transaction)
    (now : datetime) (month year : option Z) : result report :=
  '(period_type, start_dt, end_dt) ← monthly_period now month year;
  build_report LATE_AFTER_TIME employees transactions period_type start_dt end_dt.

(** The period of [attendance_report_weekly()]: this week's Monday at
    midnight up to now. *)
Definition weekly_period (now : datetime) : result (datetime * datetime) :=
  let days_since_monday := weekday (date_of now) in
  this_monday ← datetime_sub_delta now (new_timedelta days_since_monday 0 0);
  let this_monday := combine (date_of this_monday) midnight in
  mret (this_monday, now).


(** The period of [attendance_report_monthly_previous()]. *)
Definition previous_month_period (now : datetime) : result (datetime * datetime) :=
  this_month_first ← new_datetime (Datetime.year (date_of now))
                       (Datetime.month (date_of now)) 1 0 0 0 0;
  prev_month_last ← datetime_sub_delta this_month_first (new_timedelta 0 1 0);
  prev_month_first ← new_datetime (Datetime.year (date_of prev_month_last))
                       (Datetime.month (date_of prev_month_last)) 1 0 0 0 0;
  mret (prev_month_first, prev_month_last).


(** *** The plain range summary *)

(** A row of [build_attendance_summary]. The employee code is the key of
    the group, which is [None] for records whose code is [null]. *)
Record summary_row : Type := mk_summary_row {
  sum_emp_code : option string;
  sum_first_name : option string;
  sum_department : option string;
  first_punch_time : option string;
  first_terminal_alias : option string;
  last_punch_time : option string;
  last_terminal_alias : option string;
  total_punches : nat;
}.

Record summary : Type := mk_summary {
  start_date : string;
  end_date : string;
  sum_count : nat;
  sum_data : list summary_row;
}.

(** [grouped[key].append(rec)] on a [defaultdict(list)]; the dictionary
    keeps its keys in the order of their first insertion, which is the
    order [grouped.items()] follows. *)
Fixpoint group_append (key : option string) (rec : transaction)
    (grouped : list (option string * list transaction))
    : list (option string * list transaction) :=
  match grouped with
  | [] => [(key, [rec])]
  | (k, punches) :: grouped' =>
      if decide (k = key) then (k, punches ++ [rec]) :: grouped'
      else (k, punches) :: group_append key rec grouped'
  end.

(** [datetime.strptime(r["punch_time"], "%Y-%m-%d %H:%M:%S")], the sort
    key of the punches of an employee. *)
Definition punch_time_key (r : transaction) : result datetime :=
  p ← getitem (tx_punch_time r);
  s ← str_key p;
  strptime s.

(** The body of [for emp_code, punches in grouped.items()]. *)
Definition summarise_group (summary : list summary_row)
    (item : option string * list transaction) : result (list summary_row) :=
  let '(emp_code, punches) := item in
  punches_sorted ← sortedM datetime_le punch_time_key punches;
  match head punches_sorted, last punches_sorted with
  | Some first_punch, Some last_punch =>
      Ok (summary ++
           [mk_summary_row emp_code
              (get (tx_first_name first_punch))
              (get (tx_department first_punch))
              (get (tx_punch_time first_punch))
              (get (tx_terminal_alias first_punch))
              (get (tx_punch_time last_punch))
              (get (tx_terminal_alias last_punch))
              (length punches_sorted)])
  | _, _ => Raise IndexError
  end.

(** [sorted(summary, key=lambda r: r["emp_code"])]: with two rows or more
    every key takes part in a comparison, and comparing [None] raises
    [TypeError]. *)
Definition sorted_by_emp_code (summary : list summary_row)
    : result (list summary_row) :=
  match summary with
  | [] | [_] => Ok summary
  | _ =>
      keys ← mapM (λ r, str_key (sum_emp_code r)) summary;
      mret (snd <$> sorted String.leb fst (zip keys summary))
  end.

(** [build_attendance_summary(start_dt, end_dt)], given the ["data"] of
    the page that [fetch_transactions] returned. *)
Definition build_attendance_summary (records : list transaction)
    (start_dt end_dt : datetime) : result summary :=
  grouped ←
    foldlM (λ grouped rec,
              key ← getitem (tx_emp_code rec);
              mret (group_append key rec grouped)) [] records;
  summary ← foldlM summarise_group [] grouped;
  summary_sorted ← sorted_by_emp_code summary;
  mret (mk_summary (strftime_date (date_of start_dt))
          (strftime_date (date_of end_dt))
          (length summary_sorted) summary_sorted).

(** The response of the [today] endpoints. *)
Record today_list : Type := mk_today_list {
  today_date : string;
  today_count : nat;
  today_data : list summary_row;
}.

(** [attendance_today()], with the value of [datetime.now()]. *)
Definition attendance_today (records : list transaction) (now : datetime)
    : result (string * summary) :=
  let today := strftime_date (date_of now) in
  start_dt ← strptime (today +:+ " 00:00:00");
  end_dt ← strptime (today +:+ " 23:59:59");
  summary ← build_attendance_summary records start_dt end_dt;
  mret (today, summary).

(** [attendance_today_present()] *)
Definition attendance_today_present (records : list transaction)
    (now : datetime) : result today_list :=
  '(date, today_summary) ← attendance_today records now;
  mret (mk_today_list date (sum_count today_summary) (sum_data today_summary)).

(** [for row in rows: if test(strptime(row[field])): out.append(row)] *)
Definition select_rows (field : summary_row → option string)
    (test : datetime → bool) (out : list summary_row) (row : summary_row)
    : result (list summary_row) :=
  s ← str_key (field row);
  t ← strptime s;
  mret (if test t then out ++ [row] else out).

(** [attendance_today_late()] *)
Definition attendance_today_late (LATE_AFTER_TIME : string)
    (records : list transaction) (now : datetime) : result today_list :=
  '(today_date, today_summary) ← attendance_today records now;
  late_threshold ← strptime (today_date +:+ " " +:+ LATE_AFTER_TIME);
  late_list ←
    foldlM (select_rows first_punch_time (λ fp, datetime_gt fp late_threshold))
      [] (sum_data today_summary);
  mret (mk_today_list today_date (length late_list) late_list).

(** [attendance_today_early_leave()] *)
Definition attendance_today_early_leave (EARLY_LEAVE_TIME : string)
    (records : list transaction) (now : datetime) : result today_list :=
  '(today_date, today_summary) ← attendance_today records now;
  early_threshold ← strptime (today_date +:+ " " +:+ EARLY_LEAVE_TIME);
  early_list ←
    foldlM (select_rows last_punch_time (λ lp, datetime_lt lp early_threshold))
      [] (sum_data today_summary);
  mret (mk_today_list today_date (length early_list) early_list).

End Biotime.

Export Biotime.

(* ------------------------------------------------------------------ *)
(** ** The other endpoints and the configuration *)

Module Service.

(** *** The summaries of the week and of the month *)

(** [attendance_week()], with the value of [datetime.now()]: the last
    seven days, today included. *)
Definition attendance_week (records : list transaction) (now : datetime)
    : result (string * summary) :=
  let end_dt := now in
  start_dt ← datetime_sub_delta end_dt (new_timedelta 6 0 0);
  summary ← build_attendance_summary records start_dt end_dt;
  mret ("last_7_days"%string, summary).

(** [attendance_month()]: the current month to date. *)
Definition attendance_month (records : list transaction) (now : datetime)
    : result (string * summary) :=
  start_dt ← new_datetime (Datetime.year (date_of now))
               (Datetime.month (date_of now)) 1 0 0 0 0;
  let end_dt := now in
  summary ← build_attendance_summary records start_dt end_dt;
  mret ("month_to_date"%string, summary).

(** *** The employees absent today *)

(** A row of the list of absent employees. *)
Record absent_row : Type := mk_absent_row {
  abs_emp_code : string;
  abs_first_name : option string;
  abs_last_name : option string;
  abs_department : option string;
}.

Record absent_list : Type := mk_absent_list {
  absent_date : string;
  absent_count : nat;
  absent_data : list absent_row;
}.

(** The body of [for emp in employees] in [attendance_today_absent]. *)
Definition absent_step (present_codes : gset (option string))
    (absent : list absent_row) (emp : employee) : list absent_row :=
  let code := get (emp_emp_code emp) in
  match code with
  | Some c =>
      if negb (truthy code) then absent
      else if bool_decide (code ∉ present_codes) then
        absent ++ [mk_absent_row c (get (emp_first_name emp))
                     (get (emp_last_name emp)) (dept_of (emp_department emp))]
      else absent
  | None => absent
  end.

(** [attendance_today_absent()], given the ["data"] of the page of
    employees and of the page of today's transactions, and the value of
    [datetime.now()]. *)
Definition attendance_today_absent (employees : list employee)
    (records : list transaction) (now : datetime) : result absent_list :=
  '(date, today_summary) ← attendance_today records now;
  let present_codes : gset (option string) :=
    list_to_set (sum_emp_code <$> sum_data today_summary) in
  let absent := foldl (absent_step present_codes) [] employees in
  let absent_sorted := sorted String.leb abs_emp_code absent in
  mret (mk_absent_list date (length absent_sorted) absent_sorted).

(** *** The configuration *)

(** [os.environ.get(name) or default]: the default stands in for a
    variable that is not set and for one that is empty. *)
Definition env_or (value : option string) (default : string) : string :=
  match value with
  | Some v => if truthy value then v else default
  | None => default
  end.

(** [s.rstrip("/")]: [s] without the slashes at its end. *)
Fixpoint rstrip_slash (s : string) : string :=
  match s with
  | EmptyString => EmptyString
  | String c s' =>
      match rstrip_slash s' with
      | EmptyString => if Ascii.eqb c "/" then EmptyString else String c EmptyString
      | r => String c r
      end
  end.

(** The base address with a scheme in front, [_raw_base] after the test
    of [startswith]. *)
Definition raw_base (BIOTIME_BASE_env : option string) : string :=
  let raw := env_or BIOTIME_BASE_env "http://localhost:8080" in
  if negb (String.prefix "http://" raw) && negb (String.prefix "https://" raw)
  then ("http://" +:+ raw)%string
  else raw.

(** [BIOTIME_BASE], from the value of the environment variable of that
    name. *)
Definition BIOTIME_BASE (BIOTIME_BASE_env : option string) : string :=
  rstrip_slash (raw_base BIOTIME_BASE_env).

End Service.

Export Service.

(* ------------------------------------------------------------------ *)
(** ** Specification vocabulary *)

(** The punches filed under employee [code] and date string [d_str]:
    [punches_map.get(code, {}).get(d_str, [])]. *)
Definition punches_on (m : punches_map) (code d_str : string) : list transaction :=
  default [] (default ∅ (m !! code) !! d_str).

(** The indexer keeps a record when both its employee code and its
    timestamp are non-empty strings. *)
Definition indexable (tx : transaction) : bool :=
  truthy (get (tx_emp_code tx)) && truthy (get (tx_punch_time tx)).

(** The days of a period: the same time of day as [start_dt] on every date
    from that of [start_dt] to that of [end_dt]. *)
Definition date_span (start_dt end_dt : datetime) : list datetime :=
  let a := toordinal (date_of start_dt) in
  let b := toordinal (date_of end_dt) in
  (λ n, combine (fromordinal n) (time_of start_dt)) <$> seqZ a (b - a + 1).

(** The timestamp of a kept record. *)
Definition punch_str (tx : transaction) : string :=
  default EmptyString (get (tx_punch_time tx)).

(** A timestamp of the form ["YYYY-MM-DD HH:MM:SS"]: the text that
    [strftime] gives for some date and time of day (to the second). *)
Definition canonical (s : string) (dt : datetime) : Prop :=
  valid_datetime dt ∧ microsecond (time_of dt) = 0%Z ∧ s = strftime dt.

(** The check that [month_day_of_yday] returns the month and the day of
    the [n]-th day of a year. *)
Definition month_day_ok (leap : bool) (n : Z) : bool :=
  let '(m, d) := month_day_of_yday leap n in
  (1 <=? m)%Z && (m <=? 12)%Z && (1 <=? d)%Z
  && (d <=? DAYS_IN_MONTH m + (if (m =? 2)%Z && leap then 1 else 0))%Z
  && (DAYS_BEFORE_MONTH m + (if (2 <? m)%Z && leap then 1 else 0) + d =? n + 1)%Z.

(** The date loop steps past 9999-12-31, the last date there is, when it
    has to visit that day. *)
Definition loop_overflows (start_dt end_dt : datetime) : bool :=
  bool_decide (toordinal (date_of start_dt) ≤ toordinal (date_of end_dt)
               ∧ toordinal (date_of end_dt) = MAXORDINAL)%Z.

(** [w] decimal digits of [n], least significant last, in front of
    [rest]: the zero-padded text of a number that fits [w] digits. *)
Fixpoint digits (w : nat) (n : Z) (rest : string) : string :=
  match w with
  | O => rest
  | S w' => digits w' (n / 10) (String (digit_char (n mod 10)) rest)
  end.

Definition digit_cases (v : Z) : Prop :=
  (v = 0 ∨ v = 1 ∨ v = 2 ∨ v = 3 ∨ v = 4 ∨ v = 5 ∨ v = 6 ∨ v = 7 ∨ v = 8 ∨ v = 9)%Z.

(** The punches of one employee: [punches_map.get(code, {})]. *)
Definition punches_of (m : punches_map) (code : string)
    : gmap string (list transaction) :=
  default ∅ (m !! code).

(** The punches of an employee on a day of the period. *)
Definition daily_txs (emp_punches : gmap string (list transaction))
    (day : datetime) : list transaction :=
  default [] (emp_punches !! strftime_date (date_of day)).

(** Sunday is the day whose [weekday()] is 6. *)
Definition is_sunday (day : datetime) : bool :=
  (weekday (date_of day) =? 6)%Z.

(** The five classes of an employee-day; a late day carries its entry
    of [late_details]. *)
Inductive day_class : Type :=
  | PresentOnTime
  | PresentLate (detail : late_detail)
  | Absent
  | WeekendWorked
  | WeekendIdle.

(** What a day of each class adds to the counters of its employee. *)
Definition record_day (st : stats) (d_str : string) (c : day_class) : stats :=
  match c with
  | PresentOnTime =>
      mk_stats (days_present st + 1) (days_late st) (days_absent st)
        (total_required_days st + 1) (late_details st) (absent_details st)
  | PresentLate detail =>
      mk_stats (days_present st + 1) (days_late st + 1) (days_absent st)
        (total_required_days st + 1) (late_details st ++ [detail])
        (absent_details st)
  | Absent =>
      mk_stats (days_present st) (days_late st) (days_absent st + 1)
        (total_required_days st + 1) (late_details st)
        (absent_details st ++ [d_str])
  | WeekendWorked =>
      mk_stats (days_present st + 1) (days_late st) (days_absent st)
        (total_required_days st) (late_details st) (absent_details st)
  | WeekendIdle => st
  end.

(** The first punch of a day: the first record in the order of the
    timestamps as texts. *)
Definition first_punch (txs : list transaction) : option transaction :=
  head (sorted String.leb punch_str txs).

(** The class of a day with punches that is not a Sunday, from the
    timestamp of its first punch. *)
Definition late_or_on_time (late_time_struct : time) (day : datetime)
    (first_punch_str : string) : result day_class :=
  first_punch_dt ← strptime first_punch_str;
  let threshold_dt := combine (date_of day) late_time_struct in
  mret (if datetime_gt first_punch_dt threshold_dt
        then PresentLate
               (mk_late_detail (strftime_date (date_of day)) first_punch_str
                  (str_timedelta (datetime_sub first_punch_dt threshold_dt)))
        else PresentOnTime).

(** The class of a day, for a bucket as the indexer makes them (every
    record with a timestamp). *)
Definition classification (late_time_struct : time)
    (emp_punches : gmap string (list transaction)) (day : datetime)
    : result day_class :=
  match first_punch (daily_txs emp_punches day) with
  | None => Ok (if is_sunday day then WeekendIdle else Absent)
  | Some x =>
      if is_sunday day then Ok WeekendWorked
      else late_or_on_time late_time_struct day (punch_str x)
  end.

(** The record has a timestamp, as every record of a bucket has. *)
Definition has_timestamp (tx : transaction) : Prop :=
  tx_punch_time tx = Str (punch_str tx).

(** A Sunday on which the employee has at least one punch. *)
Definition worked_sunday (emp_punches : gmap string (list transaction))
    (day : datetime) : bool :=
  is_sunday day && bool_decide (daily_txs emp_punches day ≠ []).

(** The employees that get a row: those whose code is a non-empty
    string, with that code. *)
Definition roster (employees : list employee) : list (string * employee) :=
  omap (λ emp, match get (emp_emp_code emp) with
               | Some c => if truthy (Some c) then Some (c, emp) else None
               | None => None
               end) employees.

(** The row of an employee of the roster with the given counters. *)
Definition row_of (ce : string * employee) (st : stats) : report_row :=
  mk_report_row ce.1 (get_default (emp_first_name ce.2) "")
    (get_default (emp_last_name ce.2) "") (dept_of (emp_department ce.2)) st.

(** The counters of an employee of the roster over the days of a
    period. *)
Definition period_stats (late_time_struct : time) (m : punches_map)
    (all_dates : list datetime) (ce : string * employee) : result stats :=
  foldlM (classify_day late_time_struct (punches_of m ce.1)) initial_stats
    all_dates.

(** Sample data for the scenarios: a punch with a code and a timestamp, an
    employee with a code, a day at midnight. *)
Definition sample_punch (code punch_time : string) : transaction :=
  mk_transaction (Str code) (Str punch_time) Missing Missing Missing.

Definition sample_employee (code : string) : employee :=
  mk_employee (Str code) Missing Missing DeptMissing.

Definition at_midnight (y m d : Z) : datetime :=
  combine (mk_date y m d) midnight.

(** The fields of a datetime, most significant first, and the comparison
    of two such lists. *)
Definition fields (dt : datetime) : list Z :=
  [year (date_of dt); month (date_of dt); day (date_of dt);
   hour (time_of dt); minute (time_of dt); second (time_of dt);
   microsecond (time_of dt)].

Fixpoint lexZ (l1 l2 : list Z) : comparison :=
  match l1, l2 with
  | x :: l1', y :: l2' => lex (x ?= y)%Z (lexZ l1' l2')
  | _, _ => Eq
  end.

(** Every group of the summary has a record, and the records of a group
    are records of the page with the key of the group as employee code. *)
Definition group_ok (records : list transaction)
    (item : option string * list transaction) : Prop :=
  item.2 ≠ []
  ∧ ∀ r, r ∈ item.2 → r ∈ records ∧ get (tx_emp_code r) = item.1.

(** A row of the summary has at least one punch, its first punch is not
    after its last one, and its employee has a record in the page. *)
Definition row_ok (records : list transaction) (row : summary_row) : Prop :=
  1 ≤ total_punches row
  ∧ (∃ s1 s2 t1 t2,
       first_punch_time row = Some s1 ∧ last_punch_time row = Some s2
       ∧ strptime s1 = Ok t1 ∧ strptime s2 = Ok t2
       ∧ datetime_le t1 t2 = true)
  ∧ ∃ r, r ∈ records ∧ get (tx_emp_code r) = sum_emp_code row.

(** The record is kept, and filed under [code] and [d_str]. *)
Definition filed_under (code d_str : string) (tx : transaction) : Prop :=
  indexable tx
  ∧ get (tx_emp_code tx) = Some code
  ∧ split_space_0 <$> get (tx_punch_time tx) = Some d_str.

Global Instance filed_under_dec code d_str tx : Decision (filed_under code d_str tx).
Proof. unfold filed_under. apply _. Defined.

(** The last second of a day. *)
Definition end_of_day : time := mk_time 23 59 59 0.

(** The month before month [m] of year [y]. *)
Definition previous_month (y m : Z) : Z * Z :=
  if (m =? 1)%Z then (y - 1, 12)%Z else (y, m - 1)%Z.

(** The employee code of a record, [None] for [null]. *)
Definition emp_code_of (r : transaction) : option string := get (tx_emp_code r).

(** The records of a page with a given employee code, in the order of
    the page. *)
Definition punches_with (k : option string) (records : list transaction)
    : list transaction :=
  filter (λ r, emp_code_of r = k) records.

(** The timestamp of a record has a value, which [strptime] accepts. *)
Definition parsed_punch_time (r : transaction) (t : datetime) : Prop :=
  ∃ s, tx_punch_time r = Str s ∧ strptime s = Ok t.

(** What a group of the summary and its row have to do with each other:
    the row counts the records of the group, and shows a record of the
    group that no record of the group is before and one that no record of
    the group is after. *)
Definition summarises (item : option string * list transaction)
    (row : summary_row) : Prop :=
  sum_emp_code row = item.1
  ∧ total_punches row = length item.2
  ∧ ∃ first_punch last_punch t1 tn,
      first_punch ∈ item.2 ∧ last_punch ∈ item.2
      ∧ parsed_punch_time first_punch t1 ∧ parsed_punch_time last_punch tn
      ∧ sum_first_name row = get (tx_first_name first_punch)
      ∧ sum_department row = get (tx_department first_punch)
      ∧ first_punch_time row = get (tx_punch_time first_punch)
      ∧ first_terminal_alias row = get (tx_terminal_alias first_punch)
      ∧ last_punch_time row = get (tx_punch_time last_punch)
      ∧ last_terminal_alias row = get (tx_terminal_alias last_punch)
      ∧ ∀ r, r ∈ item.2 →
          ∃ t, parsed_punch_time r t
               ∧ datetime_le t1 t = true ∧ datetime_le t tn = true.

(** The loop that groups the records of a page, for records that all
    have an employee code. *)
Definition grouping (grouped : list (option string * list transaction))
    (records : list transaction) : list (option string * list transaction) :=
  foldl (λ grouped rec, group_append (emp_code_of rec) rec grouped) grouped records.

(** The row of an employee in the list of absent employees, for an
    employee with a non-empty code that is not among the codes of the
    present. *)
Definition absent_row_of (present_codes : gset (option string)) (emp : employee)
    : option absent_row :=
  match get (emp_emp_code emp) with
  | Some c =>
      if truthy (Some c) && bool_decide (Some c ∉ present_codes)
      then Some (mk_absent_row c (get (emp_first_name emp))
                   (get (emp_last_name emp)) (dept_of (emp_department emp)))
      else None
  | None => None
  end.

(** The time that a field of a row of the summary shows, when it parses. *)
Definition row_time (field : summary_row → option string) (row : summary_row)
    : option datetime :=
  match field row with
  | Some s => match strptime s with Ok t => Some t | _ => None end
  | None => None
  end.

(** The time that a field of the row shows passes a test. *)
Definition row_selected (field : summary_row → option string)
    (test : datetime → bool) (row : summary_row) : bool :=
  match row_time field row with
  | Some t => test t
  | None => false
  end.

(** The first punch of the row is after the threshold. *)
Definition first_punch_after (threshold : datetime) : summary_row → bool :=
  row_selected first_punch_time (λ fp, datetime_gt fp threshold).

(** The last punch of the row is before the threshold. *)
Definition last_punch_before (threshold : datetime) : summary_row → bool :=
  row_selected last_punch_time (λ lp, datetime_lt lp threshold).

(** A run of [k] slashes. *)
Fixpoint slashes (k : nat) : string :=
  match k with
  | O => EmptyString
  | S k => String "/" (slashes k)
  end.

(** The text starts with one of the two schemes. *)
Definition has_scheme (s : string) : bool :=
  String.prefix "http://" s || String.prefix "https://" s.

(** The days of February 2024 that the date loop visits. *)
Definition february_2024 : list datetime :=
  (λ d, at_midnight 2024 2 d) <$> seqZ 1 29.

(* ------------------------------------------------------------------ *)
(** ** The result monad and the stable sort *)

Lemma bind_Ok {A B} (m : result A) (f : A → result B) b :
  m ≫= f = Ok b ↔ ∃ a, m = Ok a ∧ f a = Ok b.
Proof.
  destruct m as [a|e|]; simpl; split; try done.
  - eauto.
  - by intros (a' & [= <-] & ?).
  - by intros (? & ? & ?).
  - by intros (? & ? & ?).
Qed.

Lemma mapM_result_Ok {A B} (f : A → result B) l k :
  mapM f l = Ok k ↔ Forall2 (λ x y, f x = Ok y) l k.
Proof.
  revert k. induction l as [|x l IH]; intros k; simpl.
  - split; [by intros [= <-]|by inversion 1].
  - split.
    + intros (y & Hy & (k' & Hk' & [= <-])%bind_Ok)%bind_Ok.
      constructor; [done|by apply IH].
    + inversion 1 as [|? y ? k' Hy Hk']; subst.
      apply IH in Hk'. unfold mbind, mret in *. simpl. by rewrite Hy, Hk'.
Qed.

(** A key function that does not raise is computed for all the elements. *)
Lemma mapM_result_fmap {A B} (f : A → result B) (g : A → B) l :
  Forall (λ x, f x = Ok (g x)) l → mapM f l = Ok (g <$> l).
Proof.
  intros H. apply mapM_result_Ok.
  induction H; constructor; auto.
Qed.

Lemma foldlM_raise {A B} (f : A → B → result A) e l :
  (∀ a x, x ∈ l → (∃ a', f a x = Ok a') ∨ f a x = Raise e) →
  (∃ x, x ∈ l ∧ ∀ a, f a x = Raise e) →
  ∀ a, foldlM f a l = Raise e.
Proof.
  intros Hall (x & Hx & Hfail).
  induction l as [|y l IH]; intros a; [by apply elem_of_nil in Hx|].
  cbn [foldlM].
  apply elem_of_cons in Hx as [<-|Hx]; [by rewrite Hfail|].
  destruct (Hall a y) as [[a' ->]| ->]; [left|..|done].
  cbn [mbind result_bind].
  apply IH; [|done]. intros ???. apply Hall. by right.
Qed.

Lemma foldlM_ok {A B} (f : A → B → result A) l :
  (∀ a x, x ∈ l → ∃ a', f a x = Ok a') →
  ∀ a, ∃ a', foldlM f a l = Ok a'.
Proof.
  induction l as [|y l IH]; intros Hall a; [by eexists|].
  cbn [foldlM]. destruct (Hall a y) as [a' ->]; [left|].
  cbn [mbind result_bind]. apply IH. intros ???. apply Hall. by right.
Qed.

Lemma foldlM_outcome {A B} (f : A → B → result A) e l :
  (∀ a x, x ∈ l → (∃ a', f a x = Ok a') ∨ f a x = Raise e) →
  ∀ a, (∃ a', foldlM f a l = Ok a') ∨ foldlM f a l = Raise e.
Proof.
  induction l as [|y l IH]; intros Hall a; [left; by eexists|].
  cbn [foldlM]. destruct (Hall a y) as [[a' ->]| ->]; [left|..|by right].
  cbn [mbind result_bind]. apply IH. intros ???. apply Hall. by right.
Qed.

Lemma Forall2_total {A B} (P : A → B → Prop) (l : list A) :
  (∀ a, a ∈ l → ∃ b, P a b) → ∃ k, Forall2 P l k.
Proof.
  induction l as [|a l IH]; intros H; [by exists []|].
  destruct (H a) as [b Hb]; [left|].
  destruct IH as [k Hk]; [intros ??; apply H; by right|].
  exists (b :: k). by constructor.
Qed.

Lemma Forall2_zip_with_elem {A B C} (f : A → B → C) (P : A → B → Prop) l k x :
  Forall2 P l k → x ∈ zip_with f l k → ∃ a b, a ∈ l ∧ P a b ∧ x = f a b.
Proof.
  induction 1 as [|a b l k Hab _ IH]; cbn; [by intros ?%elem_of_nil|].
  intros [->|Hx]%elem_of_cons.
  - exists a, b. split_and!; [left|done..].
  - destruct (IH Hx) as (a' & b' & ? & ? & ?).
    exists a', b'. split_and!; [by right|done..].
Qed.

Lemma Forall2_zip_with_total {A B C} (f : A → B → C) (P : A → B → Prop) l k :
  Forall2 P l k → ∀ a, a ∈ l → ∃ b, P a b ∧ f a b ∈ zip_with f l k.
Proof.
  induction 1 as [|a b l k Hab _ IH]; cbn; intros a'; [by intros ?%elem_of_nil|].
  intros [->|Ha]%elem_of_cons.
  - exists b. split; [done|left].
  - destruct (IH a' Ha) as (b' & ? & ?). exists b'. split; [done|by right].
Qed.

Lemma length_filter_cons_bool {A} (P : A → bool) x l :
  length (filter P (x :: l)) = (if P x then 1 else 0) + length (filter P l).
Proof. rewrite filter_cons. by destruct (P x). Qed.

Lemma head_fmap {A B} (f : A → B) (l : list A) : head (f <$> l) = f <$> head l.
Proof. by destruct l. Qed.

Lemma sublist_Forall {A} (P : A → Prop) (k l : list A) :
  k `sublist_of` l → Forall P l → Forall P k.
Proof.
  induction 1 as [|x k l _ IH|x k l _ IH]; [done|..];
    intros [? ?]%Forall_cons; [constructor|]; auto.
Qed.

Lemma StronglySorted_sublist {A} (R : relation A) (k l : list A) :
  k `sublist_of` l → StronglySorted R l → StronglySorted R k.
Proof.
  induction 1 as [|x k l Hkl IH|x k l _ IH]; [done|..];
    intros [? ?]%StronglySorted_inv; [|by auto].
  constructor; [by auto|]. by eapply sublist_Forall.
Qed.

Section sorted_facts.
Context {A K : Type} (le : K → K → bool) (key : A → K).
Hypothesis le_total : ∀ a b, le a b = true ∨ le b a = true.
Hypothesis le_trans : ∀ a b c, le a b = true → le b c = true → le a c = true.

Let R (x y : A) : Prop := le (key x) (key y) = true.

Lemma insert_by_perm x l : insert_by le key x l ≡ₚ x :: l.
Proof.
  induction l as [|y l IH]; simpl; [done|].
  destruct (le (key x) (key y)); [done|].
  rewrite IH. apply Permutation_swap.
Qed.

Lemma sorted_perm l : sorted le key l ≡ₚ l.
Proof.
  induction l as [|x l IH]; simpl; [done|].
  by rewrite insert_by_perm, IH.
Qed.

Lemma sorted_length l : length (sorted le key l) = length l.
Proof. by rewrite sorted_perm. Qed.

Lemma elem_of_sorted x l : x ∈ sorted le key l ↔ x ∈ l.
Proof. by rewrite sorted_perm. Qed.

Lemma insert_by_sorted x l :
  StronglySorted R l → StronglySorted R (insert_by le key x l).
Proof.
  induction 1 as [|y l Hl IH Hy]; simpl.
  - repeat constructor.
  - destruct (le (key x) (key y)) eqn:Hxy.
    + constructor; [by constructor|].
      constructor; [done|].
      eapply Forall_impl; [exact Hy|]. intros z Hz. by eapply le_trans.
    + constructor; [done|].
      rewrite insert_by_perm. constructor; [|done].
      destruct (le_total (key x) (key y)); [congruence|done].
Qed.

Lemma sorted_sorted l : StronglySorted R (sorted le key l).
Proof.
  induction l as [|x l IH]; simpl; [constructor|by apply insert_by_sorted].
Qed.

(** The first element of the sorted list has a least key. *)
Lemma sorted_head_least l x :
  head (sorted le key l) = Some x →
  x ∈ l ∧ ∀ y, y ∈ l → le (key x) (key y) = true.
Proof.
  intros Hhd. pose proof (sorted_sorted l) as Hs.
  destruct (sorted le key l) as [|x' s] eqn:E; simplify_eq/=.
  assert (Hx : x ∈ l) by (rewrite <-elem_of_sorted, E; left).
  split; [done|]. intros y Hy.
  rewrite <-elem_of_sorted, E in Hy.
  apply StronglySorted_inv in Hs as [_ Hall].
  apply elem_of_cons in Hy as [->|Hy].
  - destruct (le_total (key x) (key x)); done.
  - by apply (proj1 (Forall_forall _ _) Hall).
Qed.

(** The first element is not after the last one. *)
Lemma sorted_head_last l x y :
  head (sorted le key l) = Some x → last (sorted le key l) = Some y →
  le (key x) (key y) = true.
Proof.
  intros Hx Hy. apply (sorted_head_least l x Hx).
  rewrite <-elem_of_sorted. by apply last_Some_elem_of.
Qed.

Lemma sorted_nil_inv l : sorted le key l = [] → l = [].
Proof.
  intros E. apply length_zero_iff_nil.
  by rewrite <-sorted_length, E.
Qed.

End sorted_facts.

(** Sorting pairs of a key and an element by the key is sorting the
    elements by their key. *)
Lemma insert_by_zip {A K} (le : K → K → bool) (key : A → K) x (s : list (K * A)) :
  Forall (λ p, p.1 = key p.2) s →
  snd <$> insert_by le fst (key x, x) s = insert_by le key x (snd <$> s).
Proof.
  induction 1 as [|[k y] s Hk Hs IH]; csimpl in *; [done|].
  subst k. destruct (le (key x) (key y)); csimpl; [done|]. by rewrite IH.
Qed.

Lemma sorted_zip_keys {A K} (le : K → K → bool) (key : A → K) (l : list A) :
  snd <$> sorted le fst (zip (key <$> l) l) = sorted le key l.
Proof.
  induction l as [|x l IH]; csimpl; [done|].
  rewrite insert_by_zip, IH; [done|].
  rewrite sorted_perm. clear. induction l; csimpl; constructor; auto.
Qed.

Lemma sortedM_Ok {A K} (le : K → K → bool) (key : A → result K) l s :
  sortedM le key l = Ok s →
  ∃ keyed,
    Forall (λ p, key p.2 = Ok p.1) keyed
    ∧ snd <$> keyed = l
    ∧ s = snd <$> sorted le fst keyed.
Proof.
  unfold sortedM. intros (keyed & Hk & [= <-])%bind_Ok.
  exists keyed. split_and!; [| |done].
  - apply mapM_result_Ok in Hk.
    induction Hk as [|x p l keyed Hp _ IH]; constructor; [|done].
    apply bind_Ok in Hp as (k & Hk' & [= <-]). done.
  - apply mapM_result_Ok in Hk.
    induction Hk as [|x p l keyed Hp _ IH]; [done|]. csimpl. f_equal; [|done].
    apply bind_Ok in Hp as (k & Hk' & [= <-]). done.
Qed.

Lemma string_leb_total (a b : string) : String.leb a b = true ∨ String.leb b a = true.
Proof. apply String.leb_total. Qed.

Lemma string_leb_trans (a b c : string) :
  String.leb a b = true → String.leb b c = true → String.leb a c = true.
Proof.
  intros Hab Hbc. apply Is_true_true.
  apply Is_true_true in Hab, Hbc.
  exact (transitivity (R:=String.le) Hab Hbc).
Qed.

(* ------------------------------------------------------------------ *)
(** ** Calendar arithmetic *)

Section calendar.
Local Open Scope Z_scope.

Lemma is_leap_spec y : 
  is_leap y = true ↔ (y mod 4 = 0 ∧ (y mod 100 ≠ 0 ∨ y mod 400 = 0)).
Proof.
  unfold is_leap. rewrite andb_true_iff, orb_true_iff, negb_true_iff, !Z.eqb_eq, Z.eqb_neq. done.
Qed.

Lemma days_before_year_succ y :
  days_before_year (y + 1) = days_before_year y + (if is_leap y then 366 else 365).
Proof.
  unfold days_before_year. 
  destruct (is_leap y) eqn:E.
  - apply is_leap_spec in E. Z.div_mod_to_equations; lia.
  - assert (¬ (y mod 4 = 0 ∧ (y mod 100 ≠ 0 ∨ y mod 400 = 0))) as E' by (rewrite <- is_leap_spec; congruence).
    Z.div_mod_to_equations; lia.
Qed.

Lemma days_before_year_mono y1 y2 : y1 ≤ y2 → days_before_year y1 ≤ days_before_year y2.
Proof.
  unfold days_before_year. intros. Z.div_mod_to_equations; lia.
Qed.

(** A check over a range of integers, for properties settled by
  evaluation. *)
Lemma forallb_seqZ (P : Z → bool) lo len :
  forallb P (seqZ lo len) = true → ∀ n, lo ≤ n < lo + len → P n = true.
Proof.
  intros H n Hn. rewrite forallb_forall in H. apply H.
  apply list_elem_of_In, elem_of_seqZ. lia.
Qed.

Lemma month_day_of_yday_ok leap n : 0 ≤ n < 365 → month_day_ok leap n = true.
Proof.
  intros Hn. destruct leap.
  - apply (forallb_seqZ (month_day_ok true) 0 365); [by vm_compute|lia].
  - apply (forallb_seqZ (month_day_ok false) 0 365); [by vm_compute|lia].
Qed.

(** [_ord2ymd] inverts [_ymd2ord] on the ordinals of the years 1..9999. *)
Lemma ord2ymd_toordinal n :
  1 ≤ n ≤ MAXORDINAL → toordinal (ord2ymd n) = n ∧ valid_date (ord2ymd n).
Proof.
  intros Hn. unfold ord2ymd, DI400Y, DI100Y, DI4Y.
  set (n0 := n - 1).
  set (n400 := n0 / 146097). set (r1 := n0 mod 146097).
  set (n100 := r1 / 36524). set (r2 := r1 mod 36524).
  set (n4 := r2 / 1461). set (r3 := r2 mod 1461).
  set (n1 := r3 / 365). set (r4 := r3 mod 365).
  assert (0 ≤ n0) by lia.
  assert (Hd : n0 = 146097 * n400 + 36524 * n100 + 1461 * n4 + 365 * n1 + r4
          ∧ 0 ≤ n400 ∧ 0 ≤ n100 ≤ 4 ∧ 0 ≤ n4 ≤ 24 ∧ 0 ≤ n1 ≤ 4 ∧ 0 ≤ r4 < 365
          ∧ (n100 = 4 → n4 = 0 ∧ n1 = 0 ∧ r4 = 0) ∧ (n1 = 4 → r4 = 0)
          ∧ (n4 = 24 → n100 ≤ 2 → n1 ≤ 3)).
  { unfold n400, n100, n4, n1, r4, r3, r2, r1. Z.div_mod_to_equations; lia. }
  clearbody n400 n100 n4 n1 r4. clear r1 r2 r3.
  destruct Hd as (Hn0 & ? & ? & ? & ? & ? & H100 & H1 & H4).
  assert (Hn' : n = n0 + 1) by lia. clearbody n0.
  set (Y := n400 * 400 + 1 + n100 * 100 + n4 * 4 + n1).
  assert (Hyear : ∀ y, days_before_year y ≤ n0 → y ≤ 9999).
  { intros y Hle. destruct (decide (y ≤ 9999)); [done|].
    pose proof (days_before_year_mono 10000 y ltac:(lia)) as Hm.
    change (days_before_year 10000) with 3652059 in Hm.
    unfold MAXORDINAL in *. lia. }
  destruct ((n1 =? 4) || (n100 =? 4)) eqn:Hspecial.
  - assert (Hleap : is_leap (Y - 1) = true).
    { apply is_leap_spec. unfold Y.
      apply orb_true_iff in Hspecial as [E%Z.eqb_eq|E%Z.eqb_eq].
      - Z.div_mod_to_equations; lia.
      - Z.div_mod_to_equations; lia. }
    split.
    + unfold toordinal, ymd2ord, days_before_month. simpl. rewrite Hleap. simpl.
      unfold days_before_year, Y.
      apply orb_true_iff in Hspecial as [E%Z.eqb_eq|E%Z.eqb_eq].
      * Z.div_mod_to_equations; lia.
      * Z.div_mod_to_equations; lia.
    + unfold valid_date, check_date_fields, days_in_month, MINYEAR, MAXYEAR. simpl.
      apply Is_true_true. rewrite !andb_true_iff, !Z.leb_le.
      assert (Y - 1 ≤ 9999).
      { apply Hyear. unfold days_before_year, Y.
        apply orb_true_iff in Hspecial as [E%Z.eqb_eq|E%Z.eqb_eq].
        - Z.div_mod_to_equations; lia.
        - Z.div_mod_to_equations; lia. }
      apply orb_true_iff in Hspecial as [E%Z.eqb_eq|E%Z.eqb_eq]; unfold Y in *; lia.
  - apply orb_false_iff in Hspecial as [E1%Z.eqb_neq E100%Z.eqb_neq].
    set (leap := (n1 =? 3) && (negb (n4 =? 24) || (n100 =? 3))).
    assert (Hleap : is_leap Y = leap).
    { apply eq_true_iff_eq. rewrite is_leap_spec. unfold leap.
      rewrite andb_true_iff, orb_true_iff, negb_true_iff, !Z.eqb_eq, Z.eqb_neq.
      unfold Y. Z.div_mod_to_equations; lia. }
    pose proof (month_day_of_yday_ok leap r4 ltac:(lia)) as Hmd.
    unfold month_day_ok in Hmd.
    destruct (month_day_of_yday leap r4) as [m d].
    rewrite !andb_true_iff, !Z.leb_le, Z.eqb_eq in Hmd.
    destruct Hmd as ((((? & ?) & ?) & ?) & ?).
    assert (Hdby : days_before_year Y = n0 - r4).
    { unfold days_before_year, Y. Z.div_mod_to_equations; lia. }
    split.
    + unfold toordinal, ymd2ord, days_before_month. simpl. fold Y. rewrite Hleap.
      lia.
    + unfold valid_date, check_date_fields, days_in_month, MINYEAR, MAXYEAR. simpl. fold Y.
      rewrite Hleap.
      apply Is_true_true. rewrite !andb_true_iff, !Z.leb_le.
      assert (Y ≤ 9999) by (apply Hyear; lia).
      split_and!; try lia; try (unfold Y; lia).
      destruct (Z.eqb_spec m 2) as [->|]; simpl in *; [|lia].
      destruct leap; simpl in *; lia.
Qed.

Lemma valid_date_fields d :
  valid_date d ↔
  1 ≤ year d ≤ 9999 ∧ 1 ≤ month d ≤ 12 ∧ 1 ≤ day d ≤ days_in_month (year d) (month d).
Proof.
  unfold valid_date, check_date_fields, MINYEAR, MAXYEAR.
  rewrite !andb_True, !Is_true_true, !Z.leb_le.
  split; [intros (((((?&?)&?)&?)&?)&?)|intros ((?&?)&(?&?)&?&?)];
    split_and!; done.
Qed.

Ltac month_cases m :=
  let H := fresh in
  assert (H : m = 1 ∨ m = 2 ∨ m = 3 ∨ m = 4 ∨ m = 5 ∨ m = 6 ∨ m = 7 ∨ m = 8
              ∨ m = 9 ∨ m = 10 ∨ m = 11 ∨ m = 12) by lia;
  destruct_or! H; subst m.

(** Within a year, the day of the year grows with the month and the day. *)
Lemma yday_lt_month y m1 d1 m2 d2 :
  1 ≤ m1 → m1 < m2 → m2 ≤ 12 → d1 ≤ days_in_month y m1 → 1 ≤ d2 →
  days_before_month y m1 + d1 < days_before_month y m2 + d2.
Proof.
  intros ? ? ? Hd1 ?. unfold days_before_month, days_in_month in *.
  destruct (is_leap y); month_cases m1; month_cases m2; simpl in *; lia.
Qed.

Lemma yday_bounds y m d :
  1 ≤ m ≤ 12 → 1 ≤ d ≤ days_in_month y m →
  1 ≤ days_before_month y m + d ≤ (if is_leap y then 366 else 365).
Proof.
  intros ? Hd. unfold days_before_month, days_in_month in *.
  destruct (is_leap y); month_cases m; simpl in *; lia.
Qed.

Lemma toordinal_lt_year a b :
  valid_date a → valid_date b → year a < year b → toordinal a < toordinal b.
Proof.
  intros (? & ? & ?)%valid_date_fields (? & ? & ?)%valid_date_fields Hy.
  unfold toordinal, ymd2ord.
  pose proof (yday_bounds (year a) (month a) (day a) ltac:(done) ltac:(done)).
  pose proof (yday_bounds (year b) (month b) (day b) ltac:(done) ltac:(done)).
  pose proof (days_before_year_succ (year a)).
  pose proof (days_before_year_mono (year a + 1) (year b) ltac:(lia)).
  destruct (is_leap (year a)); lia.
Qed.

Lemma toordinal_cmp a b :
  valid_date a → valid_date b → date_cmp a b = (toordinal a ?= toordinal b).
Proof.
  intros Ha Hb. unfold date_cmp, lex.
  destruct (Z.compare_spec (year a) (year b)) as [Ey|Hy|Hy].
  - pose proof Ha as (? & ? & ?)%valid_date_fields.
    pose proof Hb as (? & ? & ?)%valid_date_fields.
    unfold toordinal, ymd2ord. rewrite <-Ey in *.
    destruct (Z.compare_spec (month a) (month b)) as [Em|Hm|Hm].
    + rewrite <-Em. destruct (Z.compare_spec (day a) (day b));
        symmetry; [apply Z.compare_eq_iff|apply Z.compare_lt_iff|apply Z.compare_gt_iff]; lia.
    + symmetry. apply Z.compare_lt_iff.
      pose proof (yday_lt_month (year a) (month a) (day a) (month b) (day b)). lia.
    + symmetry. apply Z.compare_gt_iff.
      pose proof (yday_lt_month (year a) (month b) (day b) (month a) (day a)). lia.
  - symmetry. apply Z.compare_lt_iff. by apply toordinal_lt_year.
  - symmetry. apply Z.compare_gt_iff. by apply toordinal_lt_year.
Qed.

Lemma date_cmp_eq a b : date_cmp a b = Eq → a = b.
Proof.
  unfold date_cmp, lex. destruct a as [y1 m1 d1], b as [y2 m2 d2]; simpl.
  destruct (Z.compare_spec y1 y2); try done.
  destruct (Z.compare_spec m1 m2); try done.
  destruct (Z.compare_spec d1 d2); try done. by subst.
Qed.

Lemma toordinal_range d : valid_date d → 1 ≤ toordinal d ≤ MAXORDINAL.
Proof.
  intros (? & ? & ?)%valid_date_fields. unfold toordinal, ymd2ord.
  pose proof (yday_bounds (year d) (month d) (day d) ltac:(done) ltac:(done)).
  pose proof (days_before_year_succ (year d)).
  pose proof (days_before_year_mono 1 (year d) ltac:(lia)) as Hlo.
  pose proof (days_before_year_mono (year d + 1) 10000 ltac:(lia)) as Hhi.
  change (days_before_year 1) with 0 in Hlo.
  change (days_before_year 10000) with MAXORDINAL in Hhi.
  destruct (is_leap (year d)); lia.
Qed.

Lemma fromordinal_toordinal d : valid_date d → fromordinal (toordinal d) = d.
Proof.
  intros Hd. pose proof (toordinal_range d Hd) as Hr.
  destruct (ord2ymd_toordinal (toordinal d) Hr) as [Ho Hv].
  apply date_cmp_eq. rewrite toordinal_cmp by done.
  unfold fromordinal. rewrite Ho. apply Z.compare_refl.
Qed.

(** The day after a day is the next day of the week. *)
Lemma weekday_next d :
  valid_date d → (toordinal d < MAXORDINAL)%Z →
  weekday (fromordinal (toordinal d + 1)) = ((weekday d + 1) mod 7)%Z.
Proof.
  intros Hd Hlt. pose proof (toordinal_range d Hd).
  destruct (ord2ymd_toordinal (toordinal d + 1)) as [Ho _]; [lia|].
  unfold weekday, fromordinal. rewrite Ho.
  Z.div_mod_to_equations; lia.
Qed.

Lemma new_timedelta_normal d s us :
  0 ≤ s < 86400 → 0 ≤ us < 1000000 →
  new_timedelta d s us = mk_timedelta d s us.
Proof.
  intros Hs Hu. unfold new_timedelta.
  rewrite (Z.div_small us), (Z.mod_small us), Z.add_0_r by lia.
  rewrite (Z.div_small s), (Z.mod_small s), Z.add_0_r by lia. done.
Qed.

Lemma seconds_of_time_range t :
  0 ≤ hour t ≤ 23 → 0 ≤ minute t ≤ 59 → 0 ≤ second t ≤ 59 →
  0 ≤ seconds_of_time t < 86400.
Proof. unfold seconds_of_time. lia. Qed.

Lemma time_of_seconds t :
  0 ≤ hour t ≤ 23 → 0 ≤ minute t ≤ 59 → 0 ≤ second t ≤ 59 →
  let secs := seconds_of_time t in
  mk_time (secs / 3600) (secs mod 3600 / 60) (secs mod 3600 mod 60) (microsecond t) = t.
Proof.
  intros Hh Hm Hs secs. 
  assert (secs / 3600 = hour t ∧ secs mod 3600 / 60 = minute t ∧ secs mod 3600 mod 60 = second t) as (-> & -> & ->).
  { unfold secs, seconds_of_time. Z.div_mod_to_equations. lia. }
  by destruct t.
Qed.

Lemma valid_time_fields t :
  valid_time t ↔
  0 ≤ hour t ≤ 23 ∧ 0 ≤ minute t ≤ 59 ∧ 0 ≤ second t ≤ 59
  ∧ 0 ≤ microsecond t ≤ 999999.
Proof.
  unfold valid_time, check_time_fields.
  rewrite !andb_True, !Is_true_true, !Z.leb_le.
  split; [intros (((((((?&?)&?)&?)&?)&?)&?)&?)|intros ((?&?)&(?&?)&(?&?)&?&?)];
    split_and!; done.
Qed.

Lemma datetime_add_day dt :
  valid_datetime dt →
  datetime_add dt (new_timedelta 1 0 0)
  = if toordinal (date_of dt) <? MAXORDINAL
    then Ok (combine (fromordinal (toordinal (date_of dt) + 1)) (time_of dt))
    else Raise OverflowError.
Proof.
  intros [Hd (Hh & Hm & Hs & Hu)%valid_time_fields].
  pose proof (toordinal_range _ Hd) as Hr.
  pose proof (seconds_of_time_range _ Hh Hm Hs) as Hsecs.
  unfold datetime_add.
  rewrite (new_timedelta_normal 1 0 0) by lia.
  cbn [td_days td_seconds td_microseconds].
  rewrite !Z.add_0_r.
  rewrite new_timedelta_normal by lia.
  cbn [td_days td_seconds td_microseconds].
  rewrite time_of_seconds by done.
  destruct (Z.ltb_spec (toordinal (date_of dt)) MAXORDINAL).
  - rewrite (proj2 (Z.ltb_lt _ _)), (proj2 (Z.leb_le _ _)) by lia. done.
  - rewrite (proj2 (Z.leb_gt _ _)) by lia. by rewrite andb_false_r.
Qed.

Lemma date_le_toordinal a b :
  valid_date a → valid_date b → date_le a b = (toordinal a <=? toordinal b).
Proof.
  intros Ha Hb. unfold date_le, Z.leb. by rewrite toordinal_cmp.
Qed.

Lemma date_span_nil start_dt end_dt :
  toordinal (date_of end_dt) < toordinal (date_of start_dt) →
  date_span start_dt end_dt = [].
Proof. intros H. unfold date_span. rewrite seqZ_nil by lia. done. Qed.

Lemma date_span_cons start_dt end_dt :
  valid_datetime start_dt →
  toordinal (date_of start_dt) ≤ toordinal (date_of end_dt) →
  toordinal (date_of start_dt) < MAXORDINAL →
  date_span start_dt end_dt
  = start_dt
    :: date_span
         (combine (fromordinal (toordinal (date_of start_dt) + 1)) (time_of start_dt))
         end_dt.
Proof.
  intros [Hd Ht] Hle Hlt. unfold date_span.
  pose proof (toordinal_range _ Hd).
  rewrite seqZ_cons by lia. csimpl. f_equal.
  - rewrite fromordinal_toordinal by done. by destruct start_dt.
  - destruct (ord2ymd_toordinal (toordinal (date_of start_dt) + 1)) as [Ho _]; [lia|].
    cbn [date_of time_of]. unfold fromordinal. rewrite Ho.
    f_equal. f_equal; lia.
Qed.

(** The image of a range of integers under a function that is increasing
  on the range is sorted. *)
Lemma sorted_fmap_seqZ {B} (f : Z → B) (R : relation B) a len :
  (∀ i j, a ≤ i < j → j < a + len → R (f i) (f j)) →
  StronglySorted R (f <$> seqZ a len).
Proof.
  destruct (decide (len ≤ 0)) as [|Hpos]; [by rewrite seqZ_nil; [constructor|]|].
  rewrite <-(Z2Nat.id len) by lia. generalize (Z.to_nat len) as k. clear Hpos.
  intros k. revert a. induction k as [|k IH]; intros a Hf; [constructor|].
  rewrite seqZ_cons by lia. csimpl. constructor.
  - replace (Z.pred (Z.of_nat (S k))) with (Z.of_nat k) by lia.
    apply IH. intros i j ? ?. apply Hf; lia.
  - apply Forall_fmap, Forall_seqZ. intros j Hj. apply Hf; lia.
Qed.

Section date_loop.
Variable end_dt : datetime.
Hypothesis end_valid : valid_date (date_of end_dt).

Lemma all_dates_loop_spec fuel curr all_dates :
  valid_datetime curr →
  (Z.to_nat (toordinal (date_of end_dt) - toordinal (date_of curr) + 1) < fuel)%nat →
  all_dates_loop fuel curr end_dt all_dates
  = if loop_overflows curr end_dt then Raise OverflowError
    else Ok (all_dates ++ date_span curr end_dt).
Proof using end_valid.
  revert curr all_dates.
  induction fuel as [|fuel IH]; intros curr all_dates Hv Hfuel; [lia|].
  pose proof Hv as [Hd Ht].
  pose proof (toordinal_range _ Hd). pose proof (toordinal_range _ end_valid).
  cbn [all_dates_loop]. rewrite date_le_toordinal by assumption.
  destruct (Z.leb_spec (toordinal (date_of curr)) (toordinal (date_of end_dt)))
    as [Hle|Hgt].
  - rewrite datetime_add_day by assumption.
    destruct (Z.ltb_spec (toordinal (date_of curr)) MAXORDINAL) as [Hlt|Hge].
    + cbn [mbind result_bind].
      set (next := combine (fromordinal (toordinal (date_of curr) + 1)) (time_of curr)).
      destruct (ord2ymd_toordinal (toordinal (date_of curr) + 1)) as [Ho Hvn]; [lia|].
      assert (Hnext : toordinal (date_of next) = toordinal (date_of curr) + 1)
        by exact Ho.
      rewrite IH; [|by split|lia].
      unfold loop_overflows. rewrite Hnext.
      rewrite (date_span_cons curr) by assumption. fold next.
      rewrite <-app_assoc. cbn [app].
      destruct (decide (toordinal (date_of end_dt) = MAXORDINAL)) as [Emax|Emax].
      * rewrite !bool_decide_true by lia. reflexivity.
      * rewrite !bool_decide_false by lia. reflexivity.
    + cbn [mbind result_bind]. unfold loop_overflows.
      rewrite bool_decide_true by lia. reflexivity.
  - unfold loop_overflows. rewrite bool_decide_false by lia.
    rewrite date_span_nil by lia. by rewrite app_nil_r.
Qed.

(** The bound on the date loop is never reached: the loop ends by its
    own test, or by the [OverflowError] of the day after 9999-12-31. *)
Lemma all_dates_loop_enough start_dt :
  valid_datetime start_dt →
  generate_date_list start_dt end_dt
  = if loop_overflows start_dt end_dt then Raise OverflowError
    else Ok (date_span start_dt end_dt).
Proof using end_valid.
  intros Hv. unfold generate_date_list, all_dates_fuel.
  rewrite all_dates_loop_spec by (done || lia). done.
Qed.

Lemma elem_of_date_span start_dt day :
  valid_datetime start_dt →
  day ∈ date_span start_dt end_dt →
  valid_datetime day
  ∧ toordinal (date_of start_dt) ≤ toordinal (date_of day) ≤ toordinal (date_of end_dt)
  ∧ time_of day = time_of start_dt.
Proof using end_valid.
  intros [Hd Ht]. unfold date_span.
  intros (n & -> & Hn%elem_of_seqZ)%list_elem_of_fmap.
  pose proof (toordinal_range _ Hd). pose proof (toordinal_range _ end_valid).
  destruct (ord2ymd_toordinal n) as [Ho Hvn]; [lia|].
  cbn [date_of time_of]. unfold fromordinal. rewrite Ho.
  split_and!; [split; assumption|lia|lia|reflexivity].
Qed.

(** The days of a period are in strictly ascending order of date. *)
Lemma date_span_sorted start_dt :
  valid_datetime start_dt →
  StronglySorted (λ x y, date_cmp (date_of x) (date_of y) = Lt)
    (date_span start_dt end_dt).
Proof using end_valid.
  intros [Hd Ht]. unfold date_span.
  pose proof (toordinal_range _ Hd). pose proof (toordinal_range _ end_valid).
  apply sorted_fmap_seqZ. intros i j Hi Hj. cbn [date_of].
  destruct (ord2ymd_toordinal i) as [Hoi Hvi]; [lia|].
  destruct (ord2ymd_toordinal j) as [Hoj Hvj]; [lia|].
  unfold fromordinal. rewrite toordinal_cmp, Hoi, Hoj by assumption.
  apply Z.compare_lt_iff. lia.
Qed.

End date_loop.

Lemma generate_date_list_Ok start_dt end_dt all_dates :
  valid_datetime start_dt → valid_date (date_of end_dt) →
  generate_date_list start_dt end_dt = Ok all_dates →
  all_dates = date_span start_dt end_dt.
Proof.
  intros Hs He. rewrite all_dates_loop_enough by assumption.
  destruct (loop_overflows _ _); [done|]. by intros [= <-].
Qed.

End calendar.

(* ------------------------------------------------------------------ *)
(** ** The order of datetimes *)

Lemma lex_antisym c1 c2 : lex (CompOpp c1) (CompOpp c2) = CompOpp (lex c1 c2).
Proof. by destruct c1. Qed.

Lemma lex_Eq_r c : lex c Eq = c.
Proof. by destruct c. Qed.

Lemma datetime_cmp_antisym a b : datetime_cmp b a = CompOpp (datetime_cmp a b).
Proof.
  unfold datetime_cmp, date_cmp, time_cmp.
  rewrite <-!lex_antisym, <-!Z.compare_antisym. done.
Qed.

Lemma datetime_gt_cmp a b :
  datetime_gt a b = match datetime_cmp a b with Gt => true | _ => false end.
Proof.
  unfold datetime_gt, datetime_lt. rewrite (datetime_cmp_antisym a b).
  by destruct (datetime_cmp a b).
Qed.

Lemma datetime_cmp_lexZ a b : datetime_cmp a b = lexZ (fields a) (fields b).
Proof.
  unfold datetime_cmp, date_cmp, time_cmp, fields. cbn [lexZ].
  generalize (year (date_of a) ?= year (date_of b))%Z
    (month (date_of a) ?= month (date_of b))%Z
    (day (date_of a) ?= day (date_of b))%Z
    (hour (time_of a) ?= hour (time_of b))%Z
    (minute (time_of a) ?= minute (time_of b))%Z
    (second (time_of a) ?= second (time_of b))%Z
    (microsecond (time_of a) ?= microsecond (time_of b))%Z.
  intros c1 c2 c3 c4 c5 c6 c7.
  destruct c1, c2, c3, c4, c5, c6, c7; reflexivity.
Qed.

Lemma lexZ_le_trans l1 : ∀ l2 l3,
  length l1 = length l2 → length l2 = length l3 →
  lexZ l1 l2 ≠ Gt → lexZ l2 l3 ≠ Gt → lexZ l1 l3 ≠ Gt.
Proof.
  induction l1 as [|x l1 IH]; intros [|y l2] [|z l3]; cbn; try done.
  intros [= H12] [= H23]. unfold lex.
  destruct (Z.compare_spec x y), (Z.compare_spec y z), (Z.compare_spec x z);
    try done; try lia.
  by apply IH.
Qed.

Lemma datetime_le_total a b : datetime_le a b = true ∨ datetime_le b a = true.
Proof.
  unfold datetime_le. rewrite (datetime_cmp_antisym a b).
  destruct (datetime_cmp a b); auto.
Qed.

Lemma datetime_le_trans a b c :
  datetime_le a b = true → datetime_le b c = true → datetime_le a c = true.
Proof.
  unfold datetime_le. rewrite !datetime_cmp_lexZ. intros Hab Hbc.
  pose proof (lexZ_le_trans (fields a) (fields b) (fields c) eq_refl eq_refl) as H.
  destruct (lexZ (fields a) (fields b)), (lexZ (fields b) (fields c)),
    (lexZ (fields a) (fields c)); try done; exfalso; by apply H.
Qed.

(* ------------------------------------------------------------------ *)
(** ** The text of dates and times *)

Section text.
Local Open Scope Z_scope.

Lemma digit_cases_range v : 0 ≤ v ≤ 9 → digit_cases v.
Proof. unfold digit_cases. lia. Qed.

Ltac digit_cases v :=
  let H := fresh in
  assert (H : digit_cases v) by (apply digit_cases_range; lia);
  unfold digit_cases in H; destruct_or! H; subst v.

Lemma is_digit_digit_char v : 0 ≤ v ≤ 9 → is_digit (digit_char v) = true.
Proof. intros. digit_cases v; reflexivity. Qed.

Lemma digit_val_digit_char v : 0 ≤ v ≤ 9 → digit_val (digit_char v) = v.
Proof. intros. digit_cases v; reflexivity. Qed.

Lemma is_space_digit_char v : 0 ≤ v ≤ 9 → is_space (digit_char v) = false.
Proof. intros. digit_cases v; reflexivity. Qed.

Lemma compare_digit_char a b :
  0 ≤ a ≤ 9 → 0 ≤ b ≤ 9 → Ascii.compare (digit_char a) (digit_char b) = (a ?= b).
Proof. intros. digit_cases a; digit_cases b; reflexivity. Qed.

Lemma lex_div10 a b c :
  0 ≤ a → 0 ≤ b →
  lex (a / 10 ?= b / 10) (lex (a mod 10 ?= b mod 10) c) = lex (a ?= b) c.
Proof.
  intros Ha Hb. unfold lex.
  destruct (Z.compare_spec (a / 10) (b / 10)) as [E|E|E];
    destruct (Z.compare_spec (a mod 10) (b mod 10)) as [E'|E'|E'];
    destruct (Z.compare_spec a b) as [E''|E''|E'']; try reflexivity;
    exfalso; Z.div_mod_to_equations; lia.
Qed.

Lemma compare_digits w : ∀ a b r1 r2,
  0 ≤ a < 10 ^ Z.of_nat w → 0 ≤ b < 10 ^ Z.of_nat w →
  String.compare (digits w a r1) (digits w b r2)
  = lex (a ?= b) (String.compare r1 r2).
Proof.
  induction w as [|w IH]; intros a b r1 r2 Ha Hb.
  - change (10 ^ Z.of_nat 0) with 1 in *.
    assert (a = 0) as -> by lia. assert (b = 0) as -> by lia. reflexivity.
  - rewrite Nat2Z.inj_succ, Z.pow_succ_r in Ha, Hb by lia.
    cbn [digits]. rewrite IH by (Z.div_mod_to_equations; lia).
    cbn [String.compare].
    rewrite compare_digit_char by (Z.div_mod_to_equations; lia).
    rewrite <-(lex_div10 a b) by lia. unfold lex.
    destruct (a / 10 ?= b / 10); try reflexivity.
    destruct (a mod 10 ?= b mod 10); reflexivity.
Qed.

Lemma digits_app w : ∀ n r1 r2,
  (digits w n r1 +:+ r2)%string = digits w n (r1 +:+ r2)%string.
Proof.
  induction w as [|w IH]; intros n r1 r2; [reflexivity|].
  cbn [digits]. by rewrite IH.
Qed.

Lemma zfill_2 n : 0 ≤ n < 100 → zfill 2 n = digits 2 n "".
Proof.
  intros Hn. apply String.eqb_eq.
  apply (forallb_seqZ (λ n, String.eqb (zfill 2 n) (digits 2 n "")) 0 100);
    [by vm_compute|lia].
Qed.

Lemma zfill_4 n : 0 ≤ n < 10000 → zfill 4 n = digits 4 n "".
Proof.
  intros Hn. apply String.eqb_eq.
  apply (forallb_seqZ (λ n, String.eqb (zfill 4 n) (digits 4 n "")) 0 10000);
    [by vm_compute|lia].
Qed.

Lemma app_String c s r : (String c s +:+ r)%string = String c (s +:+ r)%string.
Proof. reflexivity. Qed.

Lemma app_EmptyString r : ("" +:+ r)%string = r.
Proof. reflexivity. Qed.

Ltac push_app :=
  repeat first
    [rewrite digits_app | rewrite app_String | rewrite app_EmptyString].

Lemma string_app_assoc s1 s2 s3 :
  ((s1 +:+ s2) +:+ s3)%string = (s1 +:+ (s2 +:+ s3))%string.
Proof. induction s1 as [|c s1 IH]; [reflexivity|]. by rewrite !app_String, IH. Qed.

Lemma string_app_nil_r s : (s +:+ "")%string = s.
Proof. induction s as [|c s IH]; [reflexivity|]. by rewrite app_String, IH. Qed.

Lemma days_in_month_le_31 y m : 1 ≤ m ≤ 12 → days_in_month y m ≤ 31.
Proof.
  intros. unfold days_in_month.
  assert (m = 1 ∨ m = 2 ∨ m = 3 ∨ m = 4 ∨ m = 5 ∨ m = 6 ∨ m = 7 ∨ m = 8
          ∨ m = 9 ∨ m = 10 ∨ m = 11 ∨ m = 12) as Hm by lia.
  destruct (is_leap y); destruct_or! Hm; subst m; simpl; lia.
Qed.

(** The text of a date, digit by digit. *)
Lemma strftime_date_digits d r :
  valid_date d →
  (strftime_date d +:+ r)%string
  = digits 4 (year d) (String "-" (digits 2 (month d) (String "-"
      (digits 2 (day d) r)))).
Proof.
  intros (? & ? & ?)%valid_date_fields.
  pose proof (days_in_month_le_31 (year d) (month d) ltac:(done)).
  unfold strftime_date.
  rewrite zfill_4, !zfill_2 by lia.
  rewrite !string_app_assoc. by push_app.
Qed.

Lemma strftime_time_digits t :
  valid_time t →
  strftime_time t
  = digits 2 (hour t) (String ":" (digits 2 (minute t) (String ":"
      (digits 2 (second t) "")))).
Proof.
  intros (? & ? & ? & ?)%valid_time_fields.
  unfold strftime_time.
  rewrite !zfill_2 by lia.
  by push_app.
Qed.

Lemma strftime_digits dt :
  valid_datetime dt →
  strftime dt
  = digits 4 (year (date_of dt)) (String "-" (digits 2 (month (date_of dt))
      (String "-" (digits 2 (day (date_of dt)) (String " "
        (strftime_time (time_of dt))))))).
Proof.
  intros [Hd Ht]. unfold strftime. by rewrite strftime_date_digits.
Qed.

Lemma compare_String c s1 s2 :
  String.compare (String c s1) (String c s2) = String.compare s1 s2.
Proof.
  cbn [String.compare]. unfold Ascii.compare. by rewrite N.compare_refl.
Qed.

(** Dates are ordered as their texts are. *)
Lemma compare_strftime_date a b :
  valid_date a → valid_date b →
  String.compare (strftime_date a) (strftime_date b) = date_cmp a b.
Proof.
  intros Ha Hb.
  pose proof Ha as (? & ? & ?)%valid_date_fields.
  pose proof Hb as (? & ? & ?)%valid_date_fields.
  pose proof (days_in_month_le_31 (year a) (month a) ltac:(done)).
  pose proof (days_in_month_le_31 (year b) (month b) ltac:(done)).
  rewrite <-(string_app_nil_r (strftime_date a)), <-(string_app_nil_r (strftime_date b)).
  rewrite !strftime_date_digits by assumption.
  rewrite (compare_digits 4), compare_String by (change (10 ^ Z.of_nat 4) with 10000; lia).
  rewrite (compare_digits 2), compare_String by (change (10 ^ Z.of_nat 2) with 100; lia).
  rewrite (compare_digits 2) by (change (10 ^ Z.of_nat 2) with 100; lia).
  cbn [String.compare]. by rewrite lex_Eq_r.
Qed.

(** Timestamps to the second are ordered as their texts are. *)
Lemma compare_strftime a b :
  valid_datetime a → valid_datetime b →
  microsecond (time_of a) = microsecond (time_of b) →
  String.compare (strftime a) (strftime b) = datetime_cmp a b.
Proof.
  intros [Ha Hta] [Hb Htb] Hus.
  pose proof Ha as (? & ? & ?)%valid_date_fields.
  pose proof Hb as (? & ? & ?)%valid_date_fields.
  pose proof Hta as (? & ? & ? & ?)%valid_time_fields.
  pose proof Htb as (? & ? & ? & ?)%valid_time_fields.
  pose proof (days_in_month_le_31 (year (date_of a)) (month (date_of a)) ltac:(done)).
  pose proof (days_in_month_le_31 (year (date_of b)) (month (date_of b)) ltac:(done)).
  rewrite !strftime_digits, !strftime_time_digits by (assumption || by split).
  rewrite (compare_digits 4), compare_String by (change (10 ^ Z.of_nat 4) with 10000; lia).
  rewrite (compare_digits 2), compare_String by (change (10 ^ Z.of_nat 2) with 100; lia).
  rewrite (compare_digits 2), compare_String by (change (10 ^ Z.of_nat 2) with 100; lia).
  rewrite (compare_digits 2), compare_String by (change (10 ^ Z.of_nat 2) with 100; lia).
  rewrite (compare_digits 2), compare_String by (change (10 ^ Z.of_nat 2) with 100; lia).
  rewrite (compare_digits 2) by (change (10 ^ Z.of_nat 2) with 100; lia).
  cbn [String.compare]. rewrite lex_Eq_r.
  unfold datetime_cmp, date_cmp, time_cmp. rewrite Hus, Z.compare_refl, lex_Eq_r.
  unfold lex.
  repeat match goal with |- context [?x ?= ?y] => destruct (x ?= y) end; reflexivity.
Qed.

(** The date texts of the days of a period are in strictly ascending
    order. *)
Lemma date_span_strings_sorted start_dt end_dt :
  valid_datetime start_dt → valid_date (date_of end_dt) →
  StronglySorted (λ a b, String.ltb a b = true)
    ((λ day, strftime_date (date_of day)) <$> date_span start_dt end_dt).
Proof.
  intros [Hd Ht] He. unfold date_span. rewrite <-list_fmap_compose.
  pose proof (toordinal_range _ Hd). pose proof (toordinal_range _ He).
  apply sorted_fmap_seqZ. intros i j Hi Hj. cbn [compose date_of].
  destruct (ord2ymd_toordinal i) as [Hoi Hvi]; [lia|].
  destruct (ord2ymd_toordinal j) as [Hoj Hvj]; [lia|].
  unfold String.ltb, fromordinal.
  rewrite compare_strftime_date, toordinal_cmp, Hoi, Hoj by assumption.
  by rewrite (proj2 (Z.compare_lt_iff i j)) by lia.
Qed.

Lemma digits_2 v r :
  0 ≤ v < 100 →
  digits 2 v r = String (digit_char (v / 10)) (String (digit_char (v mod 10)) r).
Proof.
  intros. cbn [digits]. by rewrite (Z.mod_small (v / 10)) by (Z.div_mod_to_equations; lia).
Qed.

Ltac two_digit_cases v :=
  let a := fresh "a" in
  let b := fresh "b" in
  let Hv := fresh in
  rewrite (digits_2 v) by lia;
  assert (Hv : v = 10 * (v / 10) + v mod 10 ∧ 0 ≤ v / 10 ≤ 9 ∧ 0 ≤ v mod 10 ≤ 9)
    by (Z.div_mod_to_equations; lia);
  set (a := v / 10) in *; set (b := v mod 10) in *; clearbody a b;
  destruct Hv as (-> & ? & ?);
  digit_cases a; digit_cases b; try lia; try reflexivity.

Lemma re_m_digits m rest :
  1 ≤ m ≤ 12 →
  followed_by re_m (lit "-") (digits 2 m (String "-" rest)) = [(m, rest)].
Proof. intros. two_digit_cases m. Qed.

Lemma re_H_digits h rest :
  0 ≤ h ≤ 23 →
  followed_by re_H (lit ":") (digits 2 h (String ":" rest)) = [(h, rest)].
Proof. intros. two_digit_cases h. Qed.

Lemma re_M_digits m rest :
  0 ≤ m ≤ 59 →
  followed_by re_M (lit ":") (digits 2 m (String ":" rest)) = [(m, rest)].
Proof. intros. two_digit_cases m. Qed.

Lemma re_S_digits s :
  0 ≤ s ≤ 59 → head (re_S (digits 2 s "")) = Some (s, ""%string).
Proof. intros. two_digit_cases s. Qed.

Lemma re_d_digits d c rest :
  1 ≤ d ≤ 31 → is_space c = false →
  followed_by re_d spaces (digits 2 d (String " " (String c rest)))
  = [(d, String c rest)].
Proof.
  intros ? Hc. two_digit_cases d;
    cbv -[is_space]; rewrite Hc; reflexivity.
Qed.

Lemma two_digits a b r :
  0 ≤ a ≤ 9 → 0 ≤ b ≤ 9 →
  two is_digit is_digit (String (digit_char a) (String (digit_char b) r))
  = [(10 * a + b, r)].
Proof.
  intros. unfold two.
  by rewrite !is_digit_digit_char, !digit_val_digit_char.
Qed.

Lemma re_Y_digits y rest :
  0 ≤ y < 10000 →
  followed_by re_Y (lit "-") (digits 4 y (String "-" rest)) = [(y, rest)].
Proof.
  intros. cbn [digits].
  assert (Hd : ∀ v, 0 ≤ v mod 10 ≤ 9) by (intros; Z.div_mod_to_equations; lia).
  unfold followed_by, re_Y.
  rewrite two_digits by apply Hd. cbn [mbind list_bind app].
  rewrite two_digits by apply Hd. cbn.
  do 2 f_equal. Z.div_mod_to_equations; lia.
Qed.

(** Parsing the text of a timestamp gives the timestamp back. *)
Lemma strptime_strftime dt :
  valid_datetime dt → microsecond (time_of dt) = 0 →
  strptime (strftime dt) = Ok dt.
Proof.
  intros [Hd Ht] Hus.
  pose proof Hd as (? & ? & ?)%valid_date_fields.
  pose proof Ht as (? & ? & ? & ?)%valid_time_fields.
  pose proof (days_in_month_le_31 (year (date_of dt)) (month (date_of dt)) ltac:(done)).
  rewrite strftime_digits, strftime_time_digits by (assumption || by split).
  unfold strptime, re_Ymd_HMS, re_HMS.
  rewrite re_Y_digits by lia. cbn [mbind list_bind app].
  rewrite re_m_digits by lia. cbn [mbind list_bind app].
  rewrite (digits_2 (hour (time_of dt))) by lia.
  rewrite re_d_digits by (lia || (apply is_space_digit_char; Z.div_mod_to_equations; lia)).
  cbn [mbind list_bind app].
  rewrite <-(digits_2 (hour (time_of dt))) by lia.
  rewrite re_H_digits by lia. cbn [mbind list_bind app].
  rewrite re_M_digits by lia. cbn [mbind list_bind app].
  pose proof (re_S_digits (second (time_of dt)) ltac:(lia)) as HS.
  destruct (re_S (digits 2 (second (time_of dt)) "")) as [|[s r] junk]; [done|].
  cbn in HS. injection HS as -> ->.
  cbn [mbind list_bind app first_match result_bind].
  unfold new_datetime.
  fold (valid_date (date_of dt)) in Hd. unfold valid_date in Hd.
  unfold valid_time in Ht. rewrite Hus in Ht.
  apply Is_true_true in Hd, Ht. rewrite Hd, Ht. cbn [andb].
  destruct dt as [[y m d] [h mi s us]]. cbn in Hus. by subst us.
Qed.

End text.

(** Of two timestamps of the form ["YYYY-MM-DD HH:MM:SS"], the one that is
    first as a text is the earlier one. *)
Lemma canonical_leb s1 dt1 s2 dt2 :
  canonical s1 dt1 → canonical s2 dt2 →
  String.leb s1 s2 = datetime_le dt1 dt2.
Proof.
  intros (Hv1 & Hu1 & ->) (Hv2 & Hu2 & ->).
  unfold String.leb, datetime_le.
  by rewrite compare_strftime by (done || congruence).
Qed.

Lemma canonical_strptime s dt : canonical s dt → strptime s = Ok dt.
Proof. intros (Hv & Hu & ->). by apply strptime_strftime. Qed.

Lemma first_match_outcome {A} (l : list (A * string)) :
  (∃ v, first_match l = Ok v) ∨ first_match l = Raise ValueError.
Proof. destruct l as [|[v [|]] ?]; simpl; eauto. Qed.

Lemma new_datetime_outcome y m d hh mm ss us :
  (∃ dt, new_datetime y m d hh mm ss us = Ok dt)
  ∨ new_datetime y m d hh mm ss us = Raise ValueError.
Proof. unfold new_datetime. case_match; eauto. Qed.

(** [strptime] returns a datetime or raises [ValueError]. *)
Lemma strptime_outcome s :
  (∃ dt, strptime s = Ok dt) ∨ strptime s = Raise ValueError.
Proof.
  unfold strptime.
  destruct (first_match_outcome (re_Ymd_HMS s)) as [[[[[y m] d] [[hh mm] ss]] ->]| ->];
    [|by right].
  apply new_datetime_outcome.
Qed.

Lemma strptime_HMS_outcome s :
  (∃ dt, strptime_HMS s = Ok dt) ∨ strptime_HMS s = Raise ValueError.
Proof.
  unfold strptime_HMS.
  destruct (first_match_outcome (re_HMS s)) as [[[[hh mm] ss] ->]| ->];
    [|by right].
  apply new_datetime_outcome.
Qed.

(* ------------------------------------------------------------------ *)
(** ** The punch indexer *)

Section indexer.
Implicit Types (m : punches_map) (tx : transaction) (code d_str : string).

Lemma index_transactions_snoc txs tx :
  index_transactions (txs ++ [tx])
  = index_transaction (index_transactions txs) tx.
Proof. unfold index_transactions. by rewrite foldl_snoc. Qed.

Lemma index_transaction_skip m tx :
  indexable tx = false → index_transaction m tx = m.
Proof.
  unfold indexable, index_transaction.
  destruct (get (tx_emp_code tx)) as [c|], (get (tx_punch_time tx)) as [p|];
    try done.
  intros H. apply andb_false_iff in H as [-> | ->]; simpl; [done|].
  by rewrite orb_true_r.
Qed.

Lemma index_transaction_keep m tx code p :
  indexable tx = true →
  get (tx_emp_code tx) = Some code →
  get (tx_punch_time tx) = Some p →
  index_transaction m tx
  = <[code := <[split_space_0 p := punches_on m code (split_space_0 p) ++ [tx]]>
                (default ∅ (m !! code))]> m.
Proof.
  unfold indexable, index_transaction, punches_on. intros H Ec Ep.
  rewrite Ec, Ep in *.
  apply andb_true_iff in H as [-> ->]. done.
Qed.

(** One step of the indexer appends the record to its own bucket and
    leaves every other bucket as it was. *)
Lemma punches_on_index_transaction m tx code d_str :
  punches_on (index_transaction m tx) code d_str
  = punches_on m code d_str
      ++ (if decide (filed_under code d_str tx) then [tx] else []).
Proof.
  destruct (decide (filed_under code d_str tx)) as [(Hix & Hc & Hd)|Hn].
  - apply Is_true_true in Hix.
    destruct (get (tx_punch_time tx)) as [p|] eqn:Ep; simplify_eq/=.
    rewrite (index_transaction_keep m tx code p) by done.
    unfold punches_on at 1. rewrite lookup_insert_eq. simpl.
    by rewrite lookup_insert_eq.
  - rewrite app_nil_r.
    destruct (indexable tx) eqn:Hix;
      [|by rewrite index_transaction_skip].
    pose proof Hix as [Hc Hp]%andb_true_iff.
    destruct (get (tx_emp_code tx)) as [c|] eqn:Ec; [|done].
    destruct (get (tx_punch_time tx)) as [p|] eqn:Ep; [|done].
    rewrite (index_transaction_keep m tx c p) by done.
    unfold punches_on at 1.
    destruct (decide (c = code)) as [->|Hne];
      [|by rewrite lookup_insert_ne].
    rewrite lookup_insert_eq. simpl.
    rewrite lookup_insert_ne; [done|].
    intros <-. apply Hn. unfold filed_under. by rewrite Hix, Ec, Ep.
Qed.

(** Every bucket is the sub-sequence of the records filed under its
    code and date, in their order of arrival. *)
Lemma punches_on_index_transactions txs code d_str :
  punches_on (index_transactions txs) code d_str
  = filter (filed_under code d_str) txs.
Proof.
  induction txs as [|tx txs IH] using rev_ind.
  - done.
  - rewrite index_transactions_snoc, punches_on_index_transaction, IH.
    rewrite filter_app. by f_equal.
Qed.

End indexer.

(** C9: the indexer files each record that has a non-empty employee code
    and a non-empty timestamp under that code and the date part of the
    timestamp, in exactly that bucket and as often as it came, and the
    records without one of the two are in no bucket. Every bucket is the
    sequence of the records filed under its code and date. The indexer is a
    total function: no record makes it fail. *)
Theorem index_transactions_buckets (txs : list transaction) :
  let m := index_transactions txs in
  (∀ c d : string, punches_on m c d = filter (filed_under c d) txs)
  ∧ (∀ tx, tx ∈ txs → indexable tx →
       ∃ c p : string,
         tx_emp_code tx = Str c ∧ tx_punch_time tx = Str p
         ∧ tx ∈ punches_on m c (split_space_0 p)
         ∧ ∀ c' d' : string,
             tx ∈ punches_on m c' d' → c' = c ∧ d' = split_space_0 p)
  ∧ (∀ tx, ¬ indexable tx → ∀ c d : string, tx ∉ punches_on m c d).
Proof.
  intros m. split_and!.
  - intros c d. apply punches_on_index_transactions.
  - intros tx Hin Hix. pose proof Hix as [Hc Hp]%andb_prop_elim.
    destruct (tx_emp_code tx) as [| |c] eqn:Ec; try done.
    destruct (tx_punch_time tx) as [| |p] eqn:Ep; try done.
    exists c, p. split_and!; try done.
    + unfold m. rewrite punches_on_index_transactions.
      apply list_elem_of_filter. split; [|done].
      unfold filed_under. by rewrite Ec, Ep.
    + intros c' d'. unfold m. rewrite punches_on_index_transactions.
      intros [(_ & Hc' & Hd') _]%list_elem_of_filter.
      rewrite Ec in Hc'. rewrite Ep in Hd'. by simplify_eq/=.
  - intros tx Hix c d. unfold m. rewrite punches_on_index_transactions.
    intros [(Hix' & _) _]%list_elem_of_filter. done.
Qed.

Lemma index_transactions_buckets_witness :
  ∃ c p : string,
    tx_emp_code (sample_punch "7" "2024-02-05 08:00:00") = Str c
    ∧ tx_punch_time (sample_punch "7" "2024-02-05 08:00:00") = Str p
    ∧ sample_punch "7" "2024-02-05 08:00:00"
      ∈ punches_on
          (index_transactions
             [mk_transaction Null (Str "2024-02-05 07:00:00") Missing Missing Missing;
              sample_punch "7" "2024-02-05 08:00:00"])
          c (split_space_0 p)
    ∧ ∀ c' d' : string,
        sample_punch "7" "2024-02-05 08:00:00"
        ∈ punches_on
            (index_transactions
               [mk_transaction Null (Str "2024-02-05 07:00:00") Missing Missing Missing;
                sample_punch "7" "2024-02-05 08:00:00"])
            c' d' →
        c' = c ∧ d' = split_space_0 p.
Proof.
  apply (proj1 (proj2 (index_transactions_buckets
                         [mk_transaction Null (Str "2024-02-05 07:00:00")
                            Missing Missing Missing;
                          sample_punch "7" "2024-02-05 08:00:00"]))).
  - right. left.
  - exact I.
Defined.

Lemma indexable_has_timestamp tx : indexable tx → has_timestamp tx.
Proof.
  unfold indexable, has_timestamp, punch_str.
  intros [_ H]%andb_prop_elim. by destruct (tx_punch_time tx).
Qed.

Lemma punches_on_has_timestamp txs (c d : string) :
  Forall has_timestamp (punches_on (index_transactions txs) c d).
Proof.
  rewrite punches_on_index_transactions. apply Forall_forall.
  intros tx [(Hix & _) _]%list_elem_of_filter.
  by apply indexable_has_timestamp.
Qed.

(** The buckets of an employee, as the indexer makes them, hold records
    with a timestamp. *)
Lemma daily_txs_has_timestamp txs (c : string) day :
  Forall has_timestamp (daily_txs (punches_of (index_transactions txs) c) day).
Proof. apply punches_on_has_timestamp. Qed.

(* ------------------------------------------------------------------ *)
(** ** The daily classifier *)

Lemma sorted_by_punch_time_ok (l : list transaction) :
  Forall has_timestamp l →
  sorted_by_punch_time l = Ok (sorted String.leb punch_str l).
Proof.
  intros Hl. unfold sorted_by_punch_time.
  rewrite (mapM_result_fmap _ (λ x, Some (punch_str x))).
  2:{ eapply Forall_impl; [exact Hl|]. intros x Hx. unfold has_timestamp in Hx.
      by rewrite Hx. }
  cbn [mbind result_bind].
  rewrite (mapM_result_fmap _ (default EmptyString)).
  2:{ apply Forall_fmap, Forall_true. done. }
  cbn [mbind result_bind]. rewrite <-list_fmap_compose.
  unfold mret, result_ret. f_equal. apply sorted_zip_keys.
Qed.

Lemma punch_time_item_ok tx :
  has_timestamp tx → punch_time_item tx = Ok (punch_str tx).
Proof. unfold punch_time_item, has_timestamp. by intros ->. Qed.

Lemma first_punch_None (l : list transaction) : first_punch l = None ↔ l = [].
Proof.
  unfold first_punch. split; [|by intros ->].
  destruct (sorted String.leb punch_str l) eqn:E; [|done].
  intros _. by apply sorted_nil_inv in E.
Qed.

(** The first punch is a record of the day with the least timestamp, as
    texts. *)
Lemma first_punch_least (l : list transaction) x :
  first_punch l = Some x →
  x ∈ l ∧ ∀ y, y ∈ l → String.leb (punch_str x) (punch_str y) = true.
Proof.
  apply sorted_head_least;
    [apply string_leb_total|apply string_leb_trans].
Qed.

(** A record of the day whose timestamp is least, as a text, has the
    timestamp of the first punch. *)
Lemma first_punch_of_least (l : list transaction) x :
  x ∈ l →
  (∀ y, y ∈ l → String.leb (punch_str x) (punch_str y) = true) →
  ∃ x', first_punch l = Some x' ∧ punch_str x' = punch_str x.
Proof.
  intros Hx Hleast.
  destruct (first_punch l) as [x'|] eqn:Ef.
  - exists x'. split; [done|].
    apply first_punch_least in Ef as [Hx' Hleast'].
    apply String.leb_antisym; auto.
  - apply first_punch_None in Ef. subst l. by apply elem_of_nil in Hx.
Qed.

(** The body of the day loop classifies the day and records its class. *)
Lemma classify_day_classification late emp_punches st day :
  Forall has_timestamp (daily_txs emp_punches day) →
  classify_day late emp_punches st day
  = classification late emp_punches day
      ≫= λ c, Ok (record_day st (strftime_date (date_of day)) c).
Proof.
  intros Hts. unfold classify_day, classification, first_punch.
  fold (daily_txs emp_punches day). fold (is_sunday day).
  set (l := daily_txs emp_punches day) in *.
  rewrite sorted_by_punch_time_ok by done.
  destruct (sorted String.leb punch_str l) as [|x s] eqn:Es.
  - apply sorted_nil_inv in Es. rewrite Es. cbn.
    by destruct (is_sunday day), st.
  - assert (Hlen : (0 < length l)%nat).
    { rewrite <-(sorted_length String.leb punch_str), Es. cbn. lia. }
    rewrite bool_decide_true by done.
    destruct (is_sunday day); [done|]. cbn [negb head mbind result_bind].
    assert (Hx : has_timestamp x).
    { apply (proj1 (Forall_forall _ _) Hts).
      rewrite <-(elem_of_sorted String.leb punch_str), Es. left. }
    rewrite punch_time_item_ok by done. cbn [mbind result_bind].
    unfold late_or_on_time.
    destruct (strptime (punch_str x)) as [dt|e|]; cbn [mbind result_bind]; [|done..].
    by destruct (datetime_gt dt _).
Qed.

Lemma classify_day_sunday late emp_punches st day :
  is_sunday day = true →
  classify_day late emp_punches st day
  = Ok (if bool_decide (daily_txs emp_punches day ≠ [])
        then record_day st (strftime_date (date_of day)) WeekendWorked
        else st).
Proof.
  intros Hsun. unfold classify_day. fold (is_sunday day).
  fold (daily_txs emp_punches day). rewrite Hsun.
  destruct (daily_txs emp_punches day) as [|x l]; [done|].
  rewrite bool_decide_true by (cbn; lia). by rewrite bool_decide_true.
Qed.

Lemma classify_day_no_punch late emp_punches st day :
  is_sunday day = false → daily_txs emp_punches day = [] →
  classify_day late emp_punches st day
  = Ok (record_day st (strftime_date (date_of day)) Absent).
Proof.
  intros Hsun Hno. unfold classify_day. fold (is_sunday day).
  fold (daily_txs emp_punches day). by rewrite Hsun, Hno.
Qed.

Lemma classify_day_required late emp_punches st day st' :
  is_sunday day = false →
  classify_day late emp_punches st day = Ok st' →
  total_required_days st' = total_required_days st + 1.
Proof.
  intros Hsun. unfold classify_day. fold (is_sunday day). rewrite Hsun.
  destruct (negb _); [by intros [= <-]|].
  destruct (sorted_by_punch_time _) as [[|x s]|e|]; cbn; try done.
  destruct (punch_time_item x) as [s0|e|]; cbn; try done.
  destruct (strptime s0) as [dt|e|]; cbn; try done.
  destruct (datetime_gt _ _); by intros [= <-].
Qed.

Section classifier.
Variable late : time.
Variable emp_punches : gmap string (list transaction).
Hypothesis buckets : ∀ day, Forall has_timestamp (daily_txs emp_punches day).

Local Abbreviation d_str day := (strftime_date (date_of day)).

Lemma late_or_on_time_outcome day s :
  (∃ c, late_or_on_time late day s = Ok c)
  ∨ late_or_on_time late day s = Raise ValueError.
Proof.
  unfold late_or_on_time.
  destruct (strptime_outcome s) as [[dt ->]| ->]; [left|by right].
  cbn. eauto.
Qed.

Lemma classification_outcome day :
  (∃ c, classification late emp_punches day = Ok c)
  ∨ classification late emp_punches day = Raise ValueError.
Proof.
  unfold classification. destruct (first_punch _); [|eauto].
  destruct (is_sunday day); [eauto|]. apply late_or_on_time_outcome.
Qed.

Lemma classify_day_outcome st day :
  (∃ st', classify_day late emp_punches st day = Ok st')
  ∨ classify_day late emp_punches st day = Raise ValueError.
Proof using buckets.
  rewrite classify_day_classification by apply buckets.
  destruct (classification_outcome day) as [[c ->]| ->]; cbn; eauto.
Qed.

(** The class of a day is one of five, by the weekday and the punches. *)
Lemma classification_cases day c :
  classification late emp_punches day = Ok c →
  match c with
  | WeekendIdle => is_sunday day = true ∧ daily_txs emp_punches day = []
  | WeekendWorked => is_sunday day = true ∧ daily_txs emp_punches day ≠ []
  | Absent => is_sunday day = false ∧ daily_txs emp_punches day = []
  | PresentOnTime => is_sunday day = false ∧ daily_txs emp_punches day ≠ []
  | PresentLate detail =>
      is_sunday day = false ∧ daily_txs emp_punches day ≠ []
      ∧ ld_date detail = d_str day
  end.
Proof.
  unfold classification.
  destruct (first_punch _) as [x|] eqn:Ef.
  - assert (daily_txs emp_punches day ≠ []).
    { intros E. apply first_punch_None in E. congruence. }
    destruct (is_sunday day); [intros [= <-]; auto|].
    unfold late_or_on_time. intros (dt & _ & H')%bind_Ok.
    cbn in H'. destruct (datetime_gt _ _); injection H' as <-; auto.
  - apply first_punch_None in Ef.
    destruct (is_sunday day); intros [= <-]; auto.
Qed.

Lemma classify_day_Ok st day st' :
  classify_day late emp_punches st day = Ok st' →
  ∃ c, classification late emp_punches day = Ok c
       ∧ st' = record_day st (d_str day) c.
Proof using buckets.
  rewrite classify_day_classification by apply buckets.
  intros (c & Hc & [= <-])%bind_Ok. eauto.
Qed.

End classifier.

(** C4: the rest day is the day whose [weekday()] is 6, Sunday (2024-02-04
    is one, and the day of the week advances by one from a day to the
    next). A Sunday with punches adds one to [days_present] and changes
    nothing else; a Sunday without punches changes nothing; any other day
    adds one to the required days, whatever its class (and with no punch it
    is recorded absent). *)
Theorem sunday_is_the_rest_day late emp_punches st day :
  (is_sunday day = true → daily_txs emp_punches day ≠ [] →
     classify_day late emp_punches st day
     = Ok (mk_stats (days_present st + 1) (days_late st) (days_absent st)
             (total_required_days st) (late_details st) (absent_details st)))
  ∧ (is_sunday day = true → daily_txs emp_punches day = [] →
       classify_day late emp_punches st day = Ok st)
  ∧ (is_sunday day = false → ∀ st',
       classify_day late emp_punches st day = Ok st' →
       total_required_days st' = total_required_days st + 1)
  ∧ (is_sunday day = false → daily_txs emp_punches day = [] →
       classify_day late emp_punches st day
       = Ok (mk_stats (days_present st) (days_late st) (days_absent st + 1)
               (total_required_days st + 1) (late_details st)
               (absent_details st ++ [strftime_date (date_of day)])))
  ∧ is_sunday (at_midnight 2024 2 4) = true
  ∧ (∀ d, valid_date d → (toordinal d < MAXORDINAL)%Z →
       weekday (fromordinal (toordinal d + 1)) = ((weekday d + 1) mod 7)%Z).
Proof.
  split_and!.
  - intros Hsun Hp. rewrite classify_day_sunday by done.
    by rewrite bool_decide_true.
  - intros Hsun Hp. rewrite classify_day_sunday by done.
    rewrite bool_decide_false; [done|]. intros Hn. by apply Hn.
  - intros Hsun st'. by apply classify_day_required.
  - intros Hsun Hp. by rewrite classify_day_no_punch.
  - reflexivity.
  - apply weekday_next.
Qed.

Lemma sunday_is_the_rest_day_witness :
  classify_day (mk_time 8 5 0 0)
    {["2024-02-04"%string := [sample_punch "7" "2024-02-04 10:00:00"]]}
    (mk_stats 3 1 2 5 [] []) (at_midnight 2024 2 4)
  = Ok (mk_stats 4 1 2 5 [] []).
Proof.
  apply (proj1 (sunday_is_the_rest_day (mk_time 8 5 0 0)
                  {["2024-02-04"%string := [sample_punch "7" "2024-02-04 10:00:00"]]}
                  (mk_stats 3 1 2 5 [] []) (at_midnight 2024 2 4))).
  - reflexivity.
  - vm_compute. discriminate.
Defined.

(** C3: on a day that is not a Sunday, with punches whose timestamps have
    the form ["YYYY-MM-DD HH:MM:SS"], the day is recorded present, and late
    exactly when the earliest timestamp is after the threshold (the date of
    the day at the late-threshold time): a first punch at the threshold
    itself, or before it, is on time. The entry of a late day holds the
    date, the timestamp of the first punch and the text of first punch
    minus threshold. *)
Theorem first_punch_lateness late emp_punches st day x dt :
  is_sunday day = false →
  (∀ y, y ∈ daily_txs emp_punches day →
        has_timestamp y ∧ ∃ dty, canonical (punch_str y) dty) →
  x ∈ daily_txs emp_punches day →
  canonical (punch_str x) dt →
  (∀ y dty, y ∈ daily_txs emp_punches day → canonical (punch_str y) dty →
            datetime_le dt dty = true) →
  let threshold_dt := combine (date_of day) late in
  let d_str := strftime_date (date_of day) in
  classify_day late emp_punches st day
  = Ok (match datetime_cmp dt threshold_dt with
        | Gt =>
            mk_stats (days_present st + 1) (days_late st + 1) (days_absent st)
              (total_required_days st + 1)
              (late_details st ++
                 [mk_late_detail d_str (punch_str x)
                    (str_timedelta (datetime_sub dt threshold_dt))])
              (absent_details st)
        | Eq | Lt =>
            mk_stats (days_present st + 1) (days_late st) (days_absent st)
              (total_required_days st + 1) (late_details st) (absent_details st)
        end).
Proof.
  intros Hsun Hall Hx Hcan Hearliest threshold_dt d_str.
  rewrite classify_day_classification
    by (apply Forall_forall; intros y Hy; by apply Hall).
  assert (∃ x', first_punch (daily_txs emp_punches day) = Some x'
                ∧ punch_str x' = punch_str x) as (x' & Hx' & Estr).
  { destruct (first_punch (daily_txs emp_punches day)) as [x'|] eqn:Ef.
    - exists x'. split; [done|].
      apply first_punch_least in Ef as [Hin Hleast].
      destruct (Hall x' Hin) as [_ [dt' Hcan']].
      apply String.leb_antisym; [by apply Hleast|].
      rewrite (canonical_leb _ dt _ dt') by done. by apply (Hearliest x').
    - apply first_punch_None in Ef. rewrite Ef in Hx. by apply elem_of_nil in Hx. }
  unfold classification, late_or_on_time.
  rewrite Hx', Hsun, Estr, (canonical_strptime _ dt) by done.
  cbn [mbind result_bind mret result_ret].
  fold threshold_dt d_str. rewrite datetime_gt_cmp.
  by destruct (datetime_cmp dt threshold_dt).
Qed.

Lemma first_punch_lateness_witness :
  classify_day (mk_time 8 5 0 0)
    {["2024-02-05"%string :=
        [sample_punch "7" "2024-02-05 12:30:00"; sample_punch "7" "2024-02-05 08:06:00"]]}
    initial_stats (at_midnight 2024 2 5)
  = Ok (mk_stats 1 1 0 1
          [mk_late_detail "2024-02-05" "2024-02-05 08:06:00" "0:01:00"] []).
Proof.
  apply (first_punch_lateness (mk_time 8 5 0 0)
           {["2024-02-05"%string :=
               [sample_punch "7" "2024-02-05 12:30:00";
                sample_punch "7" "2024-02-05 08:06:00"]]}
           initial_stats (at_midnight 2024 2 5)
           (sample_punch "7" "2024-02-05 08:06:00")
           (combine (mk_date 2024 2 5) (mk_time 8 6 0 0))).
  - reflexivity.
  - intros y Hy. vm_compute in Hy.
    apply elem_of_cons in Hy as [->|Hy];
      [|apply list_elem_of_singleton in Hy as ->].
    + split; [reflexivity|].
      exists (combine (mk_date 2024 2 5) (mk_time 12 30 0 0)).
      split_and!; [split; exact I|reflexivity|reflexivity].
    + split; [reflexivity|].
      exists (combine (mk_date 2024 2 5) (mk_time 8 6 0 0)).
      split_and!; [split; exact I|reflexivity|reflexivity].
  - vm_compute. right. left.
  - split_and!; [split; exact I|reflexivity|reflexivity].
  - intros y dty Hy Hcan. vm_compute in Hy.
    apply canonical_strptime in Hcan.
    apply elem_of_cons in Hy as [->|Hy];
      [|apply list_elem_of_singleton in Hy as ->];
      vm_compute in Hcan; injection Hcan as <-; reflexivity.
Defined.

(** A first punch at the threshold itself is on time, one minute after it
    is late by ["0:01:00"]. *)
Example threshold_is_on_time :
  classify_day (mk_time 8 5 0 0)
    {["2024-02-05"%string := [sample_punch "7" "2024-02-05 08:05:00"]]}
    initial_stats (at_midnight 2024 2 5)
  = Ok (mk_stats 1 0 0 1 [] []).
Proof. vm_compute. reflexivity. Qed.

(** The order of the texts is not the order of the times for timestamps
    that [strptime] accepts without their leading zeros: of a punch at
    9:00:00 and one at 10:00:00, the latter is first as a text. *)
Example unpadded_hour_sorts_late :
  strptime "2024-02-05 9:00:00" = Ok (combine (mk_date 2024 2 5) (mk_time 9 0 0 0))
  ∧ first_punch
      [sample_punch "7" "2024-02-05 9:00:00"; sample_punch "7" "2024-02-05 10:00:00"]
    = Some (sample_punch "7" "2024-02-05 10:00:00").
Proof. split; reflexivity. Qed.

(* ------------------------------------------------------------------ *)
(** ** The period aggregator *)

Section aggregator.
Variable late : time.
Variable emp_punches : gmap string (list transaction).

Local Abbreviation d_str day := (strftime_date (date_of day)).

(** With no punch on any day, every day but the Sundays is recorded
    absent and nothing else is recorded. *)
Lemma no_punch_stats days : ∀ st,
  (∀ day, day ∈ days → daily_txs emp_punches day = []) →
  let working := filter (λ day, negb (is_sunday day)) days in
  foldlM (classify_day late emp_punches) st days
  = Ok (mk_stats (days_present st) (days_late st)
          (days_absent st + length working)
          (total_required_days st + length working) (late_details st)
          (absent_details st ++ ((λ day, strftime_date (date_of day)) <$> working))).
Proof.
  induction days as [|day days IH]; intros st Hno working.
  - cbn. destruct st; cbn. by rewrite !Nat.add_0_r, app_nil_r.
  - cbn [foldlM]. unfold working. rewrite filter_cons.
    pose proof (Hno day ltac:(left)) as Hday.
    destruct (is_sunday day) eqn:Hsun; cbn [negb].
    + rewrite classify_day_sunday by done.
      rewrite bool_decide_false by (intros Hn; by apply Hn).
      cbn [mbind result_bind]. rewrite decide_False by (intros []).
      apply IH. intros ??; apply Hno; by right.
    + rewrite classify_day_no_punch by done.
      cbn [mbind result_bind]. rewrite decide_True by exact I.
      rewrite IH by (intros ??; apply Hno; by right).
      cbn. rewrite <-app_assoc. cbn. do 2 f_equal; lia.
Qed.

Hypothesis buckets : ∀ day, Forall has_timestamp (daily_txs emp_punches day).

(** What the counters of an employee satisfy after any number of days. *)
Lemma period_stats_inv days : ∀ st st',
  foldlM (classify_day late emp_punches) st days = Ok st' →
  days_present st' + days_absent st' + total_required_days st
  = days_present st + days_absent st + total_required_days st'
    + length (filter (worked_sunday emp_punches) days)
  ∧ total_required_days st'
    = total_required_days st + length (filter (λ day, negb (is_sunday day)) days)
  ∧ length (late_details st') + days_late st
    = length (late_details st) + days_late st'
  ∧ length (absent_details st') + days_absent st
    = length (absent_details st) + days_absent st'
  ∧ ∃ lds ads,
      late_details st' = late_details st ++ lds
      ∧ absent_details st' = absent_details st ++ ads
      ∧ ld_date <$> lds `sublist_of` (λ day, d_str day) <$> days
      ∧ ads `sublist_of` (λ day, d_str day) <$> days.
Proof using buckets.
  induction days as [|day days IH]; intros st st' H.
  - injection H as <-. split_and!; try done.
    exists [], []. by rewrite !app_nil_r.
  - cbn [foldlM] in H. apply bind_Ok in H as (st1 & H1 & H).
    apply IH in H as (Hb & Hr & Hl & Ha & lds & ads & Eld & Ead & Hsl & Hsa).
    apply classify_day_Ok in H1 as (c & Hc & ->); [|apply buckets].
    apply classification_cases in Hc.
    rewrite Eld in Hl |- *. rewrite Ead in Ha |- *.
    rewrite fmap_cons. clear IH Eld Ead.
    assert (Hws : worked_sunday emp_punches day
                  = match c with WeekendWorked => true | _ => false end).
    { unfold worked_sunday.
      destruct c; destruct_and! Hc;
        repeat match goal with H : is_sunday _ = _ |- _ => rewrite H end;
        try reflexivity.
      - by rewrite bool_decide_true.
      - rewrite bool_decide_false; [done|]. intros Hn. by apply Hn. }
    assert (Hreq : is_sunday day
                   = match c with
                     | WeekendWorked | WeekendIdle => true
                     | _ => false
                     end).
    { destruct c; by destruct_and! Hc. }
    rewrite !length_filter_cons_bool, Hws, Hreq.
    destruct c as [|detail| | |];
      cbn [record_day days_present days_late days_absent total_required_days
             late_details absent_details negb] in Hb, Hr, Hl, Ha |- *;
      rewrite ?length_app in *; cbn [length] in Hb, Hr, Hl, Ha |- *;
      (split_and!; [lia..|]).
    + exists lds, ads. split_and!; try done; by apply sublist_cons.
    + destruct Hc as (_ & _ & <-).
      exists (detail :: lds), ads. rewrite <-!app_assoc.
      split_and!; try done; [by apply sublist_skip|by apply sublist_cons].
    + exists lds, (d_str day :: ads). rewrite <-!app_assoc.
      split_and!; try done; [by apply sublist_cons|by apply sublist_skip].
    + exists lds, ads. split_and!; try done; by apply sublist_cons.
    + exists lds, ads. split_and!; try done; by apply sublist_cons.
Qed.

(** The counters of an employee are computed when the first punch of
    every working day parses. *)
Lemma period_total days st :
  (∀ day x, day ∈ days → first_punch (daily_txs emp_punches day) = Some x →
     ∃ dt, strptime (punch_str x) = Ok dt) →
  ∃ st', foldlM (classify_day late emp_punches) st days = Ok st'.
Proof using buckets.
  intros Hparse. apply foldlM_ok. intros st0 day Hday.
  rewrite classify_day_classification by apply buckets.
  unfold classification.
  destruct (first_punch _) as [x|] eqn:Ef; [|by eexists].
  destruct (is_sunday day); [by eexists|].
  destruct (Hparse day x Hday Ef) as [dt Hdt].
  unfold late_or_on_time. rewrite Hdt. by eexists.
Qed.

End aggregator.

Section report_rows.
Variable late : time.
Variable m : punches_map.
Variable days : list datetime.

Lemma employee_stats_skip acc emp :
  roster [emp] = [] → employee_stats late m days acc emp = Ok acc.
Proof.
  unfold roster, employee_stats. cbn.
  destruct (get (emp_emp_code emp)) as [[|a c]|]; cbn; done.
Qed.

Lemma employee_stats_row acc emp ce :
  roster [emp] = [ce] →
  employee_stats late m days acc emp
  = period_stats late m days ce ≫= λ st, Ok (acc ++ [row_of ce st]).
Proof.
  unfold roster, employee_stats, period_stats, row_of, punches_of. cbn.
  destruct (get (emp_emp_code emp)) as [[|a c]|]; cbn; try done.
  by intros [= <-].
Qed.

Lemma roster_cons emp emps : roster (emp :: emps) = roster [emp] ++ roster emps.
Proof. unfold roster. cbn. by destruct (_ : option (string * employee)). Qed.

Lemma roster_singleton emp :
  roster [emp] = [] ∨ ∃ ce, roster [emp] = [ce] ∧ ce.2 = emp.
Proof.
  unfold roster. cbn.
  destruct (get (emp_emp_code emp)) as [[|a c]|]; cbn; eauto.
Qed.

(** The rows before sorting: one per employee of the roster, in the
    order of the roster, each with the counters of its employee. *)
Lemma foldlM_employee_stats emps : ∀ acc rd,
  foldlM (employee_stats late m days) acc emps = Ok rd ↔
  ∃ sts, Forall2 (λ ce st, period_stats late m days ce = Ok st) (roster emps) sts
         ∧ rd = acc ++ zip_with row_of (roster emps) sts.
Proof.
  induction emps as [|emp emps IH]; intros acc rd.
  - cbn. split.
    + intros [= <-]. exists []. split; [constructor|by rewrite app_nil_r].
    + intros (sts & ->%Forall2_nil_inv_l & ->). by rewrite app_nil_r.
  - cbn [foldlM]. rewrite roster_cons.
    destruct (roster_singleton emp) as [E|(ce & E & _)]; rewrite E.
    + rewrite employee_stats_skip by done. cbn [mbind result_bind app]. apply IH.
    + rewrite (employee_stats_row _ _ ce) by done. cbn [app]. split.
      * intros (acc' & (st & Hst & [= <-])%bind_Ok & Hrd)%bind_Ok.
        apply IH in Hrd as (sts & Hsts & ->).
        exists (st :: sts). split; [by constructor|].
        by rewrite <-app_assoc.
      * intros (sts & Hsts & ->).
        apply Forall2_cons_inv_l in Hsts as (st & sts' & Hst & Hsts & ->).
        rewrite Hst. cbn [mbind result_bind].
        apply IH. exists sts'. split; [done|]. by rewrite <-app_assoc.
Qed.

End report_rows.

Lemma elem_of_roster (c : string) emp employees :
  (c, emp) ∈ roster employees ↔
  emp ∈ employees ∧ emp_emp_code emp = Str c ∧ c ≠ EmptyString.
Proof.
  unfold roster. rewrite list_elem_of_omap. split.
  - intros (emp' & Hin & H).
    destruct (emp_emp_code emp') as [| |[|a s]] eqn:E; cbn in H; simplify_eq.
    by rewrite E.
  - intros (Hin & E & Hc). exists emp. split; [done|]. rewrite E. cbn.
    by destruct c.
Qed.

(** [calculate_attendance_stats] returns the rows of the roster, sorted by
    employee code, when the threshold parses, the date loop ends and the
    counters of every employee of the roster are computed. *)
Lemma calculate_attendance_stats_Ok LATE employees transactions start_dt end_dt report :
  calculate_attendance_stats LATE employees transactions start_dt end_dt = Ok report ↔
  ∃ late_dt all_dates sts,
    strptime_HMS LATE = Ok late_dt
    ∧ generate_date_list start_dt end_dt = Ok all_dates
    ∧ Forall2 (λ ce st,
         period_stats (time_of late_dt) (index_transactions transactions)
           all_dates ce = Ok st) (roster employees) sts
    ∧ report = sorted String.leb row_emp_code (zip_with row_of (roster employees) sts).
Proof.
  unfold calculate_attendance_stats. split.
  - intros (late_dt & Hl & (all_dates & Hd & (rd & Hrd & [= <-])%bind_Ok)%bind_Ok)%bind_Ok.
    apply foldlM_employee_stats in Hrd as (sts & Hsts & ->).
    by exists late_dt, all_dates, sts.
  - intros (late_dt & all_dates & sts & -> & -> & Hsts & ->).
    cbn [mbind result_bind].
    rewrite (proj2 (foldlM_employee_stats _ _ _ employees []
                      (zip_with row_of (roster employees) sts))); [done|].
    by exists sts.
Qed.

(** The rows of a report are those of the employees of the roster. *)
Lemma elem_of_report LATE employees transactions start_dt end_dt report :
  calculate_attendance_stats LATE employees transactions start_dt end_dt = Ok report →
  ∃ late_dt all_dates,
    strptime_HMS LATE = Ok late_dt
    ∧ generate_date_list start_dt end_dt = Ok all_dates
    ∧ (∀ row, row ∈ report →
         ∃ ce, ce ∈ roster employees ∧ row = row_of ce (row_stats row)
               ∧ period_stats (time_of late_dt) (index_transactions transactions)
                   all_dates ce = Ok (row_stats row))
    ∧ (∀ ce, ce ∈ roster employees →
         ∃ st, period_stats (time_of late_dt) (index_transactions transactions)
                 all_dates ce = Ok st
               ∧ row_of ce st ∈ report).
Proof.
  intros (late_dt & all_dates & sts & Hl & Hd & Hsts & ->)%calculate_attendance_stats_Ok.
  exists late_dt, all_dates. split_and!; try done.
  - intros row. rewrite elem_of_sorted.
    intros (ce & st & Hce & Hst & ->)%(Forall2_zip_with_elem _ _ _ _ _ Hsts).
    by exists ce.
  - intros ce Hce.
    destruct (Forall2_zip_with_total row_of _ _ _ Hsts ce Hce) as (st & Hst & Hin).
    exists st. by rewrite elem_of_sorted.
Qed.

Section abort.
Variable late : time.
Variable transactions : list transaction.
Variable days : list datetime.
Let m := index_transactions transactions.

Lemma period_stats_outcome ce :
  (∃ st, period_stats late m days ce = Ok st)
  ∨ period_stats late m days ce = Raise ValueError.
Proof.
  apply foldlM_outcome. intros st day _.
  apply classify_day_outcome. intros ?. apply daily_txs_has_timestamp.
Qed.

Lemma period_stats_raise ce day x :
  day ∈ days → is_sunday day = false →
  first_punch (daily_txs (punches_of m ce.1) day) = Some x →
  strptime (punch_str x) = Raise ValueError →
  period_stats late m days ce = Raise ValueError.
Proof.
  intros Hday Hsun Hx Hfail. apply foldlM_raise.
  - intros st d _. apply classify_day_outcome. intros ?. apply daily_txs_has_timestamp.
  - exists day. split; [done|]. intros st.
    rewrite classify_day_classification by apply daily_txs_has_timestamp.
    unfold classification, late_or_on_time. by rewrite Hx, Hsun, Hfail.
Qed.

Lemma employee_stats_outcome acc emp :
  (∃ acc', employee_stats late m days acc emp = Ok acc')
  ∨ employee_stats late m days acc emp = Raise ValueError.
Proof.
  destruct (roster_singleton emp) as [E|(ce & E & _)].
  - rewrite employee_stats_skip by done. eauto.
  - rewrite (employee_stats_row _ _ _ _ _ ce) by done.
    destruct (period_stats_outcome ce) as [[st ->]| ->]; cbn; eauto.
Qed.

Lemma employees_raise employees ce :
  ce ∈ roster employees →
  period_stats late m days ce = Raise ValueError →
  foldlM (employee_stats late m days) [] employees = Raise ValueError.
Proof.
  intros Hce Hfail. apply foldlM_raise.
  - intros acc emp _. apply employee_stats_outcome.
  - destruct ce as [c emp]. apply elem_of_roster in Hce as (Hin & Ec & Hc).
    exists emp. split; [done|]. intros acc.
    rewrite (employee_stats_row _ _ _ _ _ (c, emp)); [by rewrite Hfail|].
    unfold roster. cbn. rewrite Ec. cbn. by destruct c.
Qed.

End abort.

(** C1 (as amended): in every row of a report, the days present and the
    days absent add up to the required days plus the Sundays of the period
    on which the employee has a punch; a Sunday with punches counts as a
    day present and is no required day. *)
Theorem attendance_balance LATE employees transactions start_dt end_dt report :
  calculate_attendance_stats LATE employees transactions start_dt end_dt = Ok report →
  ∃ all_dates,
    generate_date_list start_dt end_dt = Ok all_dates
    ∧ ∀ row, row ∈ report →
        days_present (row_stats row) + days_absent (row_stats row)
        = total_required_days (row_stats row)
          + length (filter
                      (worked_sunday
                         (punches_of (index_transactions transactions) (row_emp_code row)))
                      all_dates).
Proof.
  intros (late_dt & all_dates & _ & Hd & Hrows & _)%elem_of_report.
  exists all_dates. split; [done|]. intros row Hrow.
  destruct (Hrows row Hrow) as (ce & _ & Erow & Hst).
  apply period_stats_inv in Hst as (Hb & _); [|apply daily_txs_has_timestamp].
  assert (row_emp_code row = ce.1) as -> by (by rewrite Erow).
  cbn in Hb. lia.
Qed.

Lemma attendance_balance_witness :
  ∃ all_dates,
    generate_date_list (at_midnight 2024 2 4) (at_midnight 2024 2 5) = Ok all_dates
    ∧ ∀ row,
        row ∈ [mk_report_row "7" (Some "") (Some "") None
                 (mk_stats 1 0 1 1 [] ["2024-02-05"])] →
        days_present (row_stats row) + days_absent (row_stats row)
        = total_required_days (row_stats row)
          + length (filter
                      (worked_sunday
                         (punches_of
                            (index_transactions
                               [sample_punch "7" "2024-02-04 09:00:00"])
                            (row_emp_code row)))
                      all_dates).
Proof.
  apply (attendance_balance "08:05:00" [sample_employee "7"]
           [sample_punch "7" "2024-02-04 09:00:00"]).
  vm_compute. reflexivity.
Defined.

(** C1, the claim as stated fails: an employee whose only punch is on
    Sunday 2024-02-04 has, over that Sunday and the Monday after it, one
    day present, one day absent and one required day. *)
Lemma sunday_punch_unbalances :
  ∃ row,
    calculate_attendance_stats "08:05:00" [sample_employee "7"]
      [sample_punch "7" "2024-02-04 09:00:00"]
      (at_midnight 2024 2 4) (at_midnight 2024 2 5) = Ok [row]
    ∧ days_present (row_stats row) + days_absent (row_stats row)
      ≠ total_required_days (row_stats row).
Proof.
  eexists. split; [vm_compute; reflexivity|]. cbn. lia.
Qed.

(** C6: in every row of a report, [late_details] has [days_late] entries
    and [absent_details] has [days_absent] entries, the dates of both lists
    are in strictly ascending order, and the rows are in ascending order of
    employee code. *)
Theorem details_and_order LATE employees transactions start_dt end_dt report :
  valid_datetime start_dt → valid_date (date_of end_dt) →
  calculate_attendance_stats LATE employees transactions start_dt end_dt = Ok report →
  (∀ row, row ∈ report →
     length (late_details (row_stats row)) = days_late (row_stats row)
     ∧ length (absent_details (row_stats row)) = days_absent (row_stats row)
     ∧ StronglySorted (λ a b, String.ltb a b = true)
         (ld_date <$> late_details (row_stats row))
     ∧ StronglySorted (λ a b, String.ltb a b = true)
         (absent_details (row_stats row)))
  ∧ StronglySorted (λ x y, String.leb (row_emp_code x) (row_emp_code y) = true)
      report.
Proof.
  intros Hs He Hcalc. split.
  - apply elem_of_report in Hcalc as (late_dt & all_dates & _ & Hd & Hrows & _).
    apply generate_date_list_Ok in Hd as ->; [|assumption..].
    intros row Hrow. destruct (Hrows row Hrow) as (ce & _ & _ & Hst).
    apply period_stats_inv in Hst
      as (_ & _ & Hl & Ha & lds & ads & Eld & Ead & Hsl & Hsa);
      [|apply daily_txs_has_timestamp].
    cbn in Hl, Ha, Eld, Ead. rewrite Eld, Ead in *.
    pose proof (date_span_strings_sorted start_dt end_dt Hs He) as Hsorted.
    split_and!; [lia|lia|by eapply StronglySorted_sublist..].
  - apply calculate_attendance_stats_Ok in Hcalc as (? & ? & ? & _ & _ & _ & ->).
    apply sorted_sorted; [apply string_leb_total|apply string_leb_trans].
Qed.

Lemma details_and_order_witness :
  let report :=
    [mk_report_row "1" (Some "") (Some "") None
       (mk_stats 1 1 2 3
          [mk_late_detail "2024-02-06" "2024-02-06 08:30:00" "0:25:00"]
          ["2024-02-05"; "2024-02-07"]);
     mk_report_row "2" (Some "") (Some "") None
       (mk_stats 1 0 3 3 [] ["2024-02-05"; "2024-02-06"; "2024-02-07"])] in
  (∀ row, row ∈ report →
     length (late_details (row_stats row)) = days_late (row_stats row)
     ∧ length (absent_details (row_stats row)) = days_absent (row_stats row)
     ∧ StronglySorted (λ a b, String.ltb a b = true)
         (ld_date <$> late_details (row_stats row))
     ∧ StronglySorted (λ a b, String.ltb a b = true)
         (absent_details (row_stats row)))
  ∧ StronglySorted (λ x y, String.leb (row_emp_code x) (row_emp_code y) = true)
      report.
Proof.
  apply (details_and_order "08:05:00"
           [sample_employee "2"; sample_employee "1"]
           [sample_punch "2" "2024-02-04 10:00:00";
            sample_punch "1" "2024-02-06 08:30:00"]
           (at_midnight 2024 2 4) (at_midnight 2024 2 7)).
  - split; exact I.
  - exact I.
  - vm_compute. reflexivity.
Defined.

(** C5: when the threshold and the timestamps parse, the report has a row
    for every employee of the roster whose code is a non-empty string, with
    or without punches; an employee without a punch on any day of the
    period is absent on each of its working days (all but the Sundays) and
    never late, so over a period of five working days [days_absent] is 5
    and [absent_details] has 5 entries. *)
Theorem every_rostered_employee_has_stats
    LATE employees transactions start_dt end_dt late_dt :
  strptime_HMS LATE = Ok late_dt →
  valid_datetime start_dt → valid_date (date_of end_dt) →
  loop_overflows start_dt end_dt = false →
  (∀ tx, tx ∈ transactions → indexable tx → ∃ dt, strptime (punch_str tx) = Ok dt) →
  ∃ report,
    calculate_attendance_stats LATE employees transactions start_dt end_dt = Ok report
    ∧ ∀ emp (c : string),
        emp ∈ employees → emp_emp_code emp = Str c → c ≠ EmptyString →
        ∃ row,
          row ∈ report ∧ row_emp_code row = c
          ∧ ((∀ day, day ∈ date_span start_dt end_dt →
                punches_on (index_transactions transactions) c
                  (strftime_date (date_of day)) = []) →
             let working :=
               filter (λ day, negb (is_sunday day)) (date_span start_dt end_dt) in
             days_absent (row_stats row) = length working
             ∧ length (absent_details (row_stats row)) = length working
             ∧ days_late (row_stats row) = 0
             ∧ days_present (row_stats row) = 0
             ∧ total_required_days (row_stats row) = length working).
Proof.
  intros Hlate Hs He Hover Hparse.
  set (m := index_transactions transactions).
  assert (Hdates : generate_date_list start_dt end_dt = Ok (date_span start_dt end_dt)).
  { rewrite all_dates_loop_enough by assumption. by rewrite Hover. }
  assert (Hst : ∀ ce, ce ∈ roster employees →
            ∃ st, period_stats (time_of late_dt) m (date_span start_dt end_dt) ce = Ok st).
  { intros ce _. apply period_total; [intros day; apply daily_txs_has_timestamp|].
    intros day x _ Hx. apply first_punch_least in Hx as [Hx _].
    unfold daily_txs, punches_of in Hx. fold (punches_on m ce.1 (strftime_date (date_of day))) in Hx.
    unfold m in Hx. rewrite punches_on_index_transactions in Hx.
    apply list_elem_of_filter in Hx as [(Hix & _) Hin]. by apply Hparse. }
  apply Forall2_total in Hst as [sts Hsts].
  exists (sorted String.leb row_emp_code (zip_with row_of (roster employees) sts)).
  assert (Hcalc : calculate_attendance_stats LATE employees transactions start_dt end_dt
                  = Ok (sorted String.leb row_emp_code
                          (zip_with row_of (roster employees) sts))).
  { apply calculate_attendance_stats_Ok. by exists late_dt, (date_span start_dt end_dt), sts. }
  split; [exact Hcalc|].
  intros emp c Hemp Ec Hc.
  apply elem_of_report in Hcalc as (late_dt' & all_dates & Hl' & Hd' & _ & Hall).
  rewrite Hlate in Hl'. injection Hl' as <-.
  rewrite Hdates in Hd'. injection Hd' as <-.
  destruct (Hall (c, emp)) as (st & Hst & Hrow); [by apply elem_of_roster|].
  exists (row_of (c, emp) st). split_and!; [done..|].
  intros Hno working. unfold period_stats in Hst. cbn [fst] in Hst.
  rewrite no_punch_stats in Hst by exact Hno.
  injection Hst as <-. cbn. fold working. rewrite length_fmap. done.
Qed.

Lemma every_rostered_employee_has_stats_witness :
  ∃ report,
    calculate_attendance_stats "08:05:00"
      [sample_employee "7"; sample_employee "8"]
      [sample_punch "8" "2024-02-05 08:00:00"]
      (at_midnight 2024 2 5) (at_midnight 2024 2 9) = Ok report
    ∧ ∃ row,
        row ∈ report ∧ row_emp_code row = "7"%string
        ∧ days_absent (row_stats row) = 5
        ∧ length (absent_details (row_stats row)) = 5
        ∧ days_late (row_stats row) = 0.
Proof.
  destruct (every_rostered_employee_has_stats "08:05:00"
              [sample_employee "7"; sample_employee "8"]
              [sample_punch "8" "2024-02-05 08:00:00"]
              (at_midnight 2024 2 5) (at_midnight 2024 2 9)
              (combine (mk_date 1900 1 1) (mk_time 8 5 0 0)))
    as (report & Hcalc & Hrows).
  - reflexivity.
  - split; exact I.
  - exact I.
  - reflexivity.
  - intros tx [->|[]%elem_of_nil]%elem_of_cons _. by eexists.
  - exists report. split; [exact Hcalc|].
    destruct (Hrows (sample_employee "7") "7"%string) as (row & Hin & Hcode & Hzero);
      [left|reflexivity|discriminate|].
    exists row. split_and!; [done..| | |];
      (destruct Hzero as (Ha & Hl & Hlate & _);
        [intros day Hday; by vm_compute|]); [exact Ha|exact Hl|exact Hlate].
Defined.

(** C2 (as amended): the timestamp that is parsed is that of the first
    punch, in the order of the texts, of a day that is not a Sunday, for an
    employee of the roster; when it does not parse, the whole computation
    raises [ValueError] and no report is returned. *)
Theorem unparsable_first_punch_aborts
    LATE employees transactions start_dt end_dt late_dt all_dates emp (c : string) day x :
  strptime_HMS LATE = Ok late_dt →
  generate_date_list start_dt end_dt = Ok all_dates →
  emp ∈ employees → emp_emp_code emp = Str c → c ≠ EmptyString →
  day ∈ all_dates → is_sunday day = false →
  x ∈ punches_on (index_transactions transactions) c (strftime_date (date_of day)) →
  (∀ y, y ∈ punches_on (index_transactions transactions) c
              (strftime_date (date_of day)) →
        String.leb (punch_str x) (punch_str y) = true) →
  strptime (punch_str x) = Raise ValueError →
  calculate_attendance_stats LATE employees transactions start_dt end_dt
  = Raise ValueError.
Proof.
  intros Hlate Hdates Hemp Ec Hc Hday Hsun Hx Hleast Hfail.
  destruct (first_punch_of_least _ x Hx Hleast) as (x' & Hx' & Estr).
  unfold calculate_attendance_stats. rewrite Hlate, Hdates. cbn [mbind result_bind].
  rewrite (employees_raise _ _ _ _ (c, emp)); [done|by apply elem_of_roster|].
  apply (period_stats_raise _ _ _ _ day x'); try done.
  by rewrite Estr.
Qed.

Lemma unparsable_first_punch_aborts_witness :
  calculate_attendance_stats "08:05:00" [sample_employee "7"]
    [sample_punch "7" "2024-02-05 08:00"; sample_punch "7" "2024-02-05 09:00:00"]
    (at_midnight 2024 2 5) (at_midnight 2024 2 5)
  = Raise ValueError.
Proof.
  apply (unparsable_first_punch_aborts "08:05:00" [sample_employee "7"]
           [sample_punch "7" "2024-02-05 08:00"; sample_punch "7" "2024-02-05 09:00:00"]
           (at_midnight 2024 2 5) (at_midnight 2024 2 5)
           (combine (mk_date 1900 1 1) (mk_time 8 5 0 0))
           [at_midnight 2024 2 5] (sample_employee "7") "7"%string
           (at_midnight 2024 2 5) (sample_punch "7" "2024-02-05 08:00")).
  - reflexivity.
  - reflexivity.
  - left.
  - reflexivity.
  - discriminate.
  - left.
  - reflexivity.
  - vm_compute. left.
  - intros y Hy. vm_compute in Hy.
    apply elem_of_cons in Hy as [->|Hy]; [reflexivity|].
    apply list_elem_of_singleton in Hy as ->. reflexivity.
  - reflexivity.
Defined.

(** C2, the claim as stated fails: a malformed timestamp that is not the
    first of its day, and one on a Sunday, are in the punch list of their
    day and the report is returned all the same, the day counted present. *)
Lemma malformed_punch_goes_unnoticed :
  strptime "2024-02-05 noon" = Raise ValueError
  ∧ sample_punch "7" "2024-02-05 noon"
    ∈ punches_on
        (index_transactions
           [sample_punch "7" "2024-02-05 08:00:00"; sample_punch "7" "2024-02-05 noon"])
        "7" "2024-02-05"
  ∧ calculate_attendance_stats "08:05:00" [sample_employee "7"]
      [sample_punch "7" "2024-02-05 08:00:00"; sample_punch "7" "2024-02-05 noon"]
      (at_midnight 2024 2 5) (at_midnight 2024 2 5)
    = Ok [mk_report_row "7" (Some "") (Some "") None (mk_stats 1 0 0 1 [] [])]
  ∧ strptime "2024-02-04 noon" = Raise ValueError
  ∧ sample_punch "7" "2024-02-04 noon"
    ∈ punches_on (index_transactions [sample_punch "7" "2024-02-04 noon"])
        "7" "2024-02-04"
  ∧ calculate_attendance_stats "08:05:00" [sample_employee "7"]
      [sample_punch "7" "2024-02-04 noon"]
      (at_midnight 2024 2 4) (at_midnight 2024 2 4)
    = Ok [mk_report_row "7" (Some "") (Some "") None (mk_stats 1 0 0 0 [] [])].
Proof.
  split_and!; try (vm_compute; reflexivity).
  - vm_compute. right. left.
  - vm_compute. left.
Qed.

(* ------------------------------------------------------------------ *)
(** ** The report endpoints *)

Lemma build_report_Ok LATE employees transactions period_type start_dt end_dt resp :
  build_report LATE employees transactions period_type start_dt end_dt = Ok resp →
  ∃ all_data,
    calculate_attendance_stats LATE employees transactions start_dt end_dt = Ok all_data
    ∧ resp = mk_report period_type (strftime start_dt) (strftime end_dt)
               (length (filter late_or_absent all_data))
               (filter late_or_absent all_data).
Proof.
  unfold build_report. intros (all_data & H & [= <-])%bind_Ok. eauto.
Qed.

Lemma late_or_absent_spec row :
  late_or_absent row ↔ 0 < days_late (row_stats row) ∨ 0 < days_absent (row_stats row).
Proof.
  unfold late_or_absent. rewrite orb_True, !bool_decide_spec. done.
Qed.



Lemma february_2024_dates :
  generate_date_list (at_midnight 2024 2 1)
    (combine (mk_date 2024 2 29) (mk_time 23 59 59 0))
  = Ok february_2024.
Proof. by vm_compute. Qed.

(** The report over February 2024 is computed from the 29 days. *)
Lemma february_2024_stats LATE employees transactions :
  calculate_attendance_stats LATE employees transactions (at_midnight 2024 2 1)
    (combine (mk_date 2024 2 29) (mk_time 23 59 59 0))
  = (late_dt ← strptime_HMS LATE;
     report_data ←
       foldlM (employee_stats (time_of late_dt) (index_transactions transactions)
                 february_2024) [] employees;
     mret (sorted String.leb row_emp_code report_data)).
Proof.
  unfold calculate_attendance_stats. rewrite february_2024_dates.
  by destruct (strptime_HMS LATE).
Qed.

(** The report is returned when the threshold and the timestamps
    parse. *)
Lemma report_returned LATE employees transactions start_dt end_dt late_dt all_dates :
  strptime_HMS LATE = Ok late_dt →
  generate_date_list start_dt end_dt = Ok all_dates →
  (∀ tx, tx ∈ transactions → indexable tx → ∃ dt, strptime (punch_str tx) = Ok dt) →
  ∃ all_data,
    calculate_attendance_stats LATE employees transactions start_dt end_dt
    = Ok all_data.
Proof.
  intros Hlate Hdates Hparse.
  set (m := index_transactions transactions).
  assert (Hst : ∀ ce, ce ∈ roster employees →
            ∃ st, period_stats (time_of late_dt) m all_dates ce = Ok st).
  { intros ce _. apply period_total; [intros day; apply daily_txs_has_timestamp|].
    intros day x _ Hx. apply first_punch_least in Hx as [Hx _].
    unfold daily_txs, punches_of in Hx.
    fold (punches_on m ce.1 (strftime_date (date_of day))) in Hx.
    unfold m in Hx. rewrite punches_on_index_transactions in Hx.
    apply list_elem_of_filter in Hx as [(Hix & _) Hin]. by apply Hparse. }
  apply Forall2_total in Hst as [sts Hsts].
  exists (sorted String.leb row_emp_code (zip_with row_of (roster employees) sts)).
  apply calculate_attendance_stats_Ok. by exists late_dt, all_dates, sts.
Qed.

(** C8: for month 2 of 2024 the monthly report covers 2024-02-01 00:00:00
    to 2024-02-29 23:59:59, whatever the current time, and the date loop
    visits the 29 days from 2024-02-01 to 2024-02-29, each once and in
    order. The aggregation of the endpoint runs on these 29 days: the
    rows are computed employee by employee from them; the counters of
    every row are those of the daily step applied to the 29 days in
    order, with 25 required days (the days but the four Sundays) and each
    of the 29 days counted once, as a day present, a day absent or a Sunday
    without a punch; the report is returned when the threshold and the
    timestamps parse, and an employee without a punch is then absent on
    the 25 days, from 2024-02-01 to 2024-02-29. A response of the endpoint
    carries the two bounds. *)
Theorem february_2024_period (now : datetime) :
  let start_dt := at_midnight 2024 2 1 in
  let end_dt := combine (mk_date 2024 2 29) (mk_time 23 59 59 0) in
  let days := (λ d, at_midnight 2024 2 d) <$> seqZ 1 29 in
  monthly_period now (Some 2%Z) (Some 2024%Z) = Ok ("custom_month"%string, start_dt, end_dt)
  ∧ strftime start_dt = "2024-02-01 00:00:00"%string
  ∧ strftime end_dt = "2024-02-29 23:59:59"%string
  ∧ generate_date_list start_dt end_dt = Ok days
  ∧ ∀ LATE employees transactions,
      let m := index_transactions transactions in
      let endpoint :=
        attendance_report_monthly LATE employees transactions now
          (Some 2%Z) (Some 2024%Z) in
      endpoint
      = (late_dt ← strptime_HMS LATE;
         report_data ←
           foldlM (employee_stats (time_of late_dt) m days) [] employees;
         let all_data := sorted String.leb row_emp_code report_data in
         mret (mk_report "custom_month" "2024-02-01 00:00:00" "2024-02-29 23:59:59"
                 (length (filter late_or_absent all_data))
                 (filter late_or_absent all_data)))
      ∧ (∀ resp,
           endpoint = Ok resp →
           period resp = "custom_month"%string
           ∧ period_start resp = "2024-02-01 00:00:00"%string
           ∧ period_end resp = "2024-02-29 23:59:59"%string
           ∧ ∃ late_dt,
               strptime_HMS LATE = Ok late_dt
               ∧ ∀ row, row ∈ data resp →
                   let emp_punches := punches_of m (row_emp_code row) in
                   foldlM (classify_day (time_of late_dt) emp_punches)
                     initial_stats days = Ok (row_stats row)
                   ∧ total_required_days (row_stats row) = 25
                   ∧ days_present (row_stats row) + days_absent (row_stats row)
                     + length (filter (λ day, is_sunday day
                                              && negb (worked_sunday emp_punches day))
                                 days)
                     = 29)
      ∧ ∀ late_dt,
          strptime_HMS LATE = Ok late_dt →
          (∀ tx, tx ∈ transactions → indexable tx →
                 ∃ dt, strptime (punch_str tx) = Ok dt) →
          ∃ resp,
            endpoint = Ok resp
            ∧ ∀ emp (c : string),
                emp ∈ employees → emp_emp_code emp = Str c → c ≠ EmptyString →
                (∀ day, day ∈ days →
                   punches_on m c (strftime_date (date_of day)) = []) →
                ∃ row,
                  row ∈ data resp ∧ row_emp_code row = c
                  ∧ days_present (row_stats row) = 0
                  ∧ days_absent (row_stats row) = 25
                  ∧ absent_details (row_stats row)
                    = (λ day, strftime_date (date_of day))
                        <$> filter (λ day, negb (is_sunday day)) days
                  ∧ head (absent_details (row_stats row)) = Some "2024-02-01"%string
                  ∧ last (absent_details (row_stats row)) = Some "2024-02-29"%string.
Proof.
  intros start_dt end_dt days.
  assert (Hp : monthly_period now (Some 2%Z) (Some 2024%Z)
               = Ok ("custom_month"%string, start_dt, end_dt)) by reflexivity.
  split_and!; [exact Hp|by vm_compute..|].
  intros LATE employees transactions m endpoint.
  assert (Hend : endpoint
                 = build_report LATE employees transactions "custom_month"
                     start_dt end_dt).
  { unfold endpoint, attendance_report_monthly. by rewrite Hp. }
  assert (Hworking : filter (λ day, negb (is_sunday day)) days
                     = (λ d, at_midnight 2024 2 d)
                         <$> [1; 2; 3; 5; 6; 7; 8; 9; 10; 12; 13; 14; 15; 16; 17;
                              19; 20; 21; 22; 23; 24; 26; 27; 28; 29]%Z)
    by (by vm_compute).
  split_and!.
  - rewrite Hend. unfold build_report.
    unfold start_dt, end_dt. rewrite february_2024_stats.
    fold m. change february_2024 with days.
    destruct (strptime_HMS LATE) as [late_dt| |]; [|done..].
    cbn [mbind result_bind].
    by destruct (foldlM _ _ _).
  - intros resp. rewrite Hend.
    intros (all_data & Hcalc & ->)%build_report_Ok.
    cbn [period period_start period_end data].
    split_and!; [by vm_compute..|].
    apply elem_of_report in Hcalc as (late_dt & all_dates & Hl & Hd & Hrows & _).
    unfold start_dt, end_dt in Hd. rewrite february_2024_dates in Hd.
    injection Hd as <-. change february_2024 with days in Hrows.
    exists late_dt. split; [done|].
    intros row [_ Hrow]%list_elem_of_filter.
    destruct (Hrows row Hrow) as (ce & _ & Erow & Hst).
    assert (row_emp_code row = ce.1) as Ecode by (by rewrite Erow).
    rewrite Ecode. fold m.
    split; [exact Hst|].
    apply period_stats_inv in Hst as (Hb & Hr & _);
      [|apply daily_txs_has_timestamp].
    cbn [initial_stats days_present days_absent total_required_days] in Hb, Hr.
    rewrite Hworking in Hr. cbn [length fmap list_fmap] in Hr.
    split; [lia|].
    assert (Hsundays :
              length (filter (worked_sunday (punches_of m ce.1)) days)
              + length (filter (λ day, is_sunday day
                                       && negb (worked_sunday (punches_of m ce.1) day))
                          days)
              = 4).
    { assert (Hs : ∀ l : list datetime,
                length (filter (worked_sunday (punches_of m ce.1)) l)
                + length (filter (λ day, is_sunday day
                                         && negb (worked_sunday (punches_of m ce.1) day))
                            l)
                = length (filter (λ day, is_sunday day) l)).
      { induction l as [|day l IH]; [done|].
        rewrite !length_filter_cons_bool. cbn beta. unfold worked_sunday in *.
        destruct (is_sunday day);
          destruct (bool_decide (daily_txs (punches_of m ce.1) day ≠ []));
          cbn [andb negb]; lia. }
      rewrite Hs. by vm_compute. }
    fold m in Hb. lia.
  - intros late_dt Hlate Hparse.
    destruct (report_returned LATE employees transactions start_dt end_dt late_dt days
                Hlate february_2024_dates Hparse) as [all_data Hcalc].
    exists (mk_report "custom_month" (strftime start_dt) (strftime end_dt)
              (length (filter late_or_absent all_data))
              (filter late_or_absent all_data)).
    split.
    { rewrite Hend. unfold build_report. by rewrite Hcalc. }
    intros emp c Hemp Ec Hc Hno. cbn [data].
    apply elem_of_report in Hcalc as (late_dt' & all_dates & Hl' & Hd' & _ & Hall).
    rewrite Hlate in Hl'. injection Hl' as <-.
    unfold start_dt, end_dt in Hd'. rewrite february_2024_dates in Hd'.
    injection Hd' as <-. change february_2024 with days in Hall.
    destruct (Hall (c, emp)) as (st & Hst & Hrow); [by apply elem_of_roster|].
    unfold period_stats in Hst. cbn [fst] in Hst.
    rewrite no_punch_stats in Hst by exact Hno.
    injection Hst as <-.
    exists (row_of (c, emp)
              (mk_stats 0 0 (0 + length (filter (λ day, negb (is_sunday day)) days))
                 (0 + length (filter (λ day, negb (is_sunday day)) days)) []
                 ([] ++ ((λ day, strftime_date (date_of day))
                           <$> filter (λ day, negb (is_sunday day)) days)))).
    cbn [initial_stats days_present days_late days_absent total_required_days
           late_details absent_details] in Hrow.
    split_and!.
    + apply list_elem_of_filter. split; [|exact Hrow].
      apply late_or_absent_spec. right. cbn. rewrite Hworking. cbn. lia.
    + done.
    + done.
    + cbn. by rewrite Hworking.
    + done.
    + cbn. by rewrite Hworking.
    + cbn. by rewrite Hworking.
Qed.

(* ------------------------------------------------------------------ *)
(** ** The plain range summary *)

Section summary.
Variable records : list transaction.

Lemma group_append_ok key r grouped :
  r ∈ records → get (tx_emp_code r) = key →
  Forall (group_ok records) grouped → Forall (group_ok records) (group_append key r grouped).
Proof.
  intros Hr Hkey. induction 1 as [|[k ps] g [Hne Hps] Hg IH]; cbn.
  - constructor; [|constructor]. split; [done|].
    by intros r' ->%list_elem_of_singleton.
  - destruct (decide (k = key)) as [->|Hk]; constructor; try done.
    split; cbn in *; [by destruct ps|].
    intros r' [Hr'| ->%list_elem_of_singleton]%elem_of_app; auto.
Qed.

Lemma grouped_ok l : ∀ acc grouped,
  (∀ r, r ∈ l → r ∈ records) → Forall (group_ok records) acc →
  foldlM (λ grouped rec,
            key ← getitem (tx_emp_code rec);
            mret (group_append key rec grouped)) acc l = Ok grouped →
  Forall (group_ok records) grouped.
Proof.
  induction l as [|r l IH]; intros acc grouped Hl Hacc; cbn [foldlM].
  - by intros [= <-].
  - intros (acc' & (key & Hkey & [= <-])%bind_Ok & H)%bind_Ok.
    eapply IH; [intros ??; apply Hl; by right| |exact H].
    apply group_append_ok; [apply Hl; left| |done].
    by destruct (tx_emp_code r); simplify_eq/=.
Qed.

Lemma punch_time_key_Ok r t :
  punch_time_key r = Ok t →
  ∃ s, get (tx_punch_time r) = Some s ∧ strptime s = Ok t.
Proof.
  unfold punch_time_key.
  intros (p & Hp & (s & Hs & Ht)%bind_Ok)%bind_Ok.
  exists s. split; [|done].
  destruct (tx_punch_time r), p; by simplify_eq/=.
Qed.

Lemma summarise_group_ok summary item summary' :
  group_ok records item → Forall (row_ok records) summary →
  summarise_group summary item = Ok summary' →
  Forall (row_ok records) summary'.
Proof.
  destruct item as [k ps]. intros [Hne Hps] Hsum. unfold summarise_group.
  intros (s & Hs & H)%bind_Ok.
  apply sortedM_Ok in Hs as (keyed & Hkeys & Hsnd & ->).
  rewrite head_fmap, fmap_last, length_fmap in H.
  destruct (head _) as [p1|] eqn:Eh; [|done].
  destruct (last _) as [pn|] eqn:El; [|done].
  cbn in H. injection H as <-.
  apply Forall_app. split; [done|]. constructor; [|constructor].
  pose proof (sorted_head_least datetime_le fst datetime_le_total
                datetime_le_trans keyed p1 Eh) as [Hp1 _].
  pose proof (sorted_head_last datetime_le fst datetime_le_total
                datetime_le_trans keyed p1 pn Eh El) as Hle.
  assert (Hpn : pn ∈ keyed).
  { rewrite <-(elem_of_sorted datetime_le fst). by apply last_Some_elem_of. }
  rewrite Forall_forall in Hkeys.
  destruct (punch_time_key_Ok _ _ (Hkeys p1 Hp1)) as (s1 & Hs1 & Ht1).
  destruct (punch_time_key_Ok _ _ (Hkeys pn Hpn)) as (sn & Hsn & Htn).
  split_and!; cbn [total_punches first_punch_time last_punch_time sum_emp_code].
  - rewrite sorted_length. destruct keyed; [by apply elem_of_nil in Hp1|cbn; lia].
  - by exists s1, sn, p1.1, pn.1.
  - exists p1.2. apply Hps. cbn. rewrite <-Hsnd. by apply list_elem_of_fmap_2.
Qed.

Lemma summary_rows_ok grouped : ∀ acc summary,
  Forall (group_ok records) grouped → Forall (row_ok records) acc →
  foldlM summarise_group acc grouped = Ok summary →
  Forall (row_ok records) summary.
Proof.
  induction grouped as [|item g IH]; intros acc summary Hg Hacc; cbn [foldlM].
  - by intros [= <-].
  - apply Forall_cons in Hg as [Hitem Hg].
    intros (acc' & Hstep & H)%bind_Ok.
    eapply IH; [done| |exact H]. by eapply summarise_group_ok.
Qed.

Lemma sorted_by_emp_code_perm summary s :
  sorted_by_emp_code summary = Ok s → s ≡ₚ summary.
Proof.
  unfold sorted_by_emp_code.
  destruct summary as [|r1 [|r2 rest]]; [by intros [= <-]..|].
  intros (keys & Hkeys & [= <-])%bind_Ok.
  apply mapM_result_Ok, Forall2_length in Hkeys.
  rewrite sorted_perm. by rewrite snd_zip by lia.
Qed.

Lemma build_attendance_summary_ok start_dt end_dt out :
  build_attendance_summary records start_dt end_dt = Ok out →
  Forall (row_ok records) (sum_data out).
Proof.
  unfold build_attendance_summary.
  intros (grouped & Hg & (summary & Hs & (s & Hsort & [= <-])%bind_Ok)%bind_Ok)%bind_Ok.
  cbn [sum_data]. rewrite (sorted_by_emp_code_perm _ _ Hsort).
  eapply summary_rows_ok; [|constructor|exact Hs].
  eapply grouped_ok; [|constructor|exact Hg]. done.
Qed.

Lemma select_rows_subset field test rows : ∀ acc out,
  foldlM (select_rows field test) acc rows = Ok out →
  ∀ row, row ∈ out → row ∈ acc ∨ row ∈ rows.
Proof.
  induction rows as [|r rows IH]; intros acc out; cbn [foldlM].
  - intros [= <-]. auto.
  - intros (acc' & Hstep & H)%bind_Ok row Hrow.
    destruct (IH _ _ H row Hrow) as [Hin|Hin]; [|right; by right].
    unfold select_rows in Hstep.
    apply bind_Ok in Hstep as (s & _ & (t & _ & [= <-])%bind_Ok).
    destruct (test t); [|by left].
    apply elem_of_app in Hin as [Hin| ->%list_elem_of_singleton];
      [by left|right; left].
Qed.

End summary.

Lemma attendance_today_Ok records now date out :
  attendance_today records now = Ok (date, out) →
  ∃ start_dt end_dt, build_attendance_summary records start_dt end_dt = Ok out.
Proof.
  unfold attendance_today.
  intros (s & _ & (e & _ & (out' & H & [= _ <-])%bind_Ok)%bind_Ok)%bind_Ok. eauto.
Qed.

(** C10: every row of the plain range summary counts at least one punch
    and has a first punch that is not after its last punch, and its
    employee code is that of a record of the page: an employee without a
    punch has no row. The rows of the present, late and early-leave lists
    of today are rows of today's summary, so they too are of employees
    with a punch. *)
Theorem summary_rows_have_punches :
  (∀ records start_dt end_dt out,
     build_attendance_summary records start_dt end_dt = Ok out →
     ∀ row, row ∈ sum_data out →
       1 ≤ total_punches row
       ∧ (∃ s1 s2 t1 t2,
            first_punch_time row = Some s1 ∧ last_punch_time row = Some s2
            ∧ strptime s1 = Ok t1 ∧ strptime s2 = Ok t2
            ∧ datetime_le t1 t2 = true)
       ∧ ∃ r, r ∈ records ∧ get (tx_emp_code r) = sum_emp_code row)
  ∧ (∀ LATE_AFTER_TIME EARLY_LEAVE_TIME records now resp,
       attendance_today_present records now = Ok resp
       ∨ attendance_today_late LATE_AFTER_TIME records now = Ok resp
       ∨ attendance_today_early_leave EARLY_LEAVE_TIME records now = Ok resp →
       ∃ start_dt end_dt out,
         build_attendance_summary records start_dt end_dt = Ok out
         ∧ ∀ row, row ∈ today_data resp →
             row ∈ sum_data out ∧ 1 ≤ total_punches row).
Proof.
  split.
  - intros records start_dt end_dt out Hout row Hrow.
    apply build_attendance_summary_ok in Hout.
    by apply (proj1 (Forall_forall _ _) Hout).
  - intros LATE EARLY records now resp H.
    assert (∃ date out, attendance_today records now = Ok (date, out)
                        ∧ ∀ row, row ∈ today_data resp → row ∈ sum_data out)
      as (date & out & Htoday & Hsub).
    { destruct H as [H|[H|H]].
      - apply bind_Ok in H as ([date out] & Ht & [= <-]). by exists date, out.
      - apply bind_Ok in H as ([date out] & Ht & (thr & _ & (l & Hl & [= <-])%bind_Ok)%bind_Ok).
        exists date, out. split; [done|]. intros row Hrow.
        destruct (select_rows_subset _ _ _ _ _ Hl row Hrow) as [[]%elem_of_nil|]; done.
      - apply bind_Ok in H as ([date out] & Ht & (thr & _ & (l & Hl & [= <-])%bind_Ok)%bind_Ok).
        exists date, out. split; [done|]. intros row Hrow.
        destruct (select_rows_subset _ _ _ _ _ Hl row Hrow) as [[]%elem_of_nil|]; done. }
    apply attendance_today_Ok in Htoday as (start_dt & end_dt & Hout).
    exists start_dt, end_dt, out. split; [done|]. intros row Hrow.
    split; [by apply Hsub|].
    apply build_attendance_summary_ok in Hout.
    by apply (proj1 (Forall_forall _ _) Hout), Hsub.
Qed.

Lemma summary_rows_have_punches_witness :
  let records :=
    [sample_punch "2" "2024-02-05 09:10:00"; sample_punch "1" "2024-02-05 17:30:00";
     sample_punch "1" "2024-02-05 07:55:00"] in
  ∃ start_dt end_dt out,
    build_attendance_summary records start_dt end_dt = Ok out
    ∧ ∀ row,
        row ∈ [mk_summary_row (Some "2") None None (Some "2024-02-05 09:10:00")
                 None (Some "2024-02-05 09:10:00") None 1] →
        row ∈ sum_data out ∧ 1 ≤ total_punches row.
Proof.
  apply (proj2 summary_rows_have_punches "08:05:00"%string "17:00:00"%string _
           (at_midnight 2024 2 5)
           (mk_today_list "2024-02-05" 1
              [mk_summary_row (Some "2") None None (Some "2024-02-05 09:10:00")
                 None (Some "2024-02-05 09:10:00") None 1])).
  right. left. vm_compute. reflexivity.
Defined.

(* ------------------------------------------------------------------ *)
(** ** The periods of the reports *)

Section periods.
Local Open Scope Z_scope.

Lemma datetime_add_days dt k :
  valid_datetime dt →
  datetime_add dt (mk_timedelta k 0 0)
  = if (0 <? toordinal (date_of dt) + k) && (toordinal (date_of dt) + k <=? MAXORDINAL)
    then Ok (combine (fromordinal (toordinal (date_of dt) + k)) (time_of dt))
    else Raise OverflowError.
Proof.
  intros [Hd (Hh & Hm & Hs & Hu)%valid_time_fields].
  pose proof (seconds_of_time_range _ Hh Hm Hs) as Hsecs.
  unfold datetime_add.
  cbn [td_days td_seconds td_microseconds].
  rewrite !Z.add_0_r.
  rewrite new_timedelta_normal by lia.
  cbn [td_days td_seconds td_microseconds].
  rewrite time_of_seconds by done. reflexivity.
Qed.

Lemma datetime_sub_days dt k :
  valid_datetime dt →
  datetime_sub_delta dt (new_timedelta k 0 0)
  = if (0 <? toordinal (date_of dt) - k) && (toordinal (date_of dt) - k <=? MAXORDINAL)
    then Ok (combine (fromordinal (toordinal (date_of dt) - k)) (time_of dt))
    else Raise OverflowError.
Proof.
  intros Hv. unfold datetime_sub_delta.
  rewrite (new_timedelta_normal k 0 0) by lia.
  unfold timedelta_neg. cbn [td_days td_seconds td_microseconds].
  change (- 0) with 0. rewrite (new_timedelta_normal (- k) 0 0) by lia.
  rewrite datetime_add_days by assumption.
  replace (toordinal (date_of dt) + - k) with (toordinal (date_of dt) - k) by lia.
  reflexivity.
Qed.

Lemma one_second_before_midnight d :
  valid_date d →
  datetime_sub_delta (combine d midnight) (new_timedelta 0 1 0)
  = if 1 <? toordinal d
    then Ok (combine (fromordinal (toordinal d - 1)) end_of_day)
    else Raise OverflowError.
Proof.
  intros Hd. pose proof (toordinal_range d Hd) as Hr.
  unfold datetime_sub_delta.
  change (timedelta_neg (new_timedelta 0 1 0)) with (mk_timedelta (-1) 86399 0).
  unfold datetime_add. cbn [date_of time_of td_days td_seconds td_microseconds].
  change (seconds_of_time midnight + 86399) with 86399.
  change (microsecond midnight + 0) with 0.
  rewrite new_timedelta_normal by lia.
  cbn [td_days td_seconds td_microseconds].
  change (86399 / 3600) with 23. change (86399 mod 3600 / 60) with 59.
  change (86399 mod 3600 mod 60) with 59.
  replace (toordinal d + -1) with (toordinal d - 1) by lia.
  destruct (Z.ltb_spec 1 (toordinal d)).
  - rewrite (proj2 (Z.ltb_lt 0 (toordinal d - 1))) by lia.
    rewrite (proj2 (Z.leb_le (toordinal d - 1) MAXORDINAL)) by lia. reflexivity.
  - rewrite (proj2 (Z.ltb_ge 0 (toordinal d - 1))) by lia. reflexivity.
Qed.

Lemma valid_date_intro y m d :
  1 ≤ y ≤ 9999 → 1 ≤ m ≤ 12 → 1 ≤ d ≤ days_in_month y m → valid_date (mk_date y m d).
Proof. intros. apply valid_date_fields. cbn [year month day]. lia. Qed.

Lemma days_in_month_ge_28 y m : 1 ≤ m ≤ 12 → 28 ≤ days_in_month y m.
Proof.
  intros. unfold days_in_month.
  assert (m = 1 ∨ m = 2 ∨ m = 3 ∨ m = 4 ∨ m = 5 ∨ m = 6 ∨ m = 7 ∨ m = 8
          ∨ m = 9 ∨ m = 10 ∨ m = 11 ∨ m = 12) as Hm by lia.
  destruct (is_leap y); destruct_or! Hm; subst m; simpl; lia.
Qed.

Lemma new_datetime_valid y m d t :
  valid_date (mk_date y m d) → valid_time t →
  new_datetime y m d (hour t) (minute t) (second t) (microsecond t)
  = Ok (combine (mk_date y m d) t).
Proof.
  intros Hd Ht. unfold new_datetime.
  unfold valid_date in Hd. unfold valid_time in Ht.
  apply Is_true_true in Hd, Ht. cbn [year month day] in Hd.
  rewrite Hd, Ht. cbn [andb]. by destruct t.
Qed.

Lemma new_datetime_midnight y m d :
  valid_date (mk_date y m d) →
  new_datetime y m d 0 0 0 0 = Ok (combine (mk_date y m d) midnight).
Proof. intros Hd. by apply (new_datetime_valid y m d midnight). Qed.

Lemma new_datetime_invalid y m d h mi s us :
  ¬ valid_date (mk_date y m d) → new_datetime y m d h mi s us = Raise ValueError.
Proof.
  intros Hd. unfold new_datetime. unfold valid_date in Hd. cbn [year month day] in Hd.
  apply Is_true_false in Hd. by rewrite Hd.
Qed.

Lemma datetime_of_ints_valid y m d :
  valid_date (mk_date y m d) →
  datetime_of_ints y m d = Ok (combine (mk_date y m d) midnight).
Proof.
  intros Hd. pose proof Hd as (? & ? & ?)%valid_date_fields.
  cbn [year month day] in *.
  assert (d ≤ 31).
  { pose proof (days_in_month_le_31 y m ltac:(done)). lia. }
  unfold datetime_of_ints, fits_c_int.
  rewrite !(proj2 (Z.leb_le _ _)) by lia. cbn [andb].
  by apply new_datetime_midnight.
Qed.

(** The constructor on numbers that are no date: [OverflowError] when
    one of them does not fit the C type [int], [ValueError] otherwise. *)
Lemma datetime_of_ints_invalid y m d :
  ¬ valid_date (mk_date y m d) →
  datetime_of_ints y m d
  = Raise (if fits_c_int y && fits_c_int m && fits_c_int d
           then ValueError else OverflowError).
Proof.
  intros Hd. unfold datetime_of_ints.
  destruct (fits_c_int y && fits_c_int m && fits_c_int d); [|done].
  by apply new_datetime_invalid.
Qed.

(** The first day of a month is the day after the last day of the month
    before it. *)
Lemma toordinal_first_of_month y m :
  1 ≤ m ≤ 12 →
  toordinal (mk_date y m 1)
  = toordinal (mk_date (previous_month y m).1 (previous_month y m).2
                 (days_in_month (previous_month y m).1 (previous_month y m).2)) + 1.
Proof.
  intros Hm. unfold previous_month, toordinal, ymd2ord. cbn [year month day].
  destruct (Z.eqb_spec m 1) as [->|Hne]; cbn [fst snd].
  - pose proof (days_before_year_succ (y - 1)) as Hy.
    replace (y - 1 + 1) with y in Hy by lia. rewrite Hy.
    unfold days_before_month, days_in_month. cbn.
    destruct (is_leap (y - 1)); lia.
  - unfold days_before_month, days_in_month.
    assert (m = 2 ∨ m = 3 ∨ m = 4 ∨ m = 5 ∨ m = 6 ∨ m = 7 ∨ m = 8
            ∨ m = 9 ∨ m = 10 ∨ m = 11 ∨ m = 12) as H by lia.
    destruct (is_leap y); destruct_or! H; subst m; simpl; lia.
Qed.

Lemma toordinal_day y m d : toordinal (mk_date y m d) = toordinal (mk_date y m 1) + (d - 1).
Proof. unfold toordinal, ymd2ord. cbn [year month day]. lia. Qed.

(** The days of a month, from the ordinal of its first day. *)
Lemma fromordinal_in_month y m i :
  1 ≤ y ≤ 9999 → 1 ≤ m ≤ 12 → 0 ≤ i < days_in_month y m →
  fromordinal (toordinal (mk_date y m 1) + i) = mk_date y m (1 + i).
Proof.
  intros Hy Hm Hi.
  rewrite <-(fromordinal_toordinal (mk_date y m (1 + i))) by (apply valid_date_intro; lia).
  f_equal. rewrite (toordinal_day y m (1 + i)). lia.
Qed.

Lemma truthy_int_Some n : truthy_int (Some n) = negb (n =? 0).
Proof. reflexivity. Qed.

Lemma first_of_next_month y m :
  1 ≤ m ≤ 12 → 1 ≤ y ≤ 9999 → ¬ (m = 12 ∧ y = 9999) →
  let next := if m =? 12 then mk_date (y + 1) 1 1 else mk_date y (m + 1) 1 in
  valid_date next
  ∧ toordinal next = toordinal (mk_date y m (days_in_month y m)) + 1.
Proof.
  intros Hm Hy Hlast next.
  assert (Hprev : previous_month (year next) (month next) = (y, m)).
  { unfold next, previous_month. destruct (Z.eqb_spec m 12) as [->|]; cbn [year month].
    - cbn. f_equal. lia.
    - destruct (Z.eqb_spec (m + 1) 1); [lia|]. f_equal. lia. }
  assert (Hnext : next = mk_date (year next) (month next) 1).
  { unfold next. by destruct (m =? 12). }
  split.
  - unfold next. destruct (Z.eqb_spec m 12) as [->|].
    + pose proof (days_in_month_ge_28 (y + 1) 1 ltac:(lia)).
      apply valid_date_intro; lia.
    + pose proof (days_in_month_ge_28 y (m + 1) ltac:(lia)).
      apply valid_date_intro; lia.
  - rewrite Hnext, toordinal_first_of_month.
    + by rewrite Hprev.
    + unfold next. destruct (Z.eqb_spec m 12); cbn [month]; lia.
Qed.

Lemma last_of_month_valid y m :
  1 ≤ m ≤ 12 → 1 ≤ y ≤ 9999 → valid_date (mk_date y m (days_in_month y m)).
Proof.
  intros. pose proof (days_in_month_ge_28 y m ltac:(done)).
  apply valid_date_intro; lia.
Qed.

(** The days that the date loop visits from the first to the last day of
    a month. *)
Lemma date_span_month y m t :
  1 ≤ m ≤ 12 → 1 ≤ y ≤ 9999 →
  date_span (at_midnight y m 1) (combine (mk_date y m (days_in_month y m)) t)
  = (λ d, at_midnight y m d) <$> seqZ 1 (days_in_month y m).
Proof.
  intros Hm Hy. unfold date_span, at_midnight. cbn [date_of time_of].
  rewrite (toordinal_day y m (days_in_month y m)).
  set (a := toordinal (mk_date y m 1)).
  replace (a + (days_in_month y m - 1) - a + 1) with (days_in_month y m) by lia.
  replace (seqZ a (days_in_month y m))
    with (Z.add a <$> seqZ 0 (days_in_month y m))
    by (rewrite fmap_add_seqZ; f_equal; lia).
  replace (seqZ 1 (days_in_month y m))
    with (Z.add 1 <$> seqZ 0 (days_in_month y m))
    by (by rewrite fmap_add_seqZ).
  rewrite <-!list_fmap_compose.
  apply list_fmap_ext. intros _ i Hi%list_elem_of_lookup_2%elem_of_seqZ.
  cbn [compose]. unfold a. by rewrite fromordinal_in_month by lia.
Qed.

(** X1: a month given by number. *)
Theorem custom_month_period now m y :
  1 ≤ m ≤ 12 → 1 ≤ y ≤ 9999 → ¬ (m = 12 ∧ y = 9999) →
  let start_dt := at_midnight y m 1 in
  let end_dt := combine (mk_date y m (days_in_month y m)) end_of_day in
  monthly_period now (Some m) (Some y) = Ok ("custom_month"%string, start_dt, end_dt)
  ∧ generate_date_list start_dt end_dt
    = Ok ((λ d, at_midnight y m d) <$> seqZ 1 (days_in_month y m)).
Proof.
  intros Hm Hy Hlast start_dt end_dt.
  destruct (first_of_next_month y m Hm Hy Hlast) as [Hnv Hnext].
  pose proof (last_of_month_valid y m Hm Hy) as Hlv.
  pose proof (toordinal_range _ Hnv) as Hnr.
  pose proof (toordinal_range _ Hlv) as Hlr.
  pose proof (days_in_month_ge_28 y m Hm) as H28.
  split.
  - unfold monthly_period. rewrite !truthy_int_Some.
    destruct (Z.eqb_spec m 0); [lia|]. destruct (Z.eqb_spec y 0); [lia|].
    cbn [negb andb default from_option]. unfold id.
    rewrite (datetime_of_ints_valid y m 1) by (apply valid_date_intro; lia).
    cbn [mbind result_bind].
    assert (Hnm : (if m =? 12 then datetime_of_ints (y + 1) 1 1
                   else datetime_of_ints y (m + 1) 1)
                  = Ok (combine (if m =? 12 then mk_date (y + 1) 1 1
                                 else mk_date y (m + 1) 1) midnight)).
    { clear Hnext Hnr. destruct (m =? 12); by rewrite datetime_of_ints_valid by exact Hnv. }
    rewrite Hnm. cbn [mbind result_bind].
    rewrite one_second_before_midnight by exact Hnv.
    rewrite (proj2 (Z.ltb_lt 1 _)) by lia.
    cbn [mbind result_bind mret result_ret].
    rewrite Hnext, Z.add_simpl_r, fromordinal_toordinal by exact Hlv.
    reflexivity.
  - rewrite all_dates_loop_enough;
      [|exact Hlv|split; [apply valid_date_intro; lia|exact I]].
    unfold loop_overflows. rewrite bool_decide_false.
    + unfold start_dt, end_dt. by rewrite date_span_month.
    + unfold end_dt. cbn [date_of]. lia.
Qed.

Lemma custom_month_period_witness :
  monthly_period (at_midnight 2026 11 3) (Some 4) (Some 2025)
  = Ok ("custom_month"%string, at_midnight 2025 4 1,
        combine (mk_date 2025 4 30) end_of_day)
  ∧ generate_date_list (at_midnight 2025 4 1) (combine (mk_date 2025 4 30) end_of_day)
    = Ok ((λ d, at_midnight 2025 4 d) <$> seqZ 1 30).
Proof. apply (custom_month_period (at_midnight 2026 11 3) 4 2025); lia. Defined.

(** X2: numbers that are no month of the calendar. With both numbers
    given and not zero, a month outside 1..12, a year outside 1..9999 or
    December 9999 makes the monthly report fail: with [OverflowError] when
    the year or the month does not fit the C type [int], with
    [ValueError] otherwise. *)
Theorem monthly_period_rejects now m y :
  m ≠ 0 → y ≠ 0 → ¬ (1 ≤ m ≤ 12 ∧ 1 ≤ y ≤ 9999) ∨ (m = 12 ∧ y = 9999) →
  let e := if fits_c_int y && fits_c_int m then ValueError else OverflowError in
  monthly_period now (Some m) (Some y) = Raise e
  ∧ ∀ LATE employees transactions,
      attendance_report_monthly LATE employees transactions now (Some m) (Some y)
      = Raise e.
Proof.
  intros Hm0 Hy0 Hbad e.
  assert (Hp : monthly_period now (Some m) (Some y) = Raise e).
  { unfold monthly_period. rewrite !truthy_int_Some.
    destruct (Z.eqb_spec m 0); [lia|]. destruct (Z.eqb_spec y 0); [lia|].
    cbn [negb andb default from_option]. unfold id.
    destruct Hbad as [Hout|[-> ->]].
    - rewrite (datetime_of_ints_invalid y m 1).
      + unfold e. change (fits_c_int 1) with true. by rewrite andb_true_r.
      + intros (? & ? & ?)%valid_date_fields. cbn [year month day] in *. lia.
    - reflexivity. }
  split; [exact Hp|]. intros LATE employees transactions.
  unfold attendance_report_monthly. by rewrite Hp.
Qed.

Lemma monthly_period_rejects_witness :
  monthly_period (at_midnight 2026 11 3) (Some 1) (Some 2147483648)
  = Raise OverflowError
  ∧ ∀ LATE employees transactions,
      attendance_report_monthly LATE employees transactions (at_midnight 2026 11 3)
        (Some 1) (Some 2147483648)
      = Raise OverflowError.
Proof.
  apply (monthly_period_rejects (at_midnight 2026 11 3) 1 2147483648); [lia|lia|].
  left. lia.
Defined.

(** X3: without both numbers, the month to date. *)
Theorem month_to_date_fallback now month year :
  valid_datetime now →
  truthy_int month = false ∨ truthy_int year = false →
  monthly_period now month year
  = Ok ("current_month_to_date"%string,
        at_midnight (Datetime.year (date_of now)) (Datetime.month (date_of now)) 1,
        now).
Proof.
  intros [(? & ? & ?)%valid_date_fields _] Hfalsy. unfold monthly_period.
  assert (truthy_int month && truthy_int year = false) as ->.
  { destruct Hfalsy as [-> | ->]; [done|by rewrite andb_false_r]. }
  rewrite new_datetime_midnight; [done|].
  pose proof (days_in_month_ge_28 (Datetime.year (date_of now))
                (Datetime.month (date_of now)) ltac:(done)).
  apply valid_date_intro; lia.
Qed.

Lemma month_to_date_fallback_witness :
  monthly_period (combine (mk_date 2026 11 3) (mk_time 9 30 0 0)) (Some 2) None
  = Ok ("current_month_to_date"%string, at_midnight 2026 11 1,
        combine (mk_date 2026 11 3) (mk_time 9 30 0 0)).
Proof.
  apply (month_to_date_fallback (combine (mk_date 2026 11 3) (mk_time 9 30 0 0))
           (Some 2) None).
  - split; exact I.
  - right. reflexivity.
Defined.

Lemma weekday_range d : 0 ≤ weekday d ≤ 6.
Proof. unfold weekday. Z.div_mod_to_equations; lia. Qed.

(** X4: the week to date starts on a Monday. *)
Theorem weekly_period_starts_monday now :
  valid_datetime now →
  ∃ monday,
    weekly_period now = Ok (combine monday midnight, now)
    ∧ valid_date monday
    ∧ weekday monday = 0
    ∧ toordinal monday = toordinal (date_of now) - weekday (date_of now)
    ∧ toordinal (date_of now) - 6 ≤ toordinal monday ≤ toordinal (date_of now).
Proof.
  intros Hv. pose proof Hv as [Hd Ht].
  pose proof (toordinal_range _ Hd) as Hr.
  pose proof (weekday_range (date_of now)) as Hw.
  assert (Hpos : 1 ≤ toordinal (date_of now) - weekday (date_of now)).
  { unfold weekday in *. Z.div_mod_to_equations; lia. }
  destruct (ord2ymd_toordinal (toordinal (date_of now) - weekday (date_of now)))
    as [Ho Hvm]; [lia|].
  exists (fromordinal (toordinal (date_of now) - weekday (date_of now))).
  split_and!.
  - unfold weekly_period. rewrite datetime_sub_days by assumption.
    rewrite (proj2 (Z.ltb_lt 0 _)), (proj2 (Z.leb_le _ MAXORDINAL)) by lia.
    reflexivity.
  - exact Hvm.
  - unfold weekday at 1. unfold fromordinal. rewrite Ho.
    unfold weekday. Z.div_mod_to_equations; lia.
  - exact Ho.
  - unfold fromordinal. rewrite Ho. lia.
  - unfold fromordinal. rewrite Ho. lia.
Qed.

Lemma weekly_period_starts_monday_witness :
  ∃ monday,
    weekly_period (combine (mk_date 2026 11 5) (mk_time 9 30 0 0))
    = Ok (combine monday midnight, combine (mk_date 2026 11 5) (mk_time 9 30 0 0))
    ∧ valid_date monday
    ∧ weekday monday = 0
    ∧ toordinal monday = toordinal (mk_date 2026 11 5) - weekday (mk_date 2026 11 5)
    ∧ toordinal (mk_date 2026 11 5) - 6 ≤ toordinal monday ≤ toordinal (mk_date 2026 11 5).
Proof.
  apply (weekly_period_starts_monday (combine (mk_date 2026 11 5) (mk_time 9 30 0 0))).
  split; exact I.
Defined.

(** X5: the previous month, from its first to its last second. *)
Theorem previous_month_period_spec now :
  valid_datetime now →
  let y := Datetime.year (date_of now) in
  let m := Datetime.month (date_of now) in
  let p := previous_month y m in
  previous_month_period now
  = if (y =? 1) && (m =? 1) then Raise OverflowError
    else Ok (at_midnight p.1 p.2 1,
             combine (mk_date p.1 p.2 (days_in_month p.1 p.2)) end_of_day).
Proof.
  intros [Hd _] y m p.
  pose proof Hd as (Hy & Hm & _)%valid_date_fields. fold y m in Hy, Hm.
  pose proof (days_in_month_ge_28 y m Hm) as H28.
  assert (Hfv : valid_date (mk_date y m 1)) by (apply valid_date_intro; lia).
  pose proof (toordinal_first_of_month y m Hm) as Hfirst. fold p in Hfirst.
  unfold previous_month_period. fold y m.
  rewrite new_datetime_midnight by exact Hfv. cbn [mbind result_bind].
  rewrite one_second_before_midnight by exact Hfv.
  destruct ((y =? 1) && (m =? 1)) eqn:Efirst.
  - apply andb_true_iff in Efirst as [Ey%Z.eqb_eq Em%Z.eqb_eq].
    rewrite Ey, Em. reflexivity.
  - assert (Hpv : 1 ≤ p.1 ≤ 9999 ∧ 1 ≤ p.2 ≤ 12).
    { unfold p, previous_month.
      apply andb_false_iff in Efirst. rewrite !Z.eqb_neq in Efirst.
      destruct (Z.eqb_spec m 1); cbn [fst snd]; lia. }
    pose proof (last_of_month_valid p.1 p.2 ltac:(lia) ltac:(lia)) as Hlv.
    pose proof (toordinal_range _ Hlv) as Hlr.
    rewrite (proj2 (Z.ltb_lt 1 _)) by lia. cbn [mbind result_bind].
    rewrite Hfirst, Z.add_simpl_r, fromordinal_toordinal by exact Hlv.
    cbn [date_of year month].
    pose proof (days_in_month_ge_28 p.1 p.2 ltac:(lia)).
    rewrite new_datetime_midnight by (apply valid_date_intro; lia).
    reflexivity.
Qed.

Lemma previous_month_period_spec_witness :
  previous_month_period (combine (mk_date 2026 1 15) (mk_time 9 30 0 0))
  = Ok (at_midnight 2025 12 1, combine (mk_date 2025 12 31) end_of_day).
Proof.
  apply (previous_month_period_spec (combine (mk_date 2026 1 15) (mk_time 9 30 0 0))).
  split; exact I.
Defined.

(** X6: the windows of the week and month summaries. *)
Theorem summary_windows records now :
  valid_datetime now →
  attendance_week records now
  = (if toordinal (date_of now) <=? 6 then Raise OverflowError
     else
       s ← build_attendance_summary records
              (combine (fromordinal (toordinal (date_of now) - 6)) (time_of now)) now;
       mret ("last_7_days"%string, s))
  ∧ attendance_month records now
    = (s ← build_attendance_summary records
              (at_midnight (Datetime.year (date_of now))
                 (Datetime.month (date_of now)) 1) now;
       mret ("month_to_date"%string, s)).
Proof.
  intros Hv. pose proof Hv as [Hd _].
  pose proof (toordinal_range _ Hd) as Hr. split.
  - unfold attendance_week. rewrite datetime_sub_days by assumption.
    destruct (Z.leb_spec (toordinal (date_of now)) 6).
    + rewrite (proj2 (Z.ltb_ge 0 _)) by lia. reflexivity.
    + rewrite (proj2 (Z.ltb_lt 0 _)), (proj2 (Z.leb_le _ MAXORDINAL)) by lia.
      reflexivity.
  - unfold attendance_month.
    pose proof Hd as (? & ? & ?)%valid_date_fields.
    pose proof (days_in_month_ge_28 (Datetime.year (date_of now))
                  (Datetime.month (date_of now)) ltac:(done)).
    rewrite new_datetime_midnight by (apply valid_date_intro; lia).
    reflexivity.
Qed.

Lemma summary_windows_witness :
  attendance_week [] (combine (mk_date 1 1 5) (mk_time 9 30 0 0)) = Raise OverflowError
  ∧ attendance_month [] (combine (mk_date 1 1 5) (mk_time 9 30 0 0))
    = (s ← build_attendance_summary [] (at_midnight 1 1 1)
             (combine (mk_date 1 1 5) (mk_time 9 30 0 0));
       mret ("month_to_date"%string, s)).
Proof.
  apply (summary_windows [] (combine (mk_date 1 1 5) (mk_time 9 30 0 0))).
  split; exact I.
Defined.

End periods.

(* ------------------------------------------------------------------ *)
(** ** The rows of the plain range summary *)

Lemma foldlM_app {A B} (f : A → B → result A) a l1 l2 :
  foldlM f a (l1 ++ l2) = foldlM f a l1 ≫= λ a', foldlM f a' l2.
Proof.
  revert a. induction l1 as [|x l1 IH]; intros a; simpl; [done|].
  destruct (f a x); simpl; auto.
Qed.

Section sorted_last.
Context {A K : Type} (le : K → K → bool) (key : A → K).
Hypothesis le_total : ∀ a b, le a b = true ∨ le b a = true.
Hypothesis le_trans : ∀ a b c, le a b = true → le b c = true → le a c = true.

Lemma StronglySorted_last (R : relation A) l y :
  (∀ x, R x x) → StronglySorted R l → last l = Some y → ∀ x, x ∈ l → R x y.
Proof.
  intros Hrefl. induction 1 as [|z l Hl IH Hz]; [done|].
  intros Hlast x Hx. destruct l as [|z' l'].
  - cbn in Hlast. injection Hlast as <-.
    apply list_elem_of_singleton in Hx as ->. apply Hrefl.
  - change (last (z :: z' :: l')) with (last (z' :: l')) in Hlast.
    apply elem_of_cons in Hx as [->|Hx]; [|by apply IH].
    apply (proj1 (Forall_forall _ _) Hz). by apply last_Some_elem_of.
Qed.

(** The last element of the sorted list has a greatest key. *)
Lemma sorted_last_greatest l y :
  last (sorted le key l) = Some y →
  y ∈ l ∧ ∀ x, x ∈ l → le (key x) (key y) = true.
Proof.
  intros Hlast. split.
  - rewrite <-(elem_of_sorted le key). by apply last_Some_elem_of.
  - intros x Hx.
    apply (StronglySorted_last (λ a b, le (key a) (key b) = true)
             (sorted le key l) y).
    + intros a. by destruct (le_total (key a) (key a)).
    + by apply sorted_sorted.
    + done.
    + by rewrite elem_of_sorted.
Qed.

End sorted_last.

Lemma filter_none {A} (P : A → Prop) `{∀ x, Decision (P x)} (l : list A) :
  (∀ x, x ∈ l → ¬ P x) → filter P l = [].
Proof.
  intros Hl. destruct (filter P l) as [|x k] eqn:E; [done|].
  assert (x ∈ filter P l) as [? ?]%list_elem_of_filter by (rewrite E; left).
  by destruct (Hl x).
Qed.

Section grouping.

Lemma grouping_Ok records : ∀ acc grouped,
  foldlM (λ grouped rec,
            key ← getitem (tx_emp_code rec);
            mret (group_append key rec grouped)) acc records = Ok grouped ↔
  Forall (λ r, tx_emp_code r ≠ Missing) records ∧ grouped = grouping acc records.
Proof.
  induction records as [|r l IH]; intros acc grouped; cbn [foldlM].
  - split; [intros [= <-]; split; [constructor|done]|by intros [_ ->]].
  - rewrite Forall_cons. unfold grouping. cbn [foldl]. fold (grouping (group_append (emp_code_of r) r acc) l).
    unfold emp_code_of.
    destruct (tx_emp_code r) as [| |c]; cbn [getitem mbind result_bind mret result_ret get].
    + split; [done|]. by intros [[? _] _].
    + rewrite IH. split; [intros [? ?]|intros [[? ?] ?]]; by split_and!.
    + rewrite IH. split; [intros [? ?]|intros [[? ?] ?]]; by split_and!.
Qed.

Lemma group_append_keys key r g :
  (group_append key r g).*1 = if decide (key ∈ g.*1) then g.*1 else g.*1 ++ [key].
Proof.
  induction g as [|[k ps] g IH]; cbn [group_append].
  - by rewrite decide_False by (by intros ?%elem_of_nil).
  - destruct (decide (k = key)) as [->|Hk]; csimpl.
    + by rewrite decide_True by left.
    + rewrite IH. destruct (decide (key ∈ g.*1)) as [Hin|Hin].
      * by rewrite decide_True by (by right).
      * rewrite decide_False; [done|]. intros [?|?]%elem_of_cons; by simplify_eq.
Qed.

Lemma elem_of_group_append key r g k ps :
  NoDup g.*1 →
  (k, ps) ∈ group_append key r g →
  (k ≠ key ∧ (k, ps) ∈ g)
  ∨ (k = key ∧ ∃ ps0, ps = ps0 ++ [r]
                      ∧ ((key, ps0) ∈ g ∨ (ps0 = [] ∧ key ∉ g.*1))).
Proof.
  induction g as [|[k' ps'] g IH]; cbn [group_append].
  - intros _ [= -> ->]%list_elem_of_singleton. right. split; [done|].
    exists []. split; [done|]. right. split; [done|]. by intros ?%elem_of_nil.
  - csimpl. intros [Hk' Hnd]%NoDup_cons.
    destruct (decide (k' = key)) as [->|Hne].
    + intros [[= -> ->]|Hin]%elem_of_cons.
      * right. split; [done|]. exists ps'. split; [done|]. left. left.
      * left. split; [|by right]. intros ->. apply Hk'.
        apply list_elem_of_fmap. by exists (key, ps).
    + intros [[= -> ->]|Hin]%elem_of_cons.
      * left. split; [done|left].
      * destruct (IH Hnd Hin) as [[? ?]|(-> & ps0 & -> & Hps0)].
        -- left. split; [done|by right].
        -- right. split; [done|]. exists ps0. split; [done|].
           destruct Hps0 as [?|[-> Hnot]]; [left; by right|right].
           split; [done|]. intros [?|?]%elem_of_cons; by simplify_eq.
Qed.

Lemma group_append_total key r g :
  sum_list (length ∘ snd <$> group_append key r g)
  = S (sum_list (length ∘ snd <$> g)).
Proof.
  induction g as [|[k ps] g IH]; cbn [group_append]; [done|].
  destruct (decide (k = key)); csimpl.
  - rewrite length_app. cbn. lia.
  - rewrite IH. lia.
Qed.

Lemma punches_with_snoc k l r :
  punches_with k (l ++ [r])
  = punches_with k l ++ (if decide (emp_code_of r = k) then [r] else []).
Proof.
  unfold punches_with. rewrite filter_app. by f_equal.
Qed.

Lemma grouping_snoc acc l r :
  grouping acc (l ++ [r]) = group_append (emp_code_of r) r (grouping acc l).
Proof. unfold grouping. by rewrite foldl_app. Qed.

(** The groups of a page: one for every employee code of the page, with
    the records of that code in the order of the page. *)
Lemma grouping_spec records :
  let g := grouping [] records in
  NoDup g.*1
  ∧ (∀ k ps, (k, ps) ∈ g → ps = punches_with k records ∧ ps ≠ [])
  ∧ (∀ r, r ∈ records → emp_code_of r ∈ g.*1)
  ∧ sum_list (length ∘ snd <$> g) = length records.
Proof.
  induction records as [|r l IH] using rev_ind.
  - cbn. split_and!; [constructor|by intros ?? ?%elem_of_nil|by intros ? ?%elem_of_nil|done].
  - destruct IH as (Hnd & Hps & Hin & Hsum).
    rewrite grouping_snoc. cbv zeta. split_and!.
    + rewrite group_append_keys. destruct (decide _) as [|Hnew]; [done|].
      apply NoDup_app. split_and!; [done| |apply NoDup_singleton].
      intros k Hk ->%list_elem_of_singleton. done.
    + intros k ps Hkps.
      apply elem_of_group_append in Hkps as [[Hne Hk]|(-> & ps0 & -> & Hps0)];
        [| |exact Hnd].
      * destruct (Hps k ps Hk) as [-> ?]. split; [|done].
        rewrite punches_with_snoc, decide_False by done. by rewrite app_nil_r.
      * rewrite punches_with_snoc, decide_True by done.
        split; [|by destruct ps0]. f_equal.
        destruct Hps0 as [Hk|[-> Hnot]]; [by apply Hps|].
        symmetry. apply filter_none.
        intros r' Hr' Hcode. apply Hnot. rewrite <-Hcode. by apply Hin.
    + intros r' Hr'. rewrite group_append_keys.
      apply elem_of_app in Hr' as [Hr'| ->%list_elem_of_singleton].
      * destruct (decide _); [by apply Hin|]. apply elem_of_app. left. by apply Hin.
      * destruct (decide _); [done|]. apply elem_of_app. right. left.
    + rewrite group_append_total, Hsum, length_app. cbn. lia.
Qed.

End grouping.

Section summary_rows.

Lemma punch_time_key_parsed r t : punch_time_key r = Ok t ↔ parsed_punch_time r t.
Proof.
  unfold punch_time_key, parsed_punch_time.
  destruct (tx_punch_time r) as [| |s]; cbn.
  - split; [done|]. by intros (? & ? & ?).
  - split; [done|]. by intros (? & ? & ?).
  - split; [by exists s|]. by intros (? & [= <-] & ?).
Qed.

Lemma summarise_group_row summary item summary' :
  summarise_group summary item = Ok summary' →
  ∃ row, summary' = summary ++ [row] ∧ summarises item row.
Proof.
  destruct item as [k ps]. unfold summarise_group.
  intros (s & Hs & H)%bind_Ok.
  apply sortedM_Ok in Hs as (keyed & Hkeys & Hsnd & ->).
  rewrite head_fmap, fmap_last, length_fmap in H.
  destruct (head _) as [p1|] eqn:Eh; [|done].
  destruct (last _) as [pn|] eqn:El; [|done].
  cbn in H. injection H as <-. eexists. split; [done|].
  destruct (sorted_head_least datetime_le fst datetime_le_total
              datetime_le_trans keyed p1 Eh) as [Hp1 Hleast].
  destruct (sorted_last_greatest datetime_le fst datetime_le_total
              datetime_le_trans keyed pn El) as [Hpn Hgreatest].
  rewrite Forall_forall in Hkeys.
  unfold summarises.
  cbn [fst snd sum_emp_code total_punches sum_first_name sum_department
         first_punch_time first_terminal_alias last_punch_time last_terminal_alias].
  split_and!; [done|by rewrite sorted_length, <-Hsnd, length_fmap|].
  exists p1.2, pn.2, p1.1, pn.1.
  split_and!; try done.
  - rewrite <-Hsnd. by apply list_elem_of_fmap_2.
  - rewrite <-Hsnd. by apply list_elem_of_fmap_2.
  - by apply punch_time_key_parsed, Hkeys.
  - by apply punch_time_key_parsed, Hkeys.
  - intros r Hr. rewrite <-Hsnd in Hr.
    apply list_elem_of_fmap in Hr as (p & -> & Hp).
    exists p.1. split_and!; [by apply punch_time_key_parsed, Hkeys|by apply Hleast|by apply Hgreatest].
Qed.

Lemma foldlM_summarise_group g : ∀ acc s,
  foldlM summarise_group acc g = Ok s →
  ∃ rows, s = acc ++ rows ∧ Forall2 summarises g rows.
Proof.
  induction g as [|item g IH]; intros acc s; cbn [foldlM].
  - intros [= <-]. exists []. split; [by rewrite app_nil_r|constructor].
  - intros (acc' & (row & -> & Hrow)%summarise_group_row & H)%bind_Ok.
    apply IH in H as (rows & -> & Hrows).
    exists (row :: rows). split; [by rewrite <-app_assoc|by constructor].
Qed.

(** What [build_attendance_summary] returns: a row for each group of the
    page, in some order. *)
Lemma build_attendance_summary_rows records start_dt end_dt out :
  build_attendance_summary records start_dt end_dt = Ok out →
  ∃ rows,
    Forall2 summarises (grouping [] records) rows
    ∧ sorted_by_emp_code rows = Ok (sum_data out)
    ∧ sum_data out ≡ₚ rows
    ∧ sum_count out = length (sum_data out).
Proof.
  unfold build_attendance_summary.
  intros (grouped & Hg & (summary & Hs & (s & Hsort & [= <-])%bind_Ok)%bind_Ok)%bind_Ok.
  apply grouping_Ok in Hg as [_ ->].
  apply foldlM_summarise_group in Hs as (rows & -> & Hrows).
  exists rows. cbn [app sum_data sum_count] in *.
  split_and!; [done..| |done]. by eapply sorted_by_emp_code_perm.
Qed.

Lemma summarises_keys g rows :
  Forall2 summarises g rows →
  sum_emp_code <$> rows = g.*1
  ∧ total_punches <$> rows = length ∘ snd <$> g.
Proof.
  induction 1 as [|item row g rows (Hk & Hn & _) _ [IH1 IH2]]; [done|].
  csimpl. by rewrite Hk, Hn, IH1, IH2.
Qed.

Lemma summarises_elem g rows row :
  Forall2 summarises g rows → row ∈ rows →
  ∃ item, item ∈ g ∧ summarises item row.
Proof.
  induction 1 as [|item r g rows Hr _ IH]; [by intros ?%elem_of_nil|].
  intros [->|Hin]%elem_of_cons.
  - exists item. split; [left|done].
  - destruct (IH Hin) as (item' & ? & ?). exists item'. split; [by right|done].
Qed.

End summary_rows.

(** X7: every record of the page is counted once. *)
Theorem summary_counts_every_record records start_dt end_dt out :
  build_attendance_summary records start_dt end_dt = Ok out →
  sum_count out = length (sum_data out)
  ∧ NoDup (sum_emp_code <$> sum_data out)
  ∧ (∀ r, r ∈ records →
       ∃ row, row ∈ sum_data out ∧ sum_emp_code row = emp_code_of r)
  ∧ (∀ row, row ∈ sum_data out →
       total_punches row = length (punches_with (sum_emp_code row) records))
  ∧ sum_list (total_punches <$> sum_data out) = length records.
Proof.
  intros (rows & Hrows & _ & Hperm & Hcount)%build_attendance_summary_rows.
  destruct (grouping_spec records) as (Hnd & Hps & Hin & Hsum).
  destruct (summarises_keys _ _ Hrows) as [Hkeys Htotals].
  split_and!.
  - done.
  - by rewrite Hperm, Hkeys.
  - intros r Hr. apply Hin in Hr. rewrite <-Hkeys, <-Hperm in Hr.
    apply list_elem_of_fmap in Hr as (row & ? & ?). by exists row.
  - intros row Hrow. rewrite Hperm in Hrow.
    destruct (summarises_elem _ _ _ Hrows Hrow) as ([k ps] & Hitem & Hk & Hn & _).
    cbn [fst snd] in *. destruct (Hps k ps Hitem) as [-> _]. by rewrite Hk.
  - by rewrite Hperm, Htotals.
Qed.

Lemma summary_counts_every_record_witness :
  ∃ out,
    build_attendance_summary
      [sample_punch "2" "2024-02-05 09:10:00"; sample_punch "1" "2024-02-05 17:30:00";
       sample_punch "1" "2024-02-05 07:55:00"]
      (at_midnight 2024 2 5) (at_midnight 2024 2 5) = Ok out
    ∧ sum_count out = 2
    ∧ total_punches <$> sum_data out = [2; 1]
    ∧ sum_list (total_punches <$> sum_data out) = 3.
Proof.
  eexists. split; [vm_compute; reflexivity|].
  destruct (summary_counts_every_record
              [sample_punch "2" "2024-02-05 09:10:00";
               sample_punch "1" "2024-02-05 17:30:00";
               sample_punch "1" "2024-02-05 07:55:00"]
              (at_midnight 2024 2 5) (at_midnight 2024 2 5) _ eq_refl)
    as (Hc & _ & _ & _ & Hsum).
  split_and!; [exact Hc|reflexivity|exact Hsum].
Defined.

(** X8: the first and the last punch of a row. *)
Theorem summary_first_and_last records start_dt end_dt out row :
  build_attendance_summary records start_dt end_dt = Ok out →
  row ∈ sum_data out →
  summarises (sum_emp_code row, punches_with (sum_emp_code row) records) row.
Proof.
  intros (rows & Hrows & _ & Hperm & _)%build_attendance_summary_rows Hrow.
  destruct (grouping_spec records) as (_ & Hps & _ & _).
  rewrite Hperm in Hrow.
  destruct (summarises_elem _ _ _ Hrows Hrow) as ([k ps] & Hitem & Hsum).
  destruct (Hps k ps Hitem) as [-> _].
  destruct Hsum as (Hk & ?). cbn [fst] in Hk. rewrite Hk. by split.
Qed.

Lemma summary_first_and_last_witness :
  let records :=
    [sample_punch "1" "2024-02-05 12:00:00"; sample_punch "1" "2024-02-05 17:30:00";
     sample_punch "1" "2024-02-05 07:55:00"] in
  let row :=
    mk_summary_row (Some "1") None None (Some "2024-02-05 07:55:00") None
      (Some "2024-02-05 17:30:00") None 3 in
  summarises (sum_emp_code row, punches_with (sum_emp_code row) records) row.
Proof.
  intros records row.
  apply (summary_first_and_last records (at_midnight 2024 2 5) (at_midnight 2024 2 5)
           (mk_summary "2024-02-05" "2024-02-05" 1 [row]) row).
  - vm_compute. reflexivity.
  - left.
Defined.

Section summary_order.

Lemma StronglySorted_NoDup_strict {A B} (R : relation A) (f : A → B) l :
  StronglySorted R l → NoDup (f <$> l) →
  StronglySorted (λ x y, R x y ∧ f x ≠ f y) l.
Proof.
  induction 1 as [|x l Hl IH Hx]; [constructor|].
  csimpl. intros [Hnot Hnd]%NoDup_cons. constructor; [by apply IH|].
  apply Forall_forall. intros y Hy. split.
  - by apply (proj1 (Forall_forall _ _) Hx).
  - intros E. apply Hnot. rewrite E. by apply list_elem_of_fmap_2.
Qed.

Lemma StronglySorted_mono {A} (R R' : relation A) l :
  (∀ x y, R x y → R' x y) → StronglySorted R l → StronglySorted R' l.
Proof.
  intros HR. induction 1 as [|x l Hl IH Hx]; constructor; [done|].
  eapply Forall_impl; [exact Hx|]. intros y. apply HR.
Qed.

Lemma string_leb_ltb a b : String.leb a b = true → a ≠ b → String.ltb a b = true.
Proof.
  unfold String.leb, String.ltb. intros Hle Hne.
  destruct (String.compare a b) eqn:E; try done.
  by apply String.compare_eq_iff in E.
Qed.

Lemma sorted_by_emp_code_Ok rows s :
  sorted_by_emp_code rows = Ok s →
  StronglySorted
    (λ x y, ∃ a b, sum_emp_code x = Some a ∧ sum_emp_code y = Some b
                   ∧ String.leb a b = true) s.
Proof.
  unfold sorted_by_emp_code.
  destruct rows as [|r1 [|r2 rest]];
    [intros [= <-]; constructor|intros [= <-]; repeat constructor|].
  set (rows := r1 :: r2 :: rest).
  intros (keys & Hkeys & [= <-])%bind_Ok.
  apply mapM_result_Ok in Hkeys.
  assert (Hk : keys = (λ r, default ""%string (sum_emp_code r)) <$> rows
               ∧ Forall (λ r, is_Some (sum_emp_code r)) rows).
  { clear -Hkeys. induction Hkeys as [|r k l ks Hr _ [IH1 IH2]]; [by split|].
    destruct (sum_emp_code r) as [c|] eqn:E; [|done].
    cbn in Hr. injection Hr as <-. csimpl. rewrite E. split; [by f_equal|].
    constructor; [by rewrite E|done]. }
  destruct Hk as [-> Hsome].
  rewrite sorted_zip_keys.
  pose proof (sorted_sorted String.leb (λ r, default ""%string (sum_emp_code r))
                string_leb_total string_leb_trans rows) as Hs.
  assert (Hall : Forall (λ r, is_Some (sum_emp_code r))
                   (sorted String.leb (λ r, default ""%string (sum_emp_code r)) rows)).
  { apply Forall_forall. intros r Hr%elem_of_sorted.
    by apply (proj1 (Forall_forall _ _) Hsome). }
  revert Hs Hall. generalize (sorted String.leb (λ r, default ""%string (sum_emp_code r)) rows).
  intros l. induction 1 as [|x l Hl IH Hx]; [constructor|].
  intros [[a Ha] Hrest]%Forall_cons. constructor; [by apply IH|].
  apply Forall_forall. intros y Hy.
  destruct (proj1 (Forall_forall _ _) Hrest y Hy) as [b Hb].
  pose proof (proj1 (Forall_forall _ _) Hx y Hy) as Hle. cbn in Hle.
  rewrite Ha, Hb in Hle. by exists a, b.
Qed.

Lemma summary_codes_NoDup records start_dt end_dt out :
  build_attendance_summary records start_dt end_dt = Ok out →
  NoDup (sum_emp_code <$> sum_data out).
Proof.
  intros (rows & Hrows & _ & Hperm & _)%build_attendance_summary_rows.
  destruct (grouping_spec records) as (Hnd & _).
  destruct (summarises_keys _ _ Hrows) as [Hkeys _].
  by rewrite Hperm, Hkeys.
Qed.

End summary_order.

(** X9: the rows of the summary are in the order of their codes. *)
Theorem summary_sorted_by_code records start_dt end_dt out :
  build_attendance_summary records start_dt end_dt = Ok out →
  StronglySorted
    (λ x y, ∃ a b, sum_emp_code x = Some a ∧ sum_emp_code y = Some b
                   ∧ String.ltb a b = true) (sum_data out).
Proof.
  intros Hout. pose proof (summary_codes_NoDup _ _ _ _ Hout) as Hnd.
  apply build_attendance_summary_rows in Hout as (rows & _ & Hsort & _ & _).
  apply sorted_by_emp_code_Ok in Hsort.
  apply (StronglySorted_NoDup_strict _ sum_emp_code) in Hsort; [|done].
  eapply StronglySorted_mono; [|exact Hsort].
  intros x y [(a & b & Ha & Hb & Hle) Hne]. exists a, b. split_and!; [done..|].
  apply string_leb_ltb; [done|]. intros ->. apply Hne. by rewrite Ha, Hb.
Qed.

Lemma summary_sorted_by_code_witness :
  StronglySorted
    (λ x y, ∃ a b, sum_emp_code x = Some a ∧ sum_emp_code y = Some b
                   ∧ String.ltb a b = true)
    [mk_summary_row (Some "1") None None (Some "2024-02-05 07:55:00") None
       (Some "2024-02-05 17:30:00") None 2;
     mk_summary_row (Some "2") None None (Some "2024-02-05 09:10:00") None
       (Some "2024-02-05 09:10:00") None 1].
Proof.
  apply (summary_sorted_by_code
           [sample_punch "2" "2024-02-05 09:10:00";
            sample_punch "1" "2024-02-05 17:30:00";
            sample_punch "1" "2024-02-05 07:55:00"]
           (at_midnight 2024 2 5) (at_midnight 2024 2 5)
           (mk_summary "2024-02-05" "2024-02-05" 2 _)).
  vm_compute. reflexivity.
Defined.

Section summary_outcome.

Lemma mapM_raise {A B} (f : A → result B) e l :
  (∀ x, x ∈ l → (∃ y, f x = Ok y) ∨ f x = Raise e) →
  (∃ x, x ∈ l ∧ f x = Raise e) → mapM f l = Raise e.
Proof.
  intros Hall (x & Hx & Hfail).
  induction l as [|y l IH]; [by apply elem_of_nil in Hx|]. cbn.
  apply elem_of_cons in Hx as [<-|Hx]; [by rewrite Hfail|].
  destruct (Hall y) as [[b ->]| ->]; [left|..|done]. cbn.
  rewrite IH; [done| |done]. intros ??. apply Hall. by right.
Qed.

Lemma Forall_or_Exists {A} (P Q : A → Prop) l :
  Forall (λ x, P x ∨ Q x) l → Forall P l ∨ Exists Q l.
Proof.
  induction 1 as [|x l [Hx|Hx] _ [IH|IH]];
    [left; constructor|left; by constructor|right; by constructor 2
    |right; by constructor|right; by constructor].
Qed.

Lemma mapM_ok {A B} (f : A → result B) l :
  (∀ x, x ∈ l → ∃ y, f x = Ok y) → ∃ k, mapM f l = Ok k.
Proof.
  intros Hall. destruct (Forall2_total (λ x y, f x = Ok y) l Hall) as [k Hk].
  exists k. by apply mapM_result_Ok.
Qed.

Lemma punch_time_key_Str r s : tx_punch_time r = Str s → punch_time_key r = strptime s.
Proof. unfold punch_time_key. by intros ->. Qed.

Lemma punch_str_Str r s : tx_punch_time r = Str s → punch_str r = s.
Proof. unfold punch_str. by intros ->. Qed.

Lemma summarise_group_total summary k ps :
  ps ≠ [] →
  Forall (λ r, ∃ t, punch_time_key r = Ok t) ps →
  ∃ summary', summarise_group summary (k, ps) = Ok summary'.
Proof.
  intros Hne Hparse. unfold summarise_group, sortedM.
  destruct (mapM_ok (λ x, k0 ← punch_time_key x; mret (k0, x)) ps) as [keyed Hkeyed].
  { intros r Hr. destruct (proj1 (Forall_forall _ _) Hparse r Hr) as [t ->]. by eexists. }
  rewrite Hkeyed. cbn [mbind result_bind mret result_ret].
  assert (Hlen : length (snd <$> sorted datetime_le fst keyed) = length ps).
  { apply mapM_result_Ok, Forall2_length in Hkeyed.
    by rewrite length_fmap, sorted_length. }
  destruct (snd <$> sorted datetime_le fst keyed) as [|p l] eqn:E.
  - destruct ps; [done|discriminate].
  - cbn [head]. destruct (last (p :: l)) as [q|] eqn:El; [by eexists|].
    by apply last_None in El.
Qed.

Lemma summarise_group_raise summary k ps :
  Forall (λ r, (∃ t, punch_time_key r = Ok t) ∨ punch_time_key r = Raise ValueError) ps →
  Exists (λ r, punch_time_key r = Raise ValueError) ps →
  summarise_group summary (k, ps) = Raise ValueError.
Proof.
  intros Hall (r & Hr & Hfail)%Exists_exists. unfold summarise_group, sortedM.
  rewrite (mapM_raise _ ValueError); [done| |].
  - intros x Hx. destruct (proj1 (Forall_forall _ _) Hall x Hx) as [[t ->]| ->];
      [left; by eexists|by right].
  - exists r. split; [done|]. by rewrite Hfail.
Qed.

Lemma sorted_by_emp_code_total rows :
  Forall (λ row, is_Some (sum_emp_code row)) rows →
  ∃ s, sorted_by_emp_code rows = Ok s.
Proof.
  intros Hall. unfold sorted_by_emp_code.
  destruct rows as [|r1 [|r2 rest]]; [by eexists..|].
  destruct (mapM_ok (λ r, str_key (sum_emp_code r)) (r1 :: r2 :: rest)) as [keys ->].
  - intros r Hr. destruct (proj1 (Forall_forall _ _) Hall r Hr) as [c ->]. by eexists.
  - by eexists.
Qed.

End summary_outcome.

(** X10: the summary parses the timestamp of every record. *)
Theorem summary_parses_every_timestamp records start_dt end_dt :
  Forall (λ r, ∃ c s, tx_emp_code r = Str c ∧ tx_punch_time r = Str s) records →
  (Forall (λ r, ∃ t, strptime (punch_str r) = Ok t) records →
     ∃ out, build_attendance_summary records start_dt end_dt = Ok out)
  ∧ (Exists (λ r, strptime (punch_str r) = Raise ValueError) records →
       build_attendance_summary records start_dt end_dt = Raise ValueError).
Proof.
  intros Hstr. rewrite Forall_forall in Hstr.
  assert (Hg : foldlM (λ grouped rec,
                  key ← getitem (tx_emp_code rec);
                  mret (group_append key rec grouped)) [] records
               = Ok (grouping [] records)).
  { apply grouping_Ok. split; [|done]. apply Forall_forall. intros r Hr.
    destruct (Hstr r Hr) as (c & s & -> & _). done. }
  destruct (grouping_spec records) as (Hnd & Hps & Hin & _).
  assert (Hsub : ∀ k ps r, (k, ps) ∈ grouping [] records → r ∈ ps → r ∈ records).
  { intros k ps r Hitem Hr. destruct (Hps k ps Hitem) as [-> _].
    by apply list_elem_of_filter in Hr as [_ ?]. }
  unfold build_attendance_summary. rewrite Hg. cbn [mbind result_bind].
  split.
  - intros Hparse. rewrite Forall_forall in Hparse.
    destruct (foldlM_ok summarise_group (grouping [] records)) with (a := @nil summary_row)
      as [rows Hrows].
    { intros acc [k ps] Hitem. apply summarise_group_total; [exact (proj2 (Hps k ps Hitem))|].
      apply Forall_forall. intros r Hr.
      pose proof (Hsub k ps r Hitem Hr) as Hrec.
      destruct (Hstr r Hrec) as (c & s & _ & Es). destruct (Hparse r Hrec) as [t Ht].
      exists t. by rewrite (punch_time_key_Str r s), <-(punch_str_Str r s). }
    rewrite Hrows. cbn [mbind result_bind].
    destruct (sorted_by_emp_code_total rows) as [s ->]; [|by eexists].
    apply foldlM_summarise_group in Hrows as (rows' & -> & Hrows). cbn [app].
    apply Forall_forall. intros row Hrow.
    destruct (summarises_elem _ _ _ Hrows Hrow) as ([k ps] & Hitem & Hk & _ & fp & _ & _ & _ & Hfp & _).
    cbn [fst snd] in *. rewrite Hk.
    destruct (Hps k ps Hitem) as [-> _].
    apply list_elem_of_filter in Hfp as [<- Hrec].
    destruct (Hstr fp Hrec) as (c & s & Ec & _). unfold emp_code_of. rewrite Ec. by eexists.
  - intros (r & Hr & Hfail)%Exists_exists.
    rewrite (foldlM_raise summarise_group ValueError); [done| |].
    + intros acc [k ps] Hitem.
      assert (Hall : Forall (λ r, (∃ t, punch_time_key r = Ok t)
                                  ∨ punch_time_key r = Raise ValueError) ps).
      { apply Forall_forall. intros r' Hr'.
        destruct (Hstr r' (Hsub k ps r' Hitem Hr')) as (c & s & _ & Es).
        rewrite (punch_time_key_Str r' s) by done. apply strptime_outcome. }
      destruct (Forall_or_Exists _ _ _ Hall) as [Hok|Hex].
      * left. by apply summarise_group_total; [exact (proj2 (Hps k ps Hitem))|].
      * right. by apply summarise_group_raise.
    + apply Hin in Hr as Hkey.
      apply list_elem_of_fmap in Hkey as ([k ps] & Ek & Hitem). cbn in Ek.
      exists (k, ps). split; [done|]. intros acc. apply summarise_group_raise.
      * apply Forall_forall. intros r' Hr'.
        destruct (Hstr r' (Hsub k ps r' Hitem Hr')) as (c & s & _ & Es).
        rewrite (punch_time_key_Str r' s) by done. apply strptime_outcome.
      * apply Exists_exists. exists r. split.
        -- destruct (Hps k ps Hitem) as [-> _]. apply list_elem_of_filter. by split.
        -- destruct (Hstr r Hr) as (c & s & _ & Es).
           by rewrite (punch_time_key_Str r s), <-(punch_str_Str r s).
Qed.

Lemma summary_parses_every_timestamp_witness :
  build_attendance_summary
    [sample_punch "1" "2024-02-05 07:55:00"; sample_punch "1" "2024-02-05 noon"]
    (at_midnight 2024 2 5) (at_midnight 2024 2 5) = Raise ValueError.
Proof.
  apply (summary_parses_every_timestamp
           [sample_punch "1" "2024-02-05 07:55:00"; sample_punch "1" "2024-02-05 noon"]
           (at_midnight 2024 2 5) (at_midnight 2024 2 5)).
  - repeat constructor; by eexists _, _.
  - apply Exists_cons_tl, Exists_cons_hd. vm_compute. reflexivity.
Defined.

(* ------------------------------------------------------------------ *)
(** ** The lists of today *)

Section today.

Lemma strftime_midnight d :
  strftime (combine d midnight) = (strftime_date d +:+ " 00:00:00")%string.
Proof. reflexivity. Qed.

Lemma strftime_end_of_day d :
  strftime (combine d end_of_day) = (strftime_date d +:+ " 23:59:59")%string.
Proof. reflexivity. Qed.

(** From the year 1000 on the year has four digits of its own: its text
    is the same whether or not the platform pads it. *)
Lemma zfill_4_unpadded y : (1000 ≤ y ≤ 9999)%Z → zfill 4 y = str_int y.
Proof.
  intros Hy. apply String.eqb_eq.
  apply (forallb_seqZ (λ n, String.eqb (zfill 4 n) (str_int n)) 1000 9000);
    [by vm_compute|lia].
Qed.

End today.

(** X11: the window of today, from the year 1000 on. The text of today's
    date is then the same whether or not the platform pads the year with
    zeros (before the year 1000 the C library decides, and a year that is
    not padded is not read back). The two instants are parsed from that
    text, the summary is built from today 00:00:00 to today 23:59:59, and
    the date of the response and the two dates of the summary are today's
    date. *)
Theorem attendance_today_window records now :
  valid_date (date_of now) → (1000 ≤ year (date_of now))%Z →
  strftime_date (date_of now)
  = (str_int (year (date_of now)) +:+ "-" +:+ zfill 2 (month (date_of now))
     +:+ "-" +:+ zfill 2 (day (date_of now)))%string
  ∧ attendance_today records now
    = (s ← build_attendance_summary records (combine (date_of now) midnight)
             (combine (date_of now) end_of_day);
       mret (strftime_date (date_of now), s))
  ∧ ∀ date out,
      attendance_today records now = Ok (date, out) →
      date = strftime_date (date_of now)
      ∧ start_date out = date ∧ end_date out = date.
Proof.
  intros Hd Hy.
  split.
  { pose proof Hd as (? & ? & ?)%valid_date_fields.
    unfold strftime_date. by rewrite zfill_4_unpadded by lia. }
  assert (E : attendance_today records now
              = (s ← build_attendance_summary records (combine (date_of now) midnight)
                       (combine (date_of now) end_of_day);
                 mret (strftime_date (date_of now), s))).
  { unfold attendance_today.
    rewrite <-strftime_midnight, <-strftime_end_of_day.
    rewrite !strptime_strftime by (done || (by split)). reflexivity. }
  split; [exact E|]. rewrite E. intros date out (s & Hs & [= <- <-])%bind_Ok.
  unfold build_attendance_summary in Hs.
  apply bind_Ok in Hs as (g & _ & (rows & _ & (srt & _ & [= <-])%bind_Ok)%bind_Ok).
  done.
Qed.

Lemma attendance_today_window_witness :
  attendance_today [sample_punch "7" "2026-11-03 08:00:00"]
    (combine (mk_date 2026 11 3) (mk_time 9 30 0 0))
  = (s ← build_attendance_summary [sample_punch "7" "2026-11-03 08:00:00"]
           (at_midnight 2026 11 3) (combine (mk_date 2026 11 3) end_of_day);
     mret ("2026-11-03"%string, s)).
Proof.
  apply (attendance_today_window [sample_punch "7" "2026-11-03 08:00:00"]
           (combine (mk_date 2026 11 3) (mk_time 9 30 0 0)));
    [exact I|cbn; lia].
Defined.

Section today_lists.

Lemma select_rows_filter field test rows : ∀ acc,
  Forall (λ row, is_Some (row_time field row)) rows →
  foldlM (select_rows field test) acc rows
  = Ok (acc ++ filter (row_selected field test) rows).
Proof.
  induction rows as [|row rows IH]; intros acc Hall; cbn [foldlM].
  - by rewrite filter_nil, app_nil_r.
  - apply Forall_cons in Hall as [[t Ht] Hall].
    assert (select_rows field test acc row
            = Ok (if test t then acc ++ [row] else acc)
            ∧ row_selected field test row = test t) as [-> Hrow].
    { unfold select_rows, row_selected. unfold row_time in Ht |- *.
      destruct (field row) as [s|]; [|done]. cbn [str_key mbind result_bind].
      destruct (strptime s) as [t'| |]; [|done..]. by injection Ht as ->. }
    cbn [mbind result_bind]. rewrite IH by done. rewrite filter_cons.
    destruct (test t).
    + rewrite decide_True by (apply Is_true_true, Hrow). by rewrite <-app_assoc.
    + rewrite decide_False by (apply Is_true_false, Hrow). done.
Qed.

Lemma summary_rows_parse records start_dt end_dt out :
  build_attendance_summary records start_dt end_dt = Ok out →
  Forall (λ row, is_Some (row_time first_punch_time row)
                 ∧ is_Some (row_time last_punch_time row)) (sum_data out).
Proof.
  intros Hout%build_attendance_summary_ok.
  eapply Forall_impl; [exact Hout|].
  intros row (_ & (s1 & s2 & t1 & t2 & E1 & E2 & H1 & H2 & _) & _).
  unfold row_time. by rewrite E1, E2, H1, H2.
Qed.

End today_lists.

Lemma today_lists_eq LATE_AFTER_TIME EARLY_LEAVE_TIME records now
    date today_summary :
  attendance_today records now = Ok (date, today_summary) →
  attendance_today_late LATE_AFTER_TIME records now
  = (late_threshold ← strptime (date +:+ " " +:+ LATE_AFTER_TIME);
     let late_list :=
       filter (first_punch_after late_threshold) (sum_data today_summary) in
     mret (mk_today_list date (length late_list) late_list))
  ∧ attendance_today_early_leave EARLY_LEAVE_TIME records now
    = (early_threshold ← strptime (date +:+ " " +:+ EARLY_LEAVE_TIME);
       let early_list :=
         filter (last_punch_before early_threshold) (sum_data today_summary) in
       mret (mk_today_list date (length early_list) early_list)).
Proof.
  intros Htoday.
  pose proof Htoday as (start_dt & end_dt & Hout)%attendance_today_Ok.
  apply summary_rows_parse in Hout.
  unfold attendance_today_late, attendance_today_early_leave. rewrite Htoday.
  cbn [mbind result_bind]. split.
  - destruct (strptime (date +:+ " " +:+ LATE_AFTER_TIME)) as [thr| |]; [|done..].
    cbn [mbind result_bind]. rewrite select_rows_filter.
    + reflexivity.
    + eapply Forall_impl; [exact Hout|]. by intros row [? _].
  - destruct (strptime (date +:+ " " +:+ EARLY_LEAVE_TIME)) as [thr| |]; [|done..].
    cbn [mbind result_bind]. rewrite select_rows_filter.
    + reflexivity.
    + eapply Forall_impl; [exact Hout|]. by intros row [_ ?].
Qed.

(** X12: the late and the early-leave lists of today. *)
Theorem today_late_and_early_leave LATE_AFTER_TIME EARLY_LEAVE_TIME records now
    date today_summary :
  attendance_today records now = Ok (date, today_summary) →
  attendance_today_late LATE_AFTER_TIME records now
  = (late_threshold ← strptime (date +:+ " " +:+ LATE_AFTER_TIME);
     let late_list :=
       filter (first_punch_after late_threshold) (sum_data today_summary) in
     mret (mk_today_list date (length late_list) late_list))
  ∧ attendance_today_early_leave EARLY_LEAVE_TIME records now
    = (early_threshold ← strptime (date +:+ " " +:+ EARLY_LEAVE_TIME);
       let early_list :=
         filter (last_punch_before early_threshold) (sum_data today_summary) in
       mret (mk_today_list date (length early_list) early_list)).
Proof. apply today_lists_eq. Qed.

Lemma today_late_and_early_leave_witness :
  let records :=
    [sample_punch "1" "2026-11-03 08:00:00"; sample_punch "2" "2026-11-03 08:30:00";
     sample_punch "2" "2026-11-03 16:00:00"; sample_punch "1" "2026-11-03 17:10:00"] in
  let now := combine (mk_date 2026 11 3) (mk_time 18 0 0 0) in
  ∃ row1 row2,
    attendance_today_late "08:05:00" records now
    = Ok (mk_today_list "2026-11-03" 1 [row2])
    ∧ attendance_today_early_leave "17:00:00" records now
      = Ok (mk_today_list "2026-11-03" 1 [row2])
    ∧ attendance_today_present records now
      = Ok (mk_today_list "2026-11-03" 2 [row1; row2]).
Proof.
  intros records now. eexists _, _.
  destruct (today_late_and_early_leave "08:05:00" "17:00:00" records now
              "2026-11-03" _ ltac:(vm_compute; reflexivity)) as [Hl He].
  split_and!; [rewrite Hl|rewrite He|]; vm_compute; reflexivity.
Defined.

Section threshold.
Local Open Scope Z_scope.

Lemma is_digit_range c : is_digit c = true ↔ 48 ≤ code c ≤ 57.
Proof.
  unfold is_digit, between. change (code "0") with 48. change (code "9") with 57.
  rewrite andb_true_iff, !Z.leb_le. done.
Qed.

Lemma is_digit_not_space c : is_digit c = true → is_space c = false.
Proof.
  intros Hc%is_digit_range. unfold is_space.
  repeat match goal with
         | |- context [?a <=? ?b] => destruct (Z.leb_spec a b)
         | |- context [?a =? ?b] => destruct (Z.eqb_spec a b)
         end; try reflexivity; lia.
Qed.

Lemma re_H_digit c r : is_digit c = false → re_H (String c r) = [].
Proof.
  intros Hc.
  assert (H2 : is_char "2" c = false).
  { unfold is_char. destruct (Ascii.eqb_spec "2" c) as [<-|]; [discriminate Hc|done]. }
  assert (H01 : between "0" "1" c = false).
  { apply not_true_is_false. intros Hb. apply not_true_iff_false in Hc. apply Hc.
    apply is_digit_range. unfold between in Hb.
    change (code "0") with 48 in Hb. change (code "1") with 49 in Hb.
    apply andb_true_iff in Hb as [?%Z.leb_le ?%Z.leb_le]. lia. }
  unfold re_H, alt, two, one. rewrite Hc.
  destruct r as [|c2 r]; [done|]. by rewrite H2, H01.
Qed.

Lemma re_HMS_digit s v rest :
  re_HMS s = v :: rest → ∃ c r, s = String c r ∧ is_digit c = true.
Proof.
  destruct s as [|c r]; [done|]. intros E. exists c, r. split; [done|].
  destruct (is_digit c) eqn:Hc; [done|].
  unfold re_HMS, followed_by in E. by rewrite re_H_digit in E.
Qed.

Lemma first_match_Ok {A} (l : list (A * string)) v :
  first_match l = Ok v → ∃ rest, l = (v, EmptyString) :: rest.
Proof. destruct l as [|[v' [|]] rest]; cbn; [done| |done]. intros [= <-]. by eexists. Qed.

Lemma new_datetime_Ok y m d hh mm ss us dt :
  new_datetime y m d hh mm ss us = Ok dt →
  dt = combine (mk_date y m d) (mk_time hh mm ss us)
  ∧ valid_datetime dt.
Proof.
  unfold new_datetime. destruct (check_date_fields y m d) eqn:Ed; [|done].
  destruct (check_time_fields hh mm ss us) eqn:Et; [|done].
  intros [= <-]. split; [done|].
  split; apply Is_true_true; assumption.
Qed.

(** A date followed by a space and a time of day parses as that date at
    that time of day. *)
Lemma strptime_date_and_time d s t :
  valid_date d → strptime_HMS s = Ok t →
  strptime (strftime_date d +:+ " " +:+ s) = Ok (combine d (time_of t)).
Proof.
  intros Hd Ht.
  pose proof Hd as (? & ? & ?)%valid_date_fields.
  pose proof (days_in_month_le_31 (year d) (month d) ltac:(done)).
  unfold strptime_HMS in Ht.
  apply bind_Ok in Ht as ([[hh mm] ss] & Hm & Hnew).
  apply first_match_Ok in Hm as [rest E].
  destruct (re_HMS_digit _ _ _ E) as (c & r & -> & Hc).
  apply new_datetime_Ok in Hnew as [-> [_ Hvt]]. cbn [time_of] in *.
  rewrite strftime_date_digits by assumption. rewrite app_String, app_EmptyString.
  unfold strptime, re_Ymd_HMS.
  rewrite re_Y_digits by lia. cbn [mbind list_bind app].
  rewrite re_m_digits by lia. cbn [mbind list_bind app].
  rewrite re_d_digits by (lia || by apply is_digit_not_space).
  cbn [mbind list_bind app].
  rewrite E. cbn [mbind list_bind app first_match result_bind].
  unfold new_datetime.
  unfold valid_date in Hd. unfold valid_time in Hvt. cbn [hour minute second microsecond] in Hvt.
  apply Is_true_true in Hd, Hvt. rewrite Hd, Hvt. cbn [andb]. by destruct d.
Qed.

End threshold.

(** X13: the late threshold of today is that of the statistics. *)
Theorem late_threshold_same_instant LATE_AFTER_TIME records now late_dt :
  valid_date (date_of now) →
  strptime_HMS LATE_AFTER_TIME = Ok late_dt →
  let threshold_dt := combine (date_of now) (time_of late_dt) in
  strptime (strftime_date (date_of now) +:+ " " +:+ LATE_AFTER_TIME) = Ok threshold_dt
  ∧ ∀ date today_summary,
      attendance_today records now = Ok (date, today_summary) →
      attendance_today_late LATE_AFTER_TIME records now
      = Ok (mk_today_list date
              (length (filter (first_punch_after threshold_dt) (sum_data today_summary)))
              (filter (first_punch_after threshold_dt) (sum_data today_summary))).
Proof.
  intros Hd Hlate threshold_dt.
  pose proof (strptime_date_and_time _ _ _ Hd Hlate) as Hthr.
  split; [exact Hthr|]. intros date today_summary Htoday.
  destruct (today_lists_eq LATE_AFTER_TIME EmptyString records now date today_summary Htoday)
    as [-> _].
  assert (date = strftime_date (date_of now)) as ->.
  { unfold attendance_today in Htoday.
    apply bind_Ok in Htoday as (? & _ & (? & _ & (? & _ & [= <- _])%bind_Ok)%bind_Ok).
    done. }
  by rewrite Hthr.
Qed.

Lemma late_threshold_same_instant_witness :
  strptime "2026-11-03 8:05:00" = Ok (combine (mk_date 2026 11 3) (mk_time 8 5 0 0)).
Proof.
  apply (late_threshold_same_instant "8:05:00" []
           (combine (mk_date 2026 11 3) (mk_time 18 0 0 0))
           (combine (mk_date 1900 1 1) (mk_time 8 5 0 0))).
  - exact I.
  - reflexivity.
Defined.

Section absent.

Lemma foldl_absent_step present_codes employees : ∀ absent,
  foldl (absent_step present_codes) absent employees
  = absent ++ omap (absent_row_of present_codes) employees.
Proof.
  induction employees as [|emp emps IH]; intros absent; cbn [foldl omap].
  - by rewrite app_nil_r.
  - rewrite IH. csimpl. unfold absent_step, absent_row_of.
    destruct (get (emp_emp_code emp)) as [[|a c]|]; cbn [truthy negb andb]; [done| |done].
    destruct (bool_decide _); [|done]. by rewrite <-app_assoc.
Qed.

Lemma elem_of_absent_rows present_codes (employees : list employee) row :
  row ∈ omap (absent_row_of present_codes) employees ↔
  (∃ emp, emp ∈ employees
         ∧ emp_emp_code emp = Str (abs_emp_code row)
         ∧ abs_emp_code row ≠ EmptyString
         ∧ (Some (abs_emp_code row) ∉ present_codes)
         ∧ row = mk_absent_row (abs_emp_code row) (get (emp_first_name emp))
                   (get (emp_last_name emp)) (dept_of (emp_department emp))).
Proof.
  rewrite list_elem_of_omap. unfold absent_row_of. split.
  - intros (emp & Hemp & H). exists emp.
    destruct (emp_emp_code emp) as [| |[|a c]] eqn:E; cbn in H; try done.
    destruct (bool_decide_reflect (Some (String a c) ∉ present_codes)); [|done].
    injection H as <-. cbn. by split_and!.
  - intros (emp & Hemp & E & Hne & Hnot & Hrow). exists emp. split; [done|].
    destruct row as [code fn ln dp]. cbn [abs_emp_code] in *.
    rewrite E. cbn [get]. destruct code as [|a c]; [done|].
    cbn [truthy andb]. rewrite bool_decide_true by done. by rewrite Hrow.
Qed.

(** The codes of the rows of the summary are the employee codes of the
    records of the page. *)
Lemma summary_codes records start_dt end_dt out k :
  build_attendance_summary records start_dt end_dt = Ok out →
  k ∈ sum_emp_code <$> sum_data out ↔ ∃ r, r ∈ records ∧ emp_code_of r = k.
Proof.
  intros (rows & Hrows & _ & Hperm & _)%build_attendance_summary_rows.
  destruct (grouping_spec records) as (_ & Hps & Hin & _).
  destruct (summarises_keys _ _ Hrows) as [Hkeys _].
  rewrite Hperm, Hkeys. split.
  - intros ([k' ps] & -> & Hitem)%list_elem_of_fmap. cbn [fst].
    destruct (Hps k' ps Hitem) as [-> Hne].
    destruct (punches_with k' records) as [|r l] eqn:E; [done|].
    assert (r ∈ punches_with k' records) as [? ?]%list_elem_of_filter
      by (rewrite E; left).
    by exists r.
  - intros (r & Hr & <-). by apply Hin.
Qed.

End absent.

(** X14: the employees absent today. *)
Theorem absent_today_complements_present employees records now out :
  attendance_today_absent employees records now = Ok out →
  ∃ today_summary,
    attendance_today records now = Ok (absent_date out, today_summary)
    ∧ absent_count out = length (absent_data out)
    ∧ StronglySorted (λ x y, String.leb (abs_emp_code x) (abs_emp_code y) = true)
        (absent_data out)
    ∧ (∀ row, row ∈ absent_data out →
         ∃ emp, emp ∈ employees
                ∧ emp_emp_code emp = Str (abs_emp_code row)
                ∧ abs_emp_code row ≠ EmptyString
                ∧ abs_first_name row = get (emp_first_name emp)
                ∧ abs_last_name row = get (emp_last_name emp)
                ∧ abs_department row = dept_of (emp_department emp))
    ∧ ∀ emp (c : string),
        emp ∈ employees → emp_emp_code emp = Str c → c ≠ EmptyString →
        ((∃ row, row ∈ absent_data out ∧ abs_emp_code row = c)
           ↔ ¬ ∃ r, r ∈ records ∧ emp_code_of r = Some c)
        ∧ ((∃ row, row ∈ sum_data today_summary ∧ sum_emp_code row = Some c)
           ↔ ∃ r, r ∈ records ∧ emp_code_of r = Some c).
Proof.
  unfold attendance_today_absent.
  intros ([date today_summary] & Htoday & [= <-])%bind_Ok.
  exists today_summary. cbn [absent_date absent_count absent_data].
  pose proof Htoday as (start_dt & end_dt & Hout)%attendance_today_Ok.
  set (present_codes := list_to_set (sum_emp_code <$> sum_data today_summary)
                        : gset (option string)).
  assert (Hpresent : ∀ k, k ∈ present_codes ↔ ∃ r, r ∈ records ∧ emp_code_of r = k).
  { intros k. unfold present_codes. rewrite elem_of_list_to_set.
    by apply (summary_codes records start_dt end_dt). }
  split_and!.
  - done.
  - done.
  - apply sorted_sorted; [apply string_leb_total|apply string_leb_trans].
  - intros row. rewrite elem_of_sorted, foldl_absent_step. cbn [app].
    intros (emp & ? & ? & ? & _ & ->)%elem_of_absent_rows. by exists emp.
  - intros emp c Hemp Ec Hc. split.
    + rewrite <-Hpresent. split.
      * intros (row & Hrow & <-).
        rewrite elem_of_sorted, foldl_absent_step in Hrow. cbn [app] in Hrow.
        by apply elem_of_absent_rows in Hrow as (_ & _ & _ & _ & ? & _).
      * intros Hnot.
        exists (mk_absent_row c (get (emp_first_name emp)) (get (emp_last_name emp))
                  (dept_of (emp_department emp))).
        split; [|done]. rewrite elem_of_sorted, foldl_absent_step. cbn [app].
        apply elem_of_absent_rows. exists emp. by split_and!.
    + rewrite <-Hpresent. unfold present_codes.
      rewrite elem_of_list_to_set, list_elem_of_fmap. split.
      * intros (row & ? & ?). by exists row.
      * intros (row & ? & ?). by exists row.
Qed.

Lemma absent_today_complements_present_witness :
  let employees := [sample_employee "3"; sample_employee "1"; sample_employee "2"] in
  let records := [sample_punch "2" "2026-11-03 08:00:00"] in
  let now := combine (mk_date 2026 11 3) (mk_time 18 0 0 0) in
  let out :=
    mk_absent_list "2026-11-03" 2
      [mk_absent_row "1" None None None; mk_absent_row "3" None None None] in
  ∃ today_summary,
    attendance_today records now = Ok (absent_date out, today_summary)
    ∧ absent_count out = length (absent_data out)
    ∧ StronglySorted (λ x y, String.leb (abs_emp_code x) (abs_emp_code y) = true)
        (absent_data out).
Proof.
  intros employees records now out.
  destruct (absent_today_complements_present employees records now out)
    as (today_summary & H1 & H2 & H3 & _); [vm_compute; reflexivity|].
  by exists today_summary.
Defined.

(* ------------------------------------------------------------------ *)
(** ** The reports as a whole *)

Section counters.
Variable late : time.
Variable emp_punches : gmap string (list transaction).
Hypothesis buckets : ∀ day, Forall has_timestamp (daily_txs emp_punches day).

(** A late day is a required day that is not an absent one. *)
Lemma period_stats_late_bound days : ∀ st st',
  foldlM (classify_day late emp_punches) st days = Ok st' →
  days_late st' + days_absent st' + total_required_days st
  ≤ days_late st + days_absent st + total_required_days st'.
Proof using buckets.
  induction days as [|day days IH]; intros st st' H.
  - by injection H as <-.
  - cbn [foldlM] in H. apply bind_Ok in H as (st1 & H1 & H).
    apply IH in H.
    apply classify_day_Ok in H1 as (c & _ & ->); [|apply buckets].
    destruct c;
      cbn [record_day days_late days_absent total_required_days] in H; lia.
Qed.

End counters.

Lemma worked_sunday_is_sunday emp_punches day :
  worked_sunday emp_punches day = true → is_sunday day = true.
Proof. unfold worked_sunday. by intros [? _]%andb_true_iff. Qed.

Lemma worked_and_working_days emp_punches (days : list datetime) :
  length (filter (worked_sunday emp_punches) days)
  + length (filter (λ day, negb (is_sunday day)) days) ≤ length days.
Proof.
  induction days as [|day days IH]; [done|].
  rewrite !length_filter_cons_bool. cbn [length].
  destruct (worked_sunday emp_punches day) eqn:E.
  - rewrite (worked_sunday_is_sunday _ _ E). cbn. lia.
  - destruct (is_sunday day); cbn; lia.
Qed.

(** X15: the counters of a row. *)
Theorem stats_counters_bounds LATE employees transactions start_dt end_dt report :
  calculate_attendance_stats LATE employees transactions start_dt end_dt = Ok report →
  ∃ all_dates,
    generate_date_list start_dt end_dt = Ok all_dates
    ∧ ∀ row, row ∈ report →
        total_required_days (row_stats row)
        = length (filter (λ day, negb (is_sunday day)) all_dates)
        ∧ days_late (row_stats row) + days_absent (row_stats row)
          ≤ total_required_days (row_stats row)
        ∧ days_late (row_stats row) ≤ days_present (row_stats row)
        ∧ days_present (row_stats row) ≤ length all_dates.
Proof.
  intros (late_dt & all_dates & _ & Hd & Hrows & _)%elem_of_report.
  exists all_dates. split; [done|]. intros row Hrow.
  destruct (Hrows row Hrow) as (ce & _ & _ & Hst).
  pose proof (period_stats_inv _ _ (daily_txs_has_timestamp transactions ce.1)
                _ _ _ Hst) as (Hb & Hr & _).
  pose proof (period_stats_late_bound _ _ (daily_txs_has_timestamp transactions ce.1)
                _ _ _ Hst) as Hl.
  pose proof (worked_and_working_days
                (punches_of (index_transactions transactions) ce.1) all_dates) as Hw.
  cbn [initial_stats days_present days_late days_absent total_required_days]
    in Hb, Hr, Hl.
  split_and!; lia.
Qed.

Lemma stats_counters_bounds_witness :
  ∃ all_dates,
    generate_date_list (at_midnight 2024 2 4) (at_midnight 2024 2 7) = Ok all_dates
    ∧ ∀ row,
        row ∈ [mk_report_row "1" (Some EmptyString) (Some EmptyString) None
                 (mk_stats 1 1 2 3
                    [mk_late_detail "2024-02-06" "2024-02-06 08:30:00" "0:25:00"]
                    ["2024-02-05"; "2024-02-07"])] →
        total_required_days (row_stats row)
        = length (filter (λ day, negb (is_sunday day)) all_dates)
        ∧ days_late (row_stats row) + days_absent (row_stats row)
          ≤ total_required_days (row_stats row)
        ∧ days_late (row_stats row) ≤ days_present (row_stats row)
        ∧ days_present (row_stats row) ≤ length all_dates.
Proof.
  apply (stats_counters_bounds "08:05:00" [sample_employee "1"]
           [sample_punch "1" "2024-02-06 08:30:00"]
           (at_midnight 2024 2 4) (at_midnight 2024 2 7)).
  vm_compute. reflexivity.
Defined.

Lemma fmap_zip_with_row_of (l : list (string * employee)) sts :
  length l = length sts →
  row_emp_code <$> zip_with row_of l sts = l.*1.
Proof.
  revert sts. induction l as [|ce l IH]; intros [|st sts]; csimpl; try done.
  intros [= Hlen]. by rewrite IH.
Qed.

(** X16: the rows of a report and the employees. *)
Theorem report_rows_match_roster LATE employees transactions start_dt end_dt report :
  calculate_attendance_stats LATE employees transactions start_dt end_dt = Ok report →
  row_emp_code <$> report ≡ₚ (roster employees).*1
  ∧ length report = length (roster employees)
  ∧ ∀ row, row ∈ report →
      ∃ emp, emp ∈ employees
             ∧ emp_emp_code emp = Str (row_emp_code row)
             ∧ row_emp_code row ≠ EmptyString
             ∧ row_first_name row = get_default (emp_first_name emp) EmptyString
             ∧ row_last_name row = get_default (emp_last_name emp) EmptyString
             ∧ row_department row = dept_of (emp_department emp).
Proof.
  intros Hcalc.
  pose proof Hcalc as (late_dt & all_dates & sts & _ & _ & Hsts & ->)%calculate_attendance_stats_Ok.
  apply Forall2_length in Hsts as Hlen.
  split_and!.
  - rewrite sorted_perm. by rewrite fmap_zip_with_row_of.
  - by rewrite sorted_length, length_zip_with, <-Hlen, Nat.min_id.
  - intros row Hrow.
    apply elem_of_report in Hcalc as (late_dt' & all_dates' & _ & _ & Hrows & _).
    destruct (Hrows row Hrow) as ([c emp] & Hce & Erow & _).
    apply elem_of_roster in Hce as (? & ? & ?). exists emp.
    rewrite Erow. cbn. by split_and!.
Qed.

Lemma report_rows_match_roster_witness :
  let employees :=
    [sample_employee "2"; mk_employee Null Missing Missing DeptMissing;
     sample_employee "1"; sample_employee EmptyString; sample_employee "2"] in
  ∃ report,
    calculate_attendance_stats "08:05:00" employees [] (at_midnight 2024 2 5)
      (at_midnight 2024 2 5) = Ok report
    ∧ row_emp_code <$> report = ["1"; "2"; "2"]%string
    ∧ length report = length (roster employees).
Proof.
  intros employees. eexists. split; [vm_compute; reflexivity|].
  split; [reflexivity|].
  apply (report_rows_match_roster "08:05:00" employees [] (at_midnight 2024 2 5)
           (at_midnight 2024 2 5)).
  vm_compute. reflexivity.
Defined.

Lemma generate_date_list_empty start_dt end_dt :
  date_le (date_of start_dt) (date_of end_dt) = false →
  generate_date_list start_dt end_dt = Ok [].
Proof.
  intros H. unfold generate_date_list, all_dates_fuel. cbn [all_dates_loop].
  by rewrite H.
Qed.

Lemma zip_with_row_of_const (l : list (string * employee)) st row :
  row ∈ zip_with row_of l ((λ _, st) <$> l) → row_stats row = st.
Proof.
  induction l as [|ce l IH]; csimpl; [by intros ?%elem_of_nil|].
  intros [->|?]%elem_of_cons; [done|by apply IH].
Qed.

(** X17: a period that ends before it starts. *)
Theorem empty_range_zero_counters LATE employees transactions start_dt end_dt late_dt :
  strptime_HMS LATE = Ok late_dt →
  date_le (date_of start_dt) (date_of end_dt) = false →
  ∃ report,
    calculate_attendance_stats LATE employees transactions start_dt end_dt = Ok report
    ∧ length report = length (roster employees)
    ∧ (∀ row, row ∈ report → row_stats row = initial_stats)
    ∧ ∀ period_type,
        build_report LATE employees transactions period_type start_dt end_dt
        = Ok (mk_report period_type (strftime start_dt) (strftime end_dt) 0 []).
Proof.
  intros Hlate Hempty.
  set (sts := (λ _, initial_stats) <$> roster employees).
  assert (Hcalc : calculate_attendance_stats LATE employees transactions start_dt end_dt
                  = Ok (sorted String.leb row_emp_code
                          (zip_with row_of (roster employees) sts))).
  { apply calculate_attendance_stats_Ok. exists late_dt, [], sts.
    split_and!; [done|by apply generate_date_list_empty| |done].
    unfold sts. induction (roster employees); csimpl; by constructor. }
  assert (Hrows : ∀ row,
            row ∈ sorted String.leb row_emp_code (zip_with row_of (roster employees) sts) →
            row_stats row = initial_stats).
  { intros row. rewrite elem_of_sorted. apply zip_with_row_of_const. }
  eexists. split_and!; [exact Hcalc| |exact Hrows|].
  - rewrite sorted_length, length_zip_with. unfold sts. rewrite length_fmap. lia.
  - intros period_type. unfold build_report. rewrite Hcalc.
    cbn [mbind result_bind mret result_ret].
    rewrite (filter_none (λ d, Is_true (late_or_absent d))); [done|].
    intros row Hrow. unfold late_or_absent. rewrite (Hrows row Hrow).
    vm_compute. exact id.
Qed.

Lemma empty_range_zero_counters_witness :
  ∃ report,
    calculate_attendance_stats "08:05:00" [sample_employee "7"]
      [sample_punch "7" "2024-02-05 09:00:00"]
      (at_midnight 2024 2 6) (at_midnight 2024 2 5) = Ok report
    ∧ length report = length (roster [sample_employee "7"])
    ∧ (∀ row, row ∈ report → row_stats row = initial_stats).
Proof.
  destruct (empty_range_zero_counters "08:05:00" [sample_employee "7"]
              [sample_punch "7" "2024-02-05 09:00:00"]
              (at_midnight 2024 2 6) (at_midnight 2024 2 5)
              (combine (mk_date 1900 1 1) (mk_time 8 5 0 0)))
    as (report & H1 & H2 & H3 & _); [reflexivity..|].
  by exists report.
Defined.

(** X18: what makes the statistics fail. *)
Theorem stats_failure_modes LATE employees transactions start_dt end_dt :
  valid_datetime start_dt → valid_date (date_of end_dt) →
  (strptime_HMS LATE = Raise ValueError →
     calculate_attendance_stats LATE employees transactions start_dt end_dt
     = Raise ValueError)
  ∧ (∀ late_dt, strptime_HMS LATE = Ok late_dt →
       date_le (date_of start_dt) (date_of end_dt) = true →
       date_of end_dt = mk_date 9999 12 31 →
       calculate_attendance_stats LATE employees transactions start_dt end_dt
       = Raise OverflowError)
  ∧ ((∃ report,
        calculate_attendance_stats LATE employees transactions start_dt end_dt
        = Ok report)
     ∨ calculate_attendance_stats LATE employees transactions start_dt end_dt
       = Raise ValueError
     ∨ calculate_attendance_stats LATE employees transactions start_dt end_dt
       = Raise OverflowError).
Proof.
  intros Hs He. unfold calculate_attendance_stats.
  rewrite all_dates_loop_enough by assumption. split_and!.
  - by intros ->.
  - intros late_dt -> Hle Hend. cbn [mbind result_bind].
    rewrite date_le_toordinal in Hle by (done || apply Hs).
    apply Z.leb_le in Hle.
    unfold loop_overflows. rewrite bool_decide_true; [done|].
    split; [done|]. by rewrite Hend.
  - destruct (strptime_HMS_outcome LATE) as [[late_dt ->]| ->]; [|right; by left].
    cbn [mbind result_bind].
    destruct (loop_overflows start_dt end_dt); [right; by right|].
    cbn [mbind result_bind].
    destruct (foldlM_outcome
                (employee_stats (time_of late_dt) (index_transactions transactions)
                   (date_span start_dt end_dt)) ValueError employees) with (a := @nil report_row)
      as [[rd ->]| ->].
    + intros acc emp _. apply employee_stats_outcome.
    + left. by eexists.
    + right. by left.
Qed.

Lemma stats_failure_modes_witness :
  calculate_attendance_stats "08:05:00" [] []
    (at_midnight 9999 12 30) (at_midnight 9999 12 31)
  = Raise OverflowError.
Proof.
  apply (proj1 (proj2 (stats_failure_modes "08:05:00" [] []
                         (at_midnight 9999 12 30) (at_midnight 9999 12 31)
                         ltac:(split; exact I) I))
           (combine (mk_date 1900 1 1) (mk_time 8 5 0 0))); reflexivity.
Defined.

Section locality.
Variable late : time.

Lemma classify_day_daily_txs ep1 ep2 st day :
  daily_txs ep1 day = daily_txs ep2 day →
  classify_day late ep1 st day = classify_day late ep2 st day.
Proof.
  unfold classify_day. fold (daily_txs ep1 day) (daily_txs ep2 day). by intros ->.
Qed.

Lemma foldlM_ext {A B} (f g : A → B → result A) l :
  (∀ a x, x ∈ l → f a x = g a x) → ∀ a, foldlM f a l = foldlM g a l.
Proof.
  induction l as [|y l IH]; intros Hfg a; [done|]. cbn [foldlM].
  rewrite Hfg by left. destruct (g a y); cbn [mbind result_bind]; [|done..].
  apply IH. intros ???. apply Hfg. by right.
Qed.

Lemma employee_stats_local m1 m2 days acc emp :
  (∀ c day, emp_emp_code emp = Str c → day ∈ days →
     punches_on m1 c (strftime_date (date_of day))
     = punches_on m2 c (strftime_date (date_of day))) →
  employee_stats late m1 days acc emp = employee_stats late m2 days acc emp.
Proof.
  intros Hsame. unfold employee_stats.
  destruct (emp_emp_code emp) as [| |c] eqn:Ec; cbn [get]; [done..|].
  destruct (negb (truthy (Some c))); [done|].
  rewrite (foldlM_ext (classify_day late (default ∅ (m1 !! c)))
             (classify_day late (default ∅ (m2 !! c)))); [done|].
  intros st day Hday. apply classify_day_daily_txs.
  by apply (Hsame c day).
Qed.

End locality.

(** X19: the punches that the statistics read. *)
Theorem stats_read_own_punches_in_range
    LATE employees transactions1 transactions2 start_dt end_dt all_dates :
  generate_date_list start_dt end_dt = Ok all_dates →
  (∀ emp (c : string) day,
     emp ∈ employees → emp_emp_code emp = Str c → day ∈ all_dates →
     punches_on (index_transactions transactions1) c (strftime_date (date_of day))
     = punches_on (index_transactions transactions2) c (strftime_date (date_of day))) →
  calculate_attendance_stats LATE employees transactions1 start_dt end_dt
  = calculate_attendance_stats LATE employees transactions2 start_dt end_dt.
Proof.
  intros Hd Hsame. unfold calculate_attendance_stats. rewrite Hd.
  destruct (strptime_HMS LATE) as [late_dt| |]; [|done..].
  cbn [mbind result_bind].
  rewrite (foldlM_ext
             (employee_stats (time_of late_dt) (index_transactions transactions1) all_dates)
             (employee_stats (time_of late_dt) (index_transactions transactions2) all_dates));
    [done|].
  intros acc emp Hemp. apply employee_stats_local.
  intros c day Ec Hday. by apply (Hsame emp).
Qed.

Lemma stats_read_own_punches_in_range_witness :
  calculate_attendance_stats "08:05:00" [sample_employee "1"]
    [sample_punch "1" "2024-02-05 08:00:00"; sample_punch "2" "2024-02-05 09:00:00";
     sample_punch "1" "2024-02-09 10:00:00"]
    (at_midnight 2024 2 5) (at_midnight 2024 2 6)
  = calculate_attendance_stats "08:05:00" [sample_employee "1"]
      [sample_punch "1" "2024-02-05 08:00:00"]
      (at_midnight 2024 2 5) (at_midnight 2024 2 6).
Proof.
  apply (stats_read_own_punches_in_range "08:05:00" [sample_employee "1"]
           [sample_punch "1" "2024-02-05 08:00:00"; sample_punch "2" "2024-02-05 09:00:00";
            sample_punch "1" "2024-02-09 10:00:00"]
           [sample_punch "1" "2024-02-05 08:00:00"]
           (at_midnight 2024 2 5) (at_midnight 2024 2 6)
           [at_midnight 2024 2 5; at_midnight 2024 2 6]).
  - reflexivity.
  - intros emp c day ->%list_elem_of_singleton [= <-] Hday.
    apply elem_of_cons in Hday as [->|Hday];
      [|apply list_elem_of_singleton in Hday as ->]; reflexivity.
Defined.

(* ------------------------------------------------------------------ *)
(** ** The base address *)

Section base_url.

Lemma prefix_app p s : String.prefix p s = true → ∃ rest, s = (p +:+ rest)%string.
Proof.
  revert s. induction p as [|c p IH]; intros s; [by exists s|].
  destruct s as [|c' s]; [done|]. cbn [String.prefix].
  destruct (Ascii.ascii_dec c c') as [<-|]; [|done].
  intros (rest & ->)%IH. by exists rest.
Qed.

Lemma prefix_app_true p rest : String.prefix p (p +:+ rest) = true.
Proof.
  induction p as [|c p IH]; [by destruct rest|]. simpl.
  destruct (Ascii.ascii_dec c c); [exact IH|done].
Qed.

Lemma rstrip_slash_slashes s : ∃ k, s = (rstrip_slash s +:+ slashes k)%string.
Proof.
  induction s as [|c s [k IH]]; [by exists 0|]. cbn [rstrip_slash].
  destruct (rstrip_slash s) as [|c' r] eqn:E.
  - destruct (Ascii.eqb_spec c "/") as [->|].
    + exists (S k). cbn. by rewrite IH at 1.
    + exists k. cbn. by rewrite IH at 1.
  - exists k. cbn. by rewrite IH at 1.
Qed.

Lemma rstrip_slash_no_slash s t : rstrip_slash s ≠ (t +:+ "/")%string.
Proof.
  revert t. induction s as [|c s IH]; intros t; cbn [rstrip_slash].
  - by destruct t.
  - destruct (rstrip_slash s) as [|c' r] eqn:E.
    + destruct (Ascii.eqb_spec c "/") as [->|Hc]; [by destruct t|].
      destruct t as [|a [|b t]]; simpl; intros H; inversion H; by subst.
    + destruct t as [|a t]; cbn; [by intros [= _ ?]|].
      intros [= _ H]. by apply (IH t).
Qed.

Lemma rstrip_slash_cons c s :
  rstrip_slash (String c s)
  = match rstrip_slash s with
    | EmptyString => if Ascii.eqb c "/" then EmptyString else String c EmptyString
    | r => String c r
    end.
Proof. reflexivity. Qed.

Lemma rstrip_slash_idemp s : rstrip_slash (rstrip_slash s) = rstrip_slash s.
Proof.
  induction s as [|c s IH]; [done|]. rewrite rstrip_slash_cons.
  destruct (rstrip_slash s) as [|c' r] eqn:E.
  - destruct (Ascii.eqb_spec c "/") as [->|Hc]; [done|].
    rewrite rstrip_slash_cons. cbn [rstrip_slash].
    by destruct (Ascii.eqb_spec c "/").
  - by rewrite rstrip_slash_cons, IH.
Qed.

Lemma rstrip_slash_app p rest :
  rstrip_slash (p +:+ rest)
  = match rstrip_slash rest with
    | EmptyString => rstrip_slash p
    | r => (p +:+ r)%string
    end.
Proof.
  induction p as [|c p IH].
  - change (EmptyString +:+ rest)%string with rest.
    destruct (rstrip_slash rest); reflexivity.
  - change (String c p +:+ rest)%string with (String c (p +:+ rest)).
    rewrite rstrip_slash_cons, IH.
    destruct (rstrip_slash rest) as [|c' r]; [by rewrite rstrip_slash_cons|].
    by destruct p.
Qed.

Lemma raw_base_has_scheme env : has_scheme (raw_base env) = true.
Proof.
  unfold raw_base, has_scheme.
  destruct (String.prefix "http://" (env_or env "http://localhost:8080")) eqn:E1;
    cbn [negb andb]; [by rewrite E1|].
  destruct (String.prefix "https://" (env_or env "http://localhost:8080")) eqn:E2;
    cbn [negb andb]; [by rewrite E1, E2|].
  by rewrite (prefix_app_true "http://").
Qed.

End base_url.

(** X20: the base address of the upstream service. *)
Theorem base_url_normalised env :
  let b := BIOTIME_BASE env in
  (∃ k, raw_base env = (b +:+ slashes k)%string)
  ∧ (∀ t, b ≠ (t +:+ "/")%string)
  ∧ (has_scheme b = true ∨ b = "http:"%string ∨ b = "https:"%string)
  ∧ (has_scheme b = true → BIOTIME_BASE (Some b) = b)
  ∧ BIOTIME_BASE None = "http://localhost:8080"%string
  ∧ BIOTIME_BASE (Some EmptyString) = "http://localhost:8080"%string
  ∧ BIOTIME_BASE (Some "https://"%string) = "https:"%string.
Proof.
  intros b. unfold b, BIOTIME_BASE. split_and!.
  - apply rstrip_slash_slashes.
  - apply rstrip_slash_no_slash.
  - pose proof (raw_base_has_scheme env) as Hs. unfold has_scheme in *.
    apply orb_true_iff in Hs as [(rest & ->)%prefix_app|(rest & ->)%prefix_app];
      rewrite rstrip_slash_app; destruct (rstrip_slash rest) as [|c r]; auto.
  - intros Hs. set (r := rstrip_slash (raw_base env)) in *.
    unfold raw_base, env_or. unfold has_scheme in Hs.
    assert (truthy (Some r) = true) as ->.
    { destruct r; [done|done]. }
    apply orb_true_iff in Hs as [->| ->]; cbn [negb andb];
      [|rewrite andb_false_r]; apply rstrip_slash_idemp.
  - reflexivity.
  - reflexivity.
  - reflexivity.
Qed.

Lemma base_url_normalised_witness :
  BIOTIME_BASE (Some (BIOTIME_BASE (Some "biotime.local:8080//"%string)))
  = BIOTIME_BASE (Some "biotime.local:8080//"%string).
Proof.
  apply (proj1 (proj2 (proj2 (proj2
           (base_url_normalised (Some "biotime.local:8080//"%string)))))).
  reflexivity.
Defined.
